(** * IMX219 camera session (camera_stream.py)

    A shallow embedding of the class [IMX219Camera] of [camera_stream.py]:
    its constructor, the GStreamer pipeline builder, [open], [read],
    [get_fps], [close] and the context-manager methods.

    The class is glue over OpenCV's [cv2.VideoCapture], [time.time] and
    [print].  Those collaborators are not modelled by an implementation:
    every call the class makes to them is recorded in a trace of events,
    and the answer of the call is supplied by the caller of the model (an
    oracle), so that a statement quantified over the oracle holds for every
    behaviour of the backend.  Python exceptions are explicit: a call either
    returns a value or raises. *)

From Stdlib Require Import ZArith String List Bool Lia.
From Stdlib Require Import Floats DecimalString.
Import ListNotations.

Local Open Scope string_scope.
Local Open Scope Z_scope.

(** ** Python values and exceptions *)

(** The exception classes that occur in the model.  [KeyboardInterrupt] and
    [SystemExit] derive from [BaseException] only; the others derive from
    [Exception] ([cv2.error] among them). *)
Inductive exn_class : Type :=
  | CvError
  | TypeError
  | AttributeError
  | OverflowError
  | ZeroDivisionError
  | KeyboardInterrupt
  | SystemExit.

(** [isinstance(e, Exception)], what [except Exception] tests. *)
Definition is_Exception (c : exn_class) : bool :=
  match c with
  | KeyboardInterrupt | SystemExit => false
  | _ => true
  end.

Record exn : Type := mkExn { exn_cls : exn_class; exn_msg : string }.

(** The result of a call: a returned value or a raised exception. *)
Inductive outcome (A : Type) : Type :=
  | Ret (a : A)
  | Raise (e : exn).
Arguments Ret {A} a.
Arguments Raise {A} e.

(** [str(n)] for a Python [int]. *)
Definition str_int (n : Z) : string := NilZero.string_of_int (Z.to_int n).

(** [float(n)] for a Python [int]: the nearest binary64 value, ties to even;
    the result is infinite exactly where Python raises [OverflowError]. *)
Definition float_of_int (n : Z) : float :=
  SF2Prim (SpecFloat.binary_normalize 53 1024 n 0 false).

(** [n / x] for an [int] n and a [float] x. *)
Definition int_truediv_float (n : Z) (x : float) : outcome float :=
  let f := float_of_int n in
  if PrimFloat.is_infinity f then
    Raise (mkExn OverflowError "int too large to convert to float")
  else if PrimFloat.eqb x 0%float then
    Raise (mkExn ZeroDivisionError "float division by zero")
  else Ret (PrimFloat.div f x).

(** ** The OpenCV collaborator *)

(** A frame is a numpy array; the class looks at its [shape] only. *)
Record Frame : Type := mkFrame {
  shape0 : Z;           (* rows  *)
  shape1 : Z;           (* columns *)
  pixels : list Z
}.

(** The identity of a [cv2.VideoCapture] object. *)
Definition Cap : Type := nat.

Inductive api_preference : Type := CAP_GSTREAMER | CAP_V4L2.
Inductive cap_prop : Type :=
  CAP_PROP_FRAME_WIDTH | CAP_PROP_FRAME_HEIGHT | CAP_PROP_FPS.

(** What [print] is called with. *)
Inductive message : Type :=
  | MsgOpening (device : string)
  | MsgResolution (w h fps : Z)
  | MsgUsingGStreamer
  | MsgUsingV4L2
  | MsgFailedToOpen
  | MsgFailedTestFrame
  | MsgOpened
  | MsgActualResolution (cols rows : Z)
  | MsgErrorOpening (e : exn)
  | MsgClosed.

(** The calls the class makes to the outside, in program order. *)
Inductive event : Type :=
  | EvPrint (m : message)
  | EvVideoCapture (target : string) (api : api_preference)
  | EvSet (c : Cap) (p : cap_prop) (v : Z)
  | EvIsOpened (c : Cap)
  | EvRead (c : Cap)
  | EvRelease (c : Cap)
  | EvTime.

Definition is_release (e : event) : bool :=
  match e with EvRelease _ => true | _ => false end.

Definition is_read (e : event) : bool :=
  match e with EvRead _ => true | _ => false end.

(** Number of [release()] calls in a trace. *)
Definition releases (t : list event) : nat := length (filter is_release t).

(** Number of [read()] calls in a trace. *)
Definition pulls (t : list event) : nat := length (filter is_read t).

(** ** The session object *)

Record IMX219Camera : Type := mkCamera {
  device : string;
  width : Z;
  height : Z;
  framerate : Z;
  use_gstreamer : bool;
  cap : option Cap;
  frame_count : Z;
  start_time : option float
}.

(** [IMX219Camera.__init__]: no call to the outside. *)
Definition __init__ (device : string) (width height framerate : Z)
    (use_gstreamer : bool) : IMX219Camera :=
  {| device := device;
     width := width;
     height := height;
     framerate := framerate;
     use_gstreamer := use_gstreamer;
     cap := None;
     frame_count := 0;
     start_time := None |}.

(** The constructor with its default arguments. *)
Definition default_camera : IMX219Camera :=
  __init__ "/dev/video0" 1280 720 30 true.

Definition set_cap (c : option Cap) (s : IMX219Camera) : IMX219Camera :=
  {| device := device s; width := width s; height := height s;
     framerate := framerate s; use_gstreamer := use_gstreamer s;
     cap := c;
     frame_count := frame_count s; start_time := start_time s |}.

Definition set_frame_count (n : Z) (s : IMX219Camera) : IMX219Camera :=
  {| device := device s; width := width s; height := height s;
     framerate := framerate s; use_gstreamer := use_gstreamer s;
     cap := cap s;
     frame_count := n; start_time := start_time s |}.

Definition set_start_time (t : option float) (s : IMX219Camera) : IMX219Camera :=
  {| device := device s; width := width s; height := height s;
     framerate := framerate s; use_gstreamer := use_gstreamer s;
     cap := cap s;
     frame_count := frame_count s; start_time := t |}.

(** ** Methods as computations

    A method is a function of the object's state that gives the outcome of
    the call, the state after it and the trace of the calls it made.  A
    raised exception keeps the state changes and the trace made so far. *)

Definition M (A : Type) : Type :=
  IMX219Camera -> outcome A * IMX219Camera * list event.

Definition ret {A} (a : A) : M A := fun s => (Ret a, s, []).

Definition bind {A B} (m : M A) (f : A -> M B) : M B :=
  fun s =>
    match m s with
    | (Ret a, s1, t1) =>
        let '(r, s2, t2) := f a s1 in (r, s2, (t1 ++ t2)%list)
    | (Raise e, s1, t1) => (Raise e, s1, t1)
    end.

Declare Scope py_scope.
Delimit Scope py_scope with py.
Notation "x <- c ;; k" := (bind c (fun x => k))
  (at level 61, c at next level, right associativity) : py_scope.
Notation "c ;; k" := (bind c (fun _ => k))
  (at level 61, right associativity) : py_scope.
Local Open Scope py_scope.

Definition raise {A} (e : exn) : M A := fun s => (Raise e, s, []).

(** The outcome of a pure Python operation, which touches neither the object
    nor the outside. *)
Definition lift {A} (o : outcome A) : M A := fun s => (o, s, []).

(** [self]. *)
Definition get : M IMX219Camera := fun s => (Ret s, s, []).

(** An attribute assignment [self.x = v]. *)
Definition modify (f : IMX219Camera -> IMX219Camera) : M unit :=
  fun s => (Ret tt, f s, []).

(** A call to the outside: recorded, and answered by the oracle. *)
Definition call {A} (ev : event) (answer : outcome A) : M A :=
  fun s => (answer, s, [ev]).

Definition print (m : message) : M unit := call (EvPrint m) (Ret tt).

(** [try: body except Exception as e: handler e]. *)
Definition try_except_Exception {A} (body : M A) (handler : exn -> M A) : M A :=
  fun s =>
    match body s with
    | (Raise e, s1, t1) =>
        if is_Exception (exn_cls e) then
          let '(r, s2, t2) := handler e s1 in (r, s2, (t1 ++ t2)%list)
        else (Raise e, s1, t1)
    | r => r
    end.

(** A method call on [self.cap]; on [None] the attribute lookup fails. *)
Definition with_cap {A} (attr : string) (k : Cap -> M A) : M A :=
  self <- get ;;
  match cap self with
  | Some c => k c
  | None =>
      raise (mkExn AttributeError
               ("'NoneType' object has no attribute '" ++ attr ++ "'"))
  end.

(** [frame.shape[1]], [frame.shape[0]]. *)
Definition frame_shape (frame : option Frame) : M (Z * Z) :=
  match frame with
  | Some f => ret (shape1 f, shape0 f)
  | None =>
      raise (mkExn AttributeError "'NoneType' object has no attribute 'shape'")
  end.

(** ** The methods *)

(** [IMX219Camera._build_gstreamer_pipeline] *)
Definition _build_gstreamer_pipeline (self : IMX219Camera) : string :=
  "nvarguscamerasrc sensor-id=0 ! " ++
  "video/x-raw(memory:NVMM), " ++
  "width=" ++ str_int (width self) ++ ", height=" ++ str_int (height self) ++ ", " ++
  "format=NV12, framerate=" ++ str_int (framerate self) ++ "/1 ! " ++
  "nvvidconv ! " ++
  "video/x-raw, width=" ++ str_int (width self) ++ ", height=" ++
     str_int (height self) ++ ", format=BGRx ! " ++
  "videoconvert ! " ++
  "video/x-raw, format=BGR ! " ++
  "appsink max-buffers=1 drop=true sync=false".

(** [IMX219Camera.close]; [release()] returns nothing and has no failure
    report. *)
Definition close : M unit :=
  self <- get ;;
  (match cap self with
   | Some c =>
       call (EvRelease c) (Ret tt) ;;
       modify (set_cap None)
   | None => ret tt
   end) ;;
  print MsgClosed.

(** The answers of the outside to the calls of one [open]. *)
Record OpenEnv : Type := mkOpenEnv {
  env_VideoCapture : outcome Cap;
  env_set_width : outcome bool;
  env_set_height : outcome bool;
  env_set_fps : outcome bool;
  env_isOpened : outcome bool;
  env_read : outcome (bool * option Frame);
  env_time : float
}.

(** [IMX219Camera.open] *)
Definition open (env : OpenEnv) : M bool :=
  self <- get ;;
  print (MsgOpening (device self)) ;;
  print (MsgResolution (width self) (height self) (framerate self)) ;;
  try_except_Exception
    ((if use_gstreamer self then
        let pipeline := _build_gstreamer_pipeline self in
        print MsgUsingGStreamer ;;
        c <- call (EvVideoCapture pipeline CAP_GSTREAMER) (env_VideoCapture env) ;;
        modify (set_cap (Some c))
      else
        print MsgUsingV4L2 ;;
        c <- call (EvVideoCapture (device self) CAP_V4L2) (env_VideoCapture env) ;;
        modify (set_cap (Some c)) ;;
        with_cap "set" (fun c =>
          call (EvSet c CAP_PROP_FRAME_WIDTH (width self)) (env_set_width env)) ;;
        with_cap "set" (fun c =>
          call (EvSet c CAP_PROP_FRAME_HEIGHT (height self)) (env_set_height env)) ;;
        with_cap "set" (fun c =>
          call (EvSet c CAP_PROP_FPS (framerate self)) (env_set_fps env)) ;;
        ret tt) ;;
     opened <- with_cap "isOpened" (fun c => call (EvIsOpened c) (env_isOpened env)) ;;
     if negb opened then
       print MsgFailedToOpen ;;
       ret false
     else
       r <- with_cap "read" (fun c => call (EvRead c) (env_read env)) ;;
       let '(ok, frame) := r in
       if negb ok then
         print MsgFailedTestFrame ;;
         close ;;
         ret false
       else
         print MsgOpened ;;
         sh <- frame_shape frame ;;
         print (MsgActualResolution (fst sh) (snd sh)) ;;
         now <- call EvTime (Ret (env_time env)) ;;
         modify (set_start_time (Some now)) ;;
         ret true)
    (fun e =>
       print (MsgErrorOpening e) ;;
       ret false).

(** [IMX219Camera.read]; [pull] is the answer of [self.cap.read()]. *)
Definition read (pull : outcome (bool * option Frame)) : M (bool * option Frame) :=
  self <- get ;;
  match cap self with
  | None => ret (false, None)
  | Some _ =>
      r <- with_cap "read" (fun c => call (EvRead c) pull) ;;
      let '(ok, frame) := r in
      (if ok then
         self <- get ;;
         modify (set_frame_count (frame_count self + 1))
       else ret tt) ;;
      ret (ok, frame)
  end.

(** [IMX219Camera.get_fps]; [now] is the answer of [time.time()]. *)
Definition get_fps (now : float) : M float :=
  self <- get ;;
  match start_time self with
  | None => ret 0%float
  | Some t0 =>
      if frame_count self =? 0 then ret 0%float
      else
        t <- call EvTime (Ret now) ;;
        let elapsed := PrimFloat.sub t t0 in
        if PrimFloat.ltb 0%float elapsed then
          lift (int_truediv_float (frame_count self) elapsed)
        else ret 0%float
  end.

(** [IMX219Camera.__enter__]: the value of [open] is dropped and the result is
    the object itself. *)
Definition __enter__ (env : OpenEnv) : M IMX219Camera :=
  open env ;;
  self <- get ;;
  ret self.

(** The three arguments of [__exit__]: [None] each when the block ended
    normally, the exception otherwise. *)
Definition exc_info : Type := option exn.

(** [IMX219Camera.__exit__]: returns [None], so an exception of the block is
    not suppressed. *)
Definition __exit__ (exc : exc_info) : M unit :=
  close.

(** A run of [read] calls, one oracle answer each; stops at the first call
    that raises. *)
Fixpoint read_many (ps : list (outcome (bool * option Frame)))
    : M (list (bool * option Frame)) :=
  match ps with
  | [] => ret []
  | p :: ps' =>
      r <- read p ;;
      rs <- read_many ps' ;;
      ret (r :: rs)
  end.

(** The three components of a run. *)
Definition outcome_of {A} (r : outcome A * IMX219Camera * list event) : outcome A :=
  fst (fst r).
Definition state_of {A} (r : outcome A * IMX219Camera * list event) : IMX219Camera :=
  snd (fst r).
Definition trace_of {A} (r : outcome A * IMX219Camera * list event) : list event :=
  snd r.

(** A pull that yields a frame, as [cv2.VideoCapture.read] reports it. *)
Definition pull_ok (frame : option Frame) : outcome (bool * option Frame) :=
  Ret (true, frame).

(** A pull that yields nothing: [cv2.VideoCapture.read] gives [(False, None)]. *)
Definition pull_failed : outcome (bool * option Frame) := Ret (false, None).

(** The [set] calls of the V4L2 branch all return. *)
Definition sets_return (env : OpenEnv) : bool :=
  match env_set_width env, env_set_height env, env_set_fps env with
  | Ret _, Ret _, Ret _ => true
  | _, _, _ => false
  end.

(** The handle is created and reports itself opened: the construction returns
    [c], the capability requests of the V4L2 branch return, [isOpened()] is
    true. *)
Definition handle_opens (env : OpenEnv) (s : IMX219Camera) (c : Cap) : Prop :=
  env_VideoCapture env = Ret c /\
  (use_gstreamer s = false -> sets_return env = true) /\
  env_isOpened env = Ret true.

(** The calls of [open] up to and including the capability requests, when the
    construction returns [c] and those requests return. *)
Definition setup_trace (s : IMX219Camera) (c : Cap) : list event :=
  ([EvPrint (MsgOpening (device s));
    EvPrint (MsgResolution (width s) (height s) (framerate s))] ++
   (if use_gstreamer s then
      [EvPrint MsgUsingGStreamer;
       EvVideoCapture (_build_gstreamer_pipeline s) CAP_GSTREAMER]
    else
      [EvPrint MsgUsingV4L2;
       EvVideoCapture (device s) CAP_V4L2;
       EvSet c CAP_PROP_FRAME_WIDTH (width s);
       EvSet c CAP_PROP_FRAME_HEIGHT (height s);
       EvSet c CAP_PROP_FPS (framerate s)]))%list.

(** The stages of the accelerated pipeline, as the spec names them: the
    sensor source, its capabilities in device memory, the hardware
    conversion, the converted geometry, the colour conversion, the output
    format, the sink. *)
Definition sensor_source : string := "nvarguscamerasrc sensor-id=0".
Definition hardware_conversion : string := "nvvidconv".
Definition sink : string := "appsink max-buffers=1 drop=true sync=false".

Definition pipeline_stages (w h fps : Z) : list string :=
  [ sensor_source;
    "video/x-raw(memory:NVMM), width=" ++ str_int w ++ ", height=" ++ str_int h ++
      ", format=NV12, framerate=" ++ str_int fps ++ "/1";
    hardware_conversion;
    "video/x-raw, width=" ++ str_int w ++ ", height=" ++ str_int h ++ ", format=BGRx";
    "videoconvert";
    "video/x-raw, format=BGR";
    sink ].

(** ** A mock backend for the scenarios *)

Definition frame0 : Frame := mkFrame 480 640 [].

(** The session of the spec's scenarios: V4L2, 640x480 at 30 fps. *)
Definition camera0 : IMX219Camera := __init__ "/dev/video0" 640 480 30 false.

(** Opens as handle 7 and yields [frame0]; the clock reads 100.0. *)
Definition env_good : OpenEnv :=
  mkOpenEnv (Ret 7%nat) (Ret true) (Ret true) (Ret true) (Ret true)
            (pull_ok (Some frame0)) 100%float.

(** Gives a handle that does not report itself opened. *)
Definition env_not_opened : OpenEnv :=
  mkOpenEnv (Ret 7%nat) (Ret false) (Ret false) (Ret false) (Ret false)
            pull_failed 100%float.

(** Opens with another handle, at a later time of the clock. *)
Definition env_good_later : OpenEnv :=
  mkOpenEnv (Ret 8%nat) (Ret true) (Ret true) (Ret true) (Ret true)
            (pull_ok (Some frame0)) 200%float.

(** Opens, but the trial pull yields nothing. *)
Definition env_no_frame : OpenEnv :=
  mkOpenEnv (Ret 7%nat) (Ret true) (Ret true) (Ret true) (Ret true)
            pull_failed 100%float.

(** The construction raises [e]. *)
Definition env_raising (e : exn) : OpenEnv :=
  mkOpenEnv (Raise e) (Ret true) (Ret true) (Ret true) (Ret true)
            (pull_ok (Some frame0)) 100%float.

(** ** Measures of a run *)

Definition is_construction (e : event) : bool :=
  match e with EvVideoCapture _ _ => true | _ => false end.

(** Number of [cv2.VideoCapture(...)] constructions in a trace. *)
Definition constructions (t : list event) : nat :=
  length (filter is_construction t).

(** Number of results of [read] whose flag is true. *)
Definition successes (rs : list (bool * option Frame)) : nat :=
  length (filter fst rs).

(** The attributes given to the constructor. *)
Definition config (s : IMX219Camera) : string * Z * Z * Z * bool :=
  (device s, width s, height s, framerate s, use_gstreamer s).

(** ** Scripts around the session

    The callers of the class keep local variables besides the camera object
    and call further collaborators ([cv2.imshow], [cv2.waitKey], ...).  A
    script step is a computation over the script's state [S] with events
    [E]; it has the shape of a method ([M] is the instance at the camera
    object and its events). *)

Definition Prog (S E A : Type) : Type := S -> outcome A * S * list E.

Definition pret {S E A} (a : A) : Prog S E A := fun st => (Ret a, st, []).

Definition pbind {S E A B} (m : Prog S E A) (f : A -> Prog S E B) : Prog S E B :=
  fun st =>
    match m st with
    | (Ret a, st1, t1) =>
        let '(r, st2, t2) := f a st1 in (r, st2, (t1 ++ t2)%list)
    | (Raise e, st1, t1) => (Raise e, st1, t1)
    end.

Declare Scope prog_scope.
Delimit Scope prog_scope with prog.
Notation "x <- c ;; k" := (pbind c (fun x => k))
  (at level 61, c at next level, right associativity) : prog_scope.
Notation "c ;; k" := (pbind c (fun _ => k))
  (at level 61, right associativity) : prog_scope.
Local Open Scope prog_scope.

Definition pget {S E} : Prog S E S := fun st => (Ret st, st, []).

Definition pmodify {S E} (f : S -> S) : Prog S E unit :=
  fun st => (Ret tt, f st, []).

(** A call to the outside. *)
Definition pcall {S E A} (ev : E) (answer : outcome A) : Prog S E A :=
  fun st => (answer, st, [ev]).

(** A method call on a camera object held in the script's state. *)
Definition on_camera {S E A} (get_cam : S -> IMX219Camera)
    (set_cam : IMX219Camera -> S -> S) (wrap : event -> E) (m : M A)
    : Prog S E A :=
  fun st =>
    let '(r, cam, t) := m (get_cam st) in (r, set_cam cam st, map wrap t).

(** How a piece of a script that loops stands after the answers it was given:
    it has finished with a value, an exception has left it, or it is still
    running and asks for more. *)
Inductive run_end (A : Type) : Type :=
  | Done (a : A)
  | Threw (e : exn)
  | Running.
Arguments Done {A} a.
Arguments Threw {A} e.
Arguments Running {A}.

(** [x >= n] for a [float] x and an [int] n, which Python compares by value. *)
Definition float_ge_int (x : float) (n : Z) : bool :=
  match Prim2SF x with
  | S754_nan => false
  | S754_infinity sg => negb sg
  | S754_zero _ => n <=? 0
  | S754_finite sg m e =>
      let v := if sg then Z.neg m else Z.pos m in
      if 0 <=? e then n <=? v * 2 ^ e else n * 2 ^ (- e) <=? v
  end.

(** [f"{n:03d}"]: the sign, then the digits padded with zeros to three
    characters in all. *)
Definition fmt_03d (n : Z) : string :=
  let digits := str_int (Z.abs n) in
  let sign := if n <? 0 then "-" else "" in
  let pad := (3 - String.length sign - String.length digits)%nat in
  sign ++ String.concat "" (repeat "0" pad) ++ digits.

(** ** [camera_stream.main] *)

(** The parsed command line. *)
Record Args : Type := mkArgs {
  args_device : string;
  args_width : Z;
  args_height : Z;
  args_fps : Z;
  args_no_gstreamer : bool;
  args_no_display : bool;
  args_duration : Z
}.

(** The command line without options. *)
Definition default_args : Args :=
  mkArgs "/dev/video0" 1280 720 30 false false 0.

Inductive main_message : Type :=
  | MsgRule
  | MsgTitle
  | MsgExiting
  | MsgStarting
  | MsgKeys
  | MsgFailedRead
  | MsgQuitting
  | MsgSaved (filename : string)
  | MsgDurationReached (duration : Z)
  | MsgStatus (frames : Z) (fps : float)
  | MsgInterrupted
  | MsgRuleBelow
  | MsgStatistics
  | MsgTotalFrames (frames : Z)
  | MsgAverageFps (fps : float)
  | MsgSnapshots (n : Z).

Inductive main_event : Type :=
  | MainCamera (e : event)
  | MainPrint (m : main_message)
  | MainTime
  | MainPutText (frame : option Frame) (fps : float)
  | MainImshow (frame : option Frame)
  | MainWaitKey (delay : Z)
  | MainImwrite (filename : string) (frame : option Frame)
  | MainDestroyAllWindows.

(** The local variables of [main] that change. *)
Record MainState : Type := mkMainState {
  camera : IMX219Camera;
  snapshot_count : Z
}.

Definition set_camera (c : IMX219Camera) (st : MainState) : MainState :=
  {| camera := c; snapshot_count := snapshot_count st |}.

Definition set_snapshot_count (n : Z) (st : MainState) : MainState :=
  {| camera := camera st; snapshot_count := n |}.

Definition MainProg (A : Type) : Type := Prog MainState main_event A.

Definition main_camera {A} (m : M A) : MainProg A :=
  on_camera camera set_camera MainCamera m.

Definition main_print (m : main_message) : MainProg unit :=
  pcall (MainPrint m) (Ret tt).

(** The answers of the outside to the calls of one turn of the loop. *)
Record IterEnv : Type := mkIterEnv {
  it_read : outcome (bool * option Frame);
  it_fps_time : float;
  it_putText : outcome unit;
  it_imshow : outcome unit;
  it_waitKey : outcome Z;
  it_imwrite : outcome bool;
  it_time : float
}.

Definition ord_q : Z := 113.
Definition ord_s : Z := 115.

(** [f"snapshot_{snapshot_count:03d}.jpg"] *)
Definition snapshot_filename (n : Z) : string :=
  "snapshot_" ++ fmt_03d n ++ ".jpg".

(** One turn of the [while True] loop of [main]; the result is whether the
    loop goes on ([false] is [break]). *)
Definition main_iteration (args : Args) (start_time : float) (it : IterEnv)
    : MainProg bool :=
  r <- main_camera (read (it_read it)) ;;
  let '(ok, frame) := r in
  if negb ok then
    main_print MsgFailedRead ;;
    pret false
  else
    fps <- main_camera (get_fps (it_fps_time it)) ;;
    pcall (MainPutText frame fps) (it_putText it) ;;
    (if negb (args_no_display args) then
       pcall (MainImshow frame) (it_imshow it)
     else pret tt) ;;
    k <- pcall (MainWaitKey 1) (it_waitKey it) ;;
    let key := Z.land k 255 in
    if key =? ord_q then
      main_print MsgQuitting ;;
      pret false
    else
      (if key =? ord_s then
         st <- pget ;;
         pmodify (set_snapshot_count (snapshot_count st + 1)) ;;
         st <- pget ;;
         let filename := snapshot_filename (snapshot_count st) in
         pcall (MainImwrite filename frame) (it_imwrite it) ;;
         main_print (MsgSaved filename)
       else pret tt) ;;
      expired <-
        (if args_duration args >? 0 then
           now <- pcall MainTime (Ret (it_time it)) ;;
           if float_ge_int (PrimFloat.sub now start_time) (args_duration args) then
             main_print (MsgDurationReached (args_duration args)) ;;
             pret true
           else pret false
         else pret false) ;;
      if expired : bool then pret false
      else
        st <- pget ;;
        (if frame_count (camera st) mod 30 =? 0 then
           main_print (MsgStatus (frame_count (camera st)) fps)
         else pret tt) ;;
        pret true.

(** The loop, over the answers for its turns. *)
Fixpoint main_loop (args : Args) (start_time : float) (its : list IterEnv)
    (st : MainState) : run_end unit * MainState * list main_event :=
  match its with
  | [] => (Running, st, [])
  | it :: its' =>
      match main_iteration args start_time it st with
      | (Ret true, st1, t1) =>
          let '(r, st2, t2) := main_loop args start_time its' st1 in
          (r, st2, (t1 ++ t2)%list)
      | (Ret false, st1, t1) => (Done tt, st1, t1)
      | (Raise e, st1, t1) => (Threw e, st1, t1)
      end
  end.

(** The [finally] block of [main]. *)
Definition main_finally (destroy : outcome unit) (now : float) : MainProg unit :=
  main_camera close ;;
  pcall MainDestroyAllWindows destroy ;;
  main_print MsgRuleBelow ;;
  main_print MsgStatistics ;;
  main_print MsgRule ;;
  st <- pget ;;
  main_print (MsgTotalFrames (frame_count (camera st))) ;;
  fps <- main_camera (get_fps now) ;;
  main_print (MsgAverageFps fps) ;;
  st <- pget ;;
  main_print (MsgSnapshots (snapshot_count st)) ;;
  main_print MsgRule.

(** The answers of the outside to the calls of one run of [main]. *)
Record MainEnv : Type := mkMainEnv {
  main_open : OpenEnv;
  main_start_time : float;
  main_iterations : list IterEnv;
  main_destroy : outcome unit;
  main_final_time : float
}.

(** The statements of [main] up to the loop: the result is whether the camera
    opened. *)
Definition main_setup (env : MainEnv) : MainProg bool :=
  main_print MsgRule ;;
  main_print MsgTitle ;;
  main_print MsgRule ;;
  opened <- main_camera (open (main_open env)) ;;
  if negb opened then
    main_print MsgExiting ;;
    pret false
  else
    main_print MsgStarting ;;
    main_print MsgKeys ;;
    pcall MainTime (Ret (main_start_time env)) ;;
    pret true.

(** The end of [main] once the loop has ended with [r]: the handler of
    [KeyboardInterrupt], the [finally] block, [return 0]. *)
Definition main_end (env : MainEnv) (r : outcome unit) (st : MainState)
    : run_end Z * MainState * list main_event :=
  let interrupted :=
    match r with
    | Raise e =>
        match exn_cls e with KeyboardInterrupt => true | _ => false end
    | Ret _ => false
    end in
  let handler := if interrupted then [MainPrint MsgInterrupted] else [] in
  let '(f, st1, t1) :=
    main_finally (main_destroy env) (main_final_time env) st in
  (match f, r with
   | Raise e', _ => Threw e'
   | Ret _, Raise e => if interrupted then Done 0 else Threw e
   | Ret _, Ret _ => Done 0
   end, st1, (handler ++ t1)%list).

(** [camera_stream.main], given the parsed command line; the result is the
    exit code. *)
Definition main (args : Args) (env : MainEnv)
    : run_end Z * MainState * list main_event :=
  let st0 :=
    {| camera :=
         __init__ (args_device args) (args_width args) (args_height args)
                  (args_fps args) (negb (args_no_gstreamer args));
       snapshot_count := 0 |} in
  match main_setup env st0 with
  | (Raise e, st1, t1) => (Threw e, st1, t1)
  | (Ret false, st1, t1) => (Done 1, st1, t1)
  | (Ret true, st1, t1) =>
      match main_loop args (main_start_time env) (main_iterations env) st1 with
      | (Running, st2, t2) => (Running, st2, (t1 ++ t2)%list)
      | (Done _, st2, t2) =>
          let '(r, st3, t3) := main_end env (Ret tt) st2 in
          (r, st3, (t1 ++ t2 ++ t3)%list)
      | (Threw e, st2, t2) =>
          let '(r, st3, t3) := main_end env (Raise e) st2 in
          (r, st3, (t1 ++ t2 ++ t3)%list)
      end
  end.

Definition is_main_release (e : main_event) : bool :=
  match e with MainCamera (EvRelease _) => true | _ => false end.

(** Number of [release()] calls in a trace of [main]. *)
Definition main_releases (t : list main_event) : nat :=
  length (filter is_main_release t).

(** The file names [cv2.imwrite] was called with, in order. *)
Fixpoint written_files (t : list main_event) : list string :=
  match t with
  | [] => []
  | MainImwrite filename _ :: t' => filename :: written_files t'
  | _ :: t' => written_files t'
  end.

(** The flags of the frames [camera.read()] was asked for. *)
Definition is_main_read (e : main_event) : bool :=
  match e with MainCamera (EvRead _) => true | _ => false end.

Definition main_pulls (t : list main_event) : nat :=
  length (filter is_main_read t).

(** The same answers with other answers for the turns of the loop. *)
Definition with_iterations (env : MainEnv) (its : list IterEnv) : MainEnv :=
  {| main_open := main_open env;
     main_start_time := main_start_time env;
     main_iterations := its;
     main_destroy := main_destroy env;
     main_final_time := main_final_time env |}.

(** The pull of the turn comes back with a true flag. *)
Definition turn_delivers (it : IterEnv) : bool :=
  match it_read it with
  | Ret (true, _) => true
  | _ => false
  end.

(** The camera object [main] constructs from the command line. *)
Definition main_camera0 (args : Args) : IMX219Camera :=
  __init__ (args_device args) (args_width args) (args_height args)
           (args_fps args) (negb (args_no_gstreamer args)).

(** The first prints of [main]. *)
Definition main_header : list main_event :=
  [MainPrint MsgRule; MainPrint MsgTitle; MainPrint MsgRule].

(** Answers for the scenarios of [main]: a turn that delivers [frame0] and
    gets [key] from [cv2.waitKey], a turn whose pull yields nothing, and a
    run on the mock backend with given turns. *)
Definition turn_frame (key : Z) : IterEnv :=
  mkIterEnv (pull_ok (Some frame0)) 101%float (Ret tt) (Ret tt) (Ret key)
            (Ret true) 102%float.

Definition turn_no_frame : IterEnv :=
  mkIterEnv pull_failed 101%float (Ret tt) (Ret tt) (Ret (-1))
            (Ret true) 102%float.

Definition turn_raising (e : exn) : IterEnv :=
  mkIterEnv (Raise e) 101%float (Ret tt) (Ret tt) (Ret (-1))
            (Ret true) 102%float.

Definition env_main (its : list IterEnv) : MainEnv :=
  mkMainEnv env_good 100%float its (Ret tt) 110%float.

(** ** [vision_stream.VisionStream] *)

(** [try: body except Exception as e: handler e] in a script. *)
Definition ptry_except_Exception {S E A} (body : Prog S E A)
    (handler : exn -> Prog S E A) : Prog S E A :=
  fun st =>
    match body st with
    | (Raise e, st1, t1) =>
        if is_Exception (exn_cls e) then
          let '(r, st2, t2) := handler e st1 in (r, st2, (t1 ++ t2)%list)
        else (Raise e, st1, t1)
    | r => r
    end.

(** The identity of a loaded model object. *)
Definition Model : Type := nat.

Record VisionStream : Type := mkVisionStream {
  vs_model_name : string;
  vs_camera_device : string;
  vs_width : Z;
  vs_height : Z;
  vs_update_interval : float;
  vs_use_gstreamer : bool;
  vs_model : option Model;
  vs_camera : option IMX219Camera;
  vs_last_response : string;
  vs_frame_count : Z
}.

(** [VisionStream.__init__] *)
Definition VisionStream_init (model_name camera_device : string)
    (width height : Z) (update_interval : float) (use_gstreamer : bool)
    : VisionStream :=
  {| vs_model_name := model_name;
     vs_camera_device := camera_device;
     vs_width := width;
     vs_height := height;
     vs_update_interval := update_interval;
     vs_use_gstreamer := use_gstreamer;
     vs_model := None;
     vs_camera := None;
     vs_last_response := "";
     vs_frame_count := 0 |}.

Definition set_vs_model (m : option Model) (st : VisionStream) : VisionStream :=
  {| vs_model_name := vs_model_name st; vs_camera_device := vs_camera_device st;
     vs_width := vs_width st; vs_height := vs_height st;
     vs_update_interval := vs_update_interval st;
     vs_use_gstreamer := vs_use_gstreamer st;
     vs_model := m;
     vs_camera := vs_camera st; vs_last_response := vs_last_response st;
     vs_frame_count := vs_frame_count st |}.

Definition set_vs_camera (c : option IMX219Camera) (st : VisionStream)
    : VisionStream :=
  {| vs_model_name := vs_model_name st; vs_camera_device := vs_camera_device st;
     vs_width := vs_width st; vs_height := vs_height st;
     vs_update_interval := vs_update_interval st;
     vs_use_gstreamer := vs_use_gstreamer st;
     vs_model := vs_model st;
     vs_camera := c;
     vs_last_response := vs_last_response st;
     vs_frame_count := vs_frame_count st |}.

Definition set_vs_last_response (r : string) (st : VisionStream) : VisionStream :=
  {| vs_model_name := vs_model_name st; vs_camera_device := vs_camera_device st;
     vs_width := vs_width st; vs_height := vs_height st;
     vs_update_interval := vs_update_interval st;
     vs_use_gstreamer := vs_use_gstreamer st;
     vs_model := vs_model st; vs_camera := vs_camera st;
     vs_last_response := r;
     vs_frame_count := vs_frame_count st |}.

Definition set_vs_frame_count (n : Z) (st : VisionStream) : VisionStream :=
  {| vs_model_name := vs_model_name st; vs_camera_device := vs_camera_device st;
     vs_width := vs_width st; vs_height := vs_height st;
     vs_update_interval := vs_update_interval st;
     vs_use_gstreamer := vs_use_gstreamer st;
     vs_model := vs_model st; vs_camera := vs_camera st;
     vs_last_response := vs_last_response st;
     vs_frame_count := n |}.

Inductive vs_message : Type :=
  | VsNoNanoLLM
  | VsHowToRun
  | VsHowToCd
  | VsHowToRunSh
  | VsHowToPython
  | VsLoading (model_name : string)
  | VsMayTakeMinutes
  | VsModelLoaded
  | VsLoadFailed (e : exn)
  | VsOpeningCamera (device : string)
  | VsRuleBelow
  | VsActive
  | VsRule
  | VsPrompt (prompt : string)
  | VsInterval (seconds : float)
  | VsPressCtrlC
  | VsFailedRead
  | VsProcessing (frame_number : Z)
  | VsAnswer (response : string)
  | VsStopped
  | VsClosed.

Inductive vs_event : Type :=
  | VsCamera (e : event)
  | VsPrint (m : vs_message)
  | VsFromPretrained (model_name : string)
  | VsGenerate (m : Model) (prompt : string) (frame : option Frame)
  | VsTime
  | VsSleep (seconds : float).

Definition VsProg (A : Type) : Type := Prog VisionStream vs_event A.

Definition vs_print (m : vs_message) : VsProg unit := pcall (VsPrint m) (Ret tt).

(** A method call on [self.camera]; on [None] the attribute lookup fails. *)
Definition vs_on_camera {A} (attr : string) (m : M A) : VsProg A :=
  fun st =>
    match vs_camera st with
    | Some cam =>
        let '(r, cam1, t) := m cam in
        (r, set_vs_camera (Some cam1) st, map VsCamera t)
    | None =>
        (Raise (mkExn AttributeError
                  ("'NoneType' object has no attribute '" ++ attr ++ "'")),
         st, [])
    end.

(** [VisionStream.load_model]; [available] is the module's
    [NANOLLM_AVAILABLE], [loaded] the answer of [NanoLLM.from_pretrained]. *)
Definition load_model (available : bool) (loaded : outcome Model) : VsProg bool :=
  if negb available then
    vs_print VsNoNanoLLM ;;
    vs_print VsHowToRun ;;
    vs_print VsHowToCd ;;
    vs_print VsHowToRunSh ;;
    vs_print VsHowToPython ;;
    pret false
  else
    st <- pget ;;
    vs_print (VsLoading (vs_model_name st)) ;;
    vs_print VsMayTakeMinutes ;;
    ptry_except_Exception
      (m <- pcall (VsFromPretrained (vs_model_name st)) loaded ;;
       pmodify (set_vs_model (Some m)) ;;
       vs_print VsModelLoaded ;;
       pret true)
      (fun e =>
         vs_print (VsLoadFailed e) ;;
         pret false).

(** [VisionStream.open_camera] *)
Definition open_camera (env : OpenEnv) : VsProg bool :=
  st <- pget ;;
  vs_print (VsOpeningCamera (vs_camera_device st)) ;;
  pmodify (set_vs_camera
             (Some (__init__ (vs_camera_device st) (vs_width st) (vs_height st)
                             30 (vs_use_gstreamer st)))) ;;
  vs_on_camera "open" (open env).

(** [VisionStream.query_vision]; [generated] is the answer of
    [self.model.generate]. *)
Definition query_vision (frame : option Frame) (prompt : string)
    (generated : outcome string) : VsProg string :=
  st <- pget ;;
  match vs_model st with
  | None => pret "Model not loaded"
  | Some m =>
      ptry_except_Exception
        (pcall (VsGenerate m prompt frame) generated)
        (fun e => pret ("Error: " ++ exn_msg e))
  end.

(** [VisionStream.cleanup] *)
Definition cleanup : VsProg unit :=
  st <- pget ;;
  (match vs_camera st with
   | Some _ => vs_on_camera "close" close
   | None => pret tt
   end) ;;
  vs_print VsClosed.

(** The answers of the outside to the calls of one turn of the loop of
    [run]. *)
Record VsTurn : Type := mkVsTurn {
  vt_read : outcome (bool * option Frame);
  vt_sleep_retry : outcome unit;
  vt_time : float;
  vt_generate : outcome string;
  vt_sleep : outcome unit
}.

(** The pauses of the loop: [0.1] and [0.03] as Python reads them. *)
Definition retry_pause : float := 0x1.999999999999ap-4%float.
Definition turn_pause : float := 0x1.eb851eb851eb8p-6%float.

(** One turn of the [while True] loop of [run]; the argument and the result
    are the local [last_query_time]. *)
Definition vs_turn (prompt : string) (it : VsTurn) (last_query_time : float)
    : VsProg float :=
  r <- vs_on_camera "read" (read (vt_read it)) ;;
  let '(ok, frame) := r in
  if negb ok then
    vs_print VsFailedRead ;;
    pcall (VsSleep retry_pause) (vt_sleep_retry it) ;;
    pret last_query_time
  else
    st <- pget ;;
    pmodify (set_vs_frame_count (vs_frame_count st + 1)) ;;
    current_time <- pcall VsTime (Ret (vt_time it)) ;;
    st <- pget ;;
    last <-
      (if PrimFloat.leb (vs_update_interval st)
                        (PrimFloat.sub current_time last_query_time) then
         vs_print (VsProcessing (vs_frame_count st)) ;;
         response <- query_vision frame prompt (vt_generate it) ;;
         pmodify (set_vs_last_response response) ;;
         vs_print VsRule ;;
         vs_print (VsAnswer response) ;;
         vs_print VsRule ;;
         pret current_time
       else pret last_query_time) ;;
    pcall (VsSleep turn_pause) (vt_sleep it) ;;
    pret last.

(** The loop of [run]: it has no [break], so it ends by an exception or is
    still running. *)
Fixpoint vs_loop (prompt : string) (its : list VsTurn) (last_query_time : float)
    (st : VisionStream) : option exn * VisionStream * list vs_event :=
  match its with
  | [] => (None, st, [])
  | it :: its' =>
      match vs_turn prompt it last_query_time st with
      | (Ret last, st1, t1) =>
          let '(r, st2, t2) := vs_loop prompt its' last st1 in
          (r, st2, (t1 ++ t2)%list)
      | (Raise e, st1, t1) => (Some e, st1, t1)
      end
  end.

(** The prints of [run] before the loop. *)
Definition vs_run_header (prompt : string) (st : VisionStream) : list vs_event :=
  [VsPrint VsRuleBelow; VsPrint VsActive; VsPrint VsRule;
   VsPrint (VsPrompt prompt); VsPrint (VsInterval (vs_update_interval st));
   VsPrint VsPressCtrlC].

(** [VisionStream.run] *)
Definition vs_run (prompt : string) (its : list VsTurn) (st : VisionStream)
    : run_end unit * VisionStream * list vs_event :=
  match vs_loop prompt its 0%float st with
  | (None, st1, t1) => (Running, st1, (vs_run_header prompt st ++ t1)%list)
  | (Some e, st1, t1) =>
      let interrupted :=
        match exn_cls e with KeyboardInterrupt => true | _ => false end in
      let handler := if interrupted then [VsPrint VsStopped] else [] in
      let '(f, st2, t2) := cleanup st1 in
      (match f with
       | Raise e' => Threw e'
       | Ret _ => if interrupted then Done tt else Threw e
       end, st2, (vs_run_header prompt st ++ t1 ++ handler ++ t2)%list)
  end.

(** [VisionStream.__enter__] and [VisionStream.__exit__] *)
Definition vs_enter : VsProg VisionStream := pget.

Definition vs_exit (exc : exc_info) : VsProg unit := cleanup.

Definition is_vs_release (e : vs_event) : bool :=
  match e with VsCamera (EvRelease _) => true | _ => false end.

Definition vs_releases (t : list vs_event) : nat :=
  length (filter is_vs_release t).

Definition is_vs_generate (e : vs_event) : bool :=
  match e with VsGenerate _ _ _ => true | _ => false end.

(** Number of [model.generate] calls in a trace. *)
Definition vs_queries (t : list vs_event) : nat :=
  length (filter is_vs_generate t).

(** The [frame_count] of the stream's camera, zero without one. *)
Definition vs_camera_frames (st : VisionStream) : Z :=
  match vs_camera st with Some cam => frame_count cam | None => 0 end.

(** A turn none of whose calls ends the loop: the pull and the pauses return,
    and the model returns or raises an [Exception]. *)
Definition turn_goes_on (it : VsTurn) : bool :=
  match vt_read it, vt_sleep_retry it, vt_sleep it, vt_generate it with
  | Ret _, Ret _, Ret _, Ret _ => true
  | Ret _, Ret _, Ret _, Raise e => is_Exception (exn_cls e)
  | _, _, _, _ => false
  end.

(** ** [vision_stream.MockVisionStream] *)

Record MockVisionStream : Type := mkMockVisionStream {
  mvs_camera_device : string;
  mvs_width : Z;
  mvs_height : Z;
  mvs_update_interval : float;
  mvs_camera : option IMX219Camera;
  mvs_frame_count : Z
}.

(** [MockVisionStream.__init__] *)
Definition MockVisionStream_init (camera_device : string) (width height : Z)
    (update_interval : float) : MockVisionStream :=
  {| mvs_camera_device := camera_device;
     mvs_width := width;
     mvs_height := height;
     mvs_update_interval := update_interval;
     mvs_camera := None;
     mvs_frame_count := 0 |}.

Inductive mvs_message : Type :=
  | MvsOpening (device : string)
  | MvsRuleBelow
  | MvsActive
  | MvsRule
  | MvsUsingSimple
  | MvsInterval (seconds : float)
  | MvsPressCtrlC
  | MvsFailedRead
  | MvsAnalyzing (frame_number : Z)
  | MvsAnalysis (description : string)
  | MvsStopped.

(** The two measurements of [analyze_frame] are calls to the outside:
    [MvsBrightness] is [cv2.cvtColor] and [np.mean], [MvsEdgeDensity] is
    [cv2.Canny], [np.sum] and the division by the size. *)
Inductive mvs_event : Type :=
  | MvsCamera (e : event)
  | MvsPrint (m : mvs_message)
  | MvsTime
  | MvsSleep (seconds : float)
  | MvsBrightness (frame : option Frame)
  | MvsEdgeDensity (frame : option Frame).

Definition MvsProg (A : Type) : Type := Prog MockVisionStream mvs_event A.

Definition set_mvs_camera (c : option IMX219Camera) (st : MockVisionStream)
    : MockVisionStream :=
  {| mvs_camera_device := mvs_camera_device st; mvs_width := mvs_width st;
     mvs_height := mvs_height st;
     mvs_update_interval := mvs_update_interval st;
     mvs_camera := c;
     mvs_frame_count := mvs_frame_count st |}.

Definition set_mvs_frame_count (n : Z) (st : MockVisionStream)
    : MockVisionStream :=
  {| mvs_camera_device := mvs_camera_device st; mvs_width := mvs_width st;
     mvs_height := mvs_height st;
     mvs_update_interval := mvs_update_interval st;
     mvs_camera := mvs_camera st;
     mvs_frame_count := n |}.

Definition mvs_print (m : mvs_message) : MvsProg unit :=
  pcall (MvsPrint m) (Ret tt).

(** A method call on [self.camera]; on [None] the attribute lookup fails. *)
Definition mvs_on_camera {A} (attr : string) (m : M A) : MvsProg A :=
  fun st =>
    match mvs_camera st with
    | Some cam =>
        let '(r, cam1, t) := m cam in
        (r, set_mvs_camera (Some cam1) st, map MvsCamera t)
    | None =>
        (Raise (mkExn AttributeError
                  ("'NoneType' object has no attribute '" ++ attr ++ "'")),
         st, [])
    end.

(** [MockVisionStream.open_camera] *)
Definition mock_open_camera (env : OpenEnv) : MvsProg bool :=
  st <- pget ;;
  mvs_print (MvsOpening (mvs_camera_device st)) ;;
  pmodify (set_mvs_camera
             (Some (__init__ (mvs_camera_device st) (mvs_width st)
                             (mvs_height st) 30 false))) ;;
  mvs_on_camera "open" (open env).

(** The words of [analyze_frame] for a brightness and an edge density. *)
Definition light_of (brightness : float) : string :=
  if PrimFloat.ltb brightness 50%float then "dark"
  else if PrimFloat.ltb brightness 150%float then "moderately lit"
  else "bright".

Definition complexity_of (edge_density : float) : string :=
  if PrimFloat.ltb edge_density 0x1.999999999999ap-4%float then
    "simple scene with few details"
  else if PrimFloat.ltb edge_density 0x1.3333333333333p-2%float then
    "moderate complexity"
  else "complex scene with many details".

(** [MockVisionStream.analyze_frame]; the arguments after the frame are the
    answers of the two measurements. *)
Definition analyze_frame (frame : option Frame)
    (brightness edge_density : outcome float) : MvsProg string :=
  b <- pcall (MvsBrightness frame) brightness ;;
  d <- pcall (MvsEdgeDensity frame) edge_density ;;
  pret ("I see a " ++ light_of b ++ " scene with " ++ complexity_of d ++ ".").

(** The answers of the outside to the calls of one turn of the loop of
    [MockVisionStream.run]. *)
Record MvsTurn : Type := mkMvsTurn {
  mt_read : outcome (bool * option Frame);
  mt_sleep_retry : outcome unit;
  mt_time : float;
  mt_brightness : outcome float;
  mt_edge_density : outcome float;
  mt_sleep : outcome unit
}.

(** One turn of the loop of [MockVisionStream.run]; the argument and the
    result are the local [last_analysis_time]. *)
Definition mock_turn (it : MvsTurn) (last_analysis_time : float)
    : MvsProg float :=
  r <- mvs_on_camera "read" (read (mt_read it)) ;;
  let '(ok, frame) := r in
  if negb ok then
    mvs_print MvsFailedRead ;;
    pcall (MvsSleep retry_pause) (mt_sleep_retry it) ;;
    pret last_analysis_time
  else
    st <- pget ;;
    pmodify (set_mvs_frame_count (mvs_frame_count st + 1)) ;;
    current_time <- pcall MvsTime (Ret (mt_time it)) ;;
    st <- pget ;;
    last <-
      (if PrimFloat.leb (mvs_update_interval st)
                        (PrimFloat.sub current_time last_analysis_time) then
         mvs_print (MvsAnalyzing (mvs_frame_count st)) ;;
         description <-
           analyze_frame frame (mt_brightness it) (mt_edge_density it) ;;
         mvs_print MvsRule ;;
         mvs_print (MvsAnalysis description) ;;
         mvs_print MvsRule ;;
         pret current_time
       else pret last_analysis_time) ;;
    pcall (MvsSleep turn_pause) (mt_sleep it) ;;
    pret last.

Fixpoint mock_loop (its : list MvsTurn) (last_analysis_time : float)
    (st : MockVisionStream) : option exn * MockVisionStream * list mvs_event :=
  match its with
  | [] => (None, st, [])
  | it :: its' =>
      match mock_turn it last_analysis_time st with
      | (Ret last, st1, t1) =>
          let '(r, st2, t2) := mock_loop its' last st1 in
          (r, st2, (t1 ++ t2)%list)
      | (Raise e, st1, t1) => (Some e, st1, t1)
      end
  end.

Definition mock_run_header (st : MockVisionStream) : list mvs_event :=
  [MvsPrint MvsRuleBelow; MvsPrint MvsActive; MvsPrint MvsRule;
   MvsPrint MvsUsingSimple; MvsPrint (MvsInterval (mvs_update_interval st));
   MvsPrint MvsPressCtrlC].

(** The [finally] block of [MockVisionStream.run]. *)
Definition mock_finally : MvsProg unit :=
  st <- pget ;;
  match mvs_camera st with
  | Some _ => mvs_on_camera "close" close
  | None => pret tt
  end.

(** [MockVisionStream.run]; its [prompt] argument is not used. *)
Definition mock_run (prompt : string) (its : list MvsTurn)
    (st : MockVisionStream) : run_end unit * MockVisionStream * list mvs_event :=
  match mock_loop its 0%float st with
  | (None, st1, t1) => (Running, st1, (mock_run_header st ++ t1)%list)
  | (Some e, st1, t1) =>
      let interrupted :=
        match exn_cls e with KeyboardInterrupt => true | _ => false end in
      let handler := if interrupted then [MvsPrint MvsStopped] else [] in
      let '(f, st2, t2) := mock_finally st1 in
      (match f with
       | Raise e' => Threw e'
       | Ret _ => if interrupted then Done tt else Threw e
       end, st2, (mock_run_header st ++ t1 ++ handler ++ t2)%list)
  end.

Definition is_mvs_release (e : mvs_event) : bool :=
  match e with MvsCamera (EvRelease _) => true | _ => false end.

Definition mvs_releases (t : list mvs_event) : nat :=
  length (filter is_mvs_release t).

(** ** [vision_stream.main] *)

(** The parsed command line. *)
Record VArgs : Type := mkVArgs {
  vargs_model : string;
  vargs_device : string;
  vargs_width : Z;
  vargs_height : Z;
  vargs_interval : float;
  vargs_prompt : string;
  vargs_mock : bool;
  vargs_no_gstreamer : bool
}.

Inductive vmain_message : Type :=
  | VmRule
  | VmTitle
  | VmMockMode
  | VmVilaMode
  | VmFailedCamera
  | VmFailedLoad.

Inductive vmain_event : Type :=
  | VmPrint (m : vmain_message)
  | VmMock (e : mvs_event)
  | VmReal (e : vs_event).

(** The stream object [main] has made. *)
Inductive vmain_stream : Type :=
  | NoStream
  | MockStream (st : MockVisionStream)
  | RealStream (st : VisionStream).

(** The answers of the outside to the calls of one run of [main]. *)
Record VMainEnv : Type := mkVMainEnv {
  vm_loaded : outcome Model;
  vm_open : OpenEnv;
  vm_turns : list VsTurn;
  vm_mock_turns : list MvsTurn
}.

Definition vmain_header : list vmain_event :=
  [VmPrint VmRule; VmPrint VmTitle; VmPrint VmRule].

(** [vision_stream.main], given the parsed command line and the module's
    [NANOLLM_AVAILABLE]; the result is the exit code. *)
Definition vision_main (available : bool) (args : VArgs) (env : VMainEnv)
    : run_end Z * vmain_stream * list vmain_event :=
  let use_mock := vargs_mock args || negb available in
  if use_mock then
    let stream :=
      MockVisionStream_init (vargs_device args) (vargs_width args)
                            (vargs_height args) (vargs_interval args) in
    match mock_open_camera (vm_open env) stream with
    | (Raise e, st1, t1) =>
        (Threw e, MockStream st1,
         (vmain_header ++ [VmPrint VmMockMode] ++ map VmMock t1)%list)
    | (Ret false, st1, t1) =>
        (Done 1, MockStream st1,
         (vmain_header ++ [VmPrint VmMockMode] ++ map VmMock t1 ++
          [VmPrint VmFailedCamera])%list)
    | (Ret true, st1, t1) =>
        let '(r, st2, t2) := mock_run (vargs_prompt args) (vm_mock_turns env) st1 in
        (match r with
         | Done _ => Done 0
         | Threw e => Threw e
         | Running => Running
         end, MockStream st2,
         (vmain_header ++ [VmPrint VmMockMode] ++ map VmMock t1 ++
          map VmMock t2)%list)
    end
  else
    let stream :=
      VisionStream_init (vargs_model args) (vargs_device args)
                        (vargs_width args) (vargs_height args)
                        (vargs_interval args) (negb (vargs_no_gstreamer args)) in
    match load_model available (vm_loaded env) stream with
    | (Raise e, st1, t1) =>
        (Threw e, RealStream st1,
         (vmain_header ++ [VmPrint VmVilaMode] ++ map VmReal t1)%list)
    | (Ret false, st1, t1) =>
        (Done 1, RealStream st1,
         (vmain_header ++ [VmPrint VmVilaMode] ++ map VmReal t1 ++
          [VmPrint VmFailedLoad])%list)
    | (Ret true, st1, t1) =>
        match open_camera (vm_open env) st1 with
        | (Raise e, st2, t2) =>
            (Threw e, RealStream st2,
             (vmain_header ++ [VmPrint VmVilaMode] ++ map VmReal t1 ++
              map VmReal t2)%list)
        | (Ret false, st2, t2) =>
            (Done 1, RealStream st2,
             (vmain_header ++ [VmPrint VmVilaMode] ++ map VmReal t1 ++
              map VmReal t2 ++ [VmPrint VmFailedCamera])%list)
        | (Ret true, st2, t2) =>
            let '(r, st3, t3) := vs_run (vargs_prompt args) (vm_turns env) st2 in
            (match r with
             | Done _ => Done 0
             | Threw e => Threw e
             | Running => Running
             end, RealStream st3,
             (vmain_header ++ [VmPrint VmVilaMode] ++ map VmReal t1 ++
              map VmReal t2 ++ map VmReal t3)%list)
        end
    end.

(** The calls of a run of [main] that reach the camera backend. *)
Definition vmain_camera_events (t : list vmain_event) : list event :=
  flat_map (fun e =>
              match e with
              | VmMock (MvsCamera c) => [c]
              | VmReal (VsCamera c) => [c]
              | _ => []
              end) t.

(** The calls of a run of [main] to the model runtime. *)
Definition is_model_call (e : vmain_event) : bool :=
  match e with
  | VmReal (VsFromPretrained _) => true
  | VmReal (VsGenerate _ _ _) => true
  | _ => false
  end.

(** The calls of a stream's run that reach the camera backend. *)
Definition mvs_camera_events (t : list mvs_event) : list event :=
  flat_map (fun e => match e with MvsCamera c => [c] | _ => [] end) t.

Definition vs_camera_events (t : list vs_event) : list event :=
  flat_map (fun e => match e with VsCamera c => [c] | _ => [] end) t.

(** ** [test_capture_v2.py]

    The script has one local that changes, [success_count]; [sys.exit(n)]
    raises [SystemExit], which [except Exception] does not catch, so the
    exit code is the result of the [try] body. *)

Inductive v2_message : Type :=
  | V2Title
  | V2Rule
  | V2Pipeline (pipeline : string)
  | V2Opening
  | V2FailedToOpen
  | V2Opened
  | V2Waiting
  | V2Reading
  | V2Frame (number cols rows : Z)
  | V2Saved
  | V2Skipped (number : Z)
  | V2Complete (success_count : Z)
  | V2Error (e : exn).

Inductive v2_event : Type :=
  | V2Print (m : v2_message)
  | V2VideoCapture (pipeline : string) (api : api_preference)
  | V2IsOpened (c : Cap)
  | V2Sleep (seconds : float)
  | V2Read (c : Cap)
  | V2Imwrite (filename : string) (frame : Frame)
  | V2Release (c : Cap)
  | V2Traceback.

Definition V2Prog (A : Type) : Type := Prog Z v2_event A.

Definition v2_print (m : v2_message) : V2Prog unit := pcall (V2Print m) (Ret tt).

Definition v2_pipeline : string :=
  "nvarguscamerasrc ! " ++
  "video/x-raw(memory:NVMM), width=640, height=480, format=NV12, framerate=30/1 ! " ++
  "nvvidconv ! " ++
  "video/x-raw, width=640, height=480, format=BGRx ! " ++
  "videoconvert ! " ++
  "video/x-raw, format=BGR ! " ++
  "appsink max-buffers=1 drop=true sync=false".

(** The answers of the outside to the calls of one turn of the [for] loop. *)
Record V2Turn : Type := mkV2Turn {
  v2_read : outcome (bool * option Frame);
  v2_imwrite : outcome bool;
  v2_sleep : outcome unit
}.

(** The answers of the outside to the calls of one run of the script. *)
Record V2Env : Type := mkV2Env {
  v2_VideoCapture : outcome Cap;
  v2_isOpened : outcome bool;
  v2_stabilize : outcome unit;
  v2_turn : nat -> V2Turn
}.

(** The body of the [for] loop for index i. *)
Definition v2_iteration (c : Cap) (i : nat) (it : V2Turn) : V2Prog unit :=
  r <- pcall (V2Read c) (v2_read it) ;;
  (match r with
   | (true, Some frame) =>
       n <- pget ;;
       pmodify (fun _ => n + 1) ;;
       v2_print (V2Frame (Z.of_nat i + 1) (shape1 frame) (shape0 frame)) ;;
       n <- pget ;;
       if n =? 1 then
         pcall (V2Imwrite "test_frame.jpg" frame) (v2_imwrite it) ;;
         v2_print V2Saved
       else pret tt
   | _ => v2_print (V2Skipped (Z.of_nat i + 1))
   end) ;;
  pcall (V2Sleep retry_pause) (v2_sleep it).

(** The [for] loop over the given indices. *)
Fixpoint v2_loop (c : Cap) (turn : nat -> V2Turn) (indices : list nat)
    : V2Prog unit :=
  match indices with
  | [] => pret tt
  | i :: rest =>
      v2_iteration c i (turn i) ;;
      v2_loop c turn rest
  end.

(** The [try] body; the result is the argument of [sys.exit]. *)
Definition v2_body (env : V2Env) : V2Prog Z :=
  c <- pcall (V2VideoCapture v2_pipeline CAP_GSTREAMER) (v2_VideoCapture env) ;;
  opened <- pcall (V2IsOpened c) (v2_isOpened env) ;;
  if negb opened then
    v2_print V2FailedToOpen ;;
    pret 1
  else
    v2_print V2Opened ;;
    v2_print V2Waiting ;;
    pcall (V2Sleep 3%float) (v2_stabilize env) ;;
    v2_print V2Reading ;;
    pmodify (fun _ => 0) ;;
    v2_loop c (v2_turn env) (seq 0 10) ;;
    pcall (V2Release c) (Ret tt) ;;
    n <- pget ;;
    v2_print (V2Complete n) ;;
    if n >? 0 then pret 0 else pret 1.

(** The script: the result is its exit code, or the exception that ends
    it. *)
Definition test_capture_v2 (env : V2Env) : outcome Z * Z * list v2_event :=
  (v2_print V2Title ;;
   v2_print V2Rule ;;
   v2_print (V2Pipeline v2_pipeline) ;;
   v2_print V2Opening ;;
   ptry_except_Exception
     (v2_body env)
     (fun e =>
        v2_print (V2Error e) ;;
        pcall V2Traceback (Ret tt) ;;
        pret 1)) 0.

(** The pull of the turn gives a frame the script counts:
    [ret and frame is not None]. *)
Definition v2_good (it : V2Turn) : bool :=
  match v2_read it with
  | Ret (true, Some _) => true
  | _ => false
  end.

(** Every call of the turn returns. *)
Definition v2_returns (it : V2Turn) : bool :=
  match v2_read it, v2_imwrite it, v2_sleep it with
  | Ret _, Ret _, Ret _ => true
  | _, _, _ => false
  end.

Definition is_v2_read (e : v2_event) : bool :=
  match e with V2Read _ => true | _ => false end.
Definition is_v2_release (e : v2_event) : bool :=
  match e with V2Release _ => true | _ => false end.
Definition is_v2_imwrite (e : v2_event) : bool :=
  match e with V2Imwrite _ _ => true | _ => false end.

Definition v2_count (p : v2_event -> bool) (t : list v2_event) : nat :=
  length (filter p t).

(** Answers for the scenarios of the script: a turn that gives [frame0], a
    turn with a true flag and no frame object, and a run on a capture that
    opens and gives a frame in the turns 2 and 5 only. *)
Definition v2_turn_frame : V2Turn :=
  mkV2Turn (pull_ok (Some frame0)) (Ret true) (Ret tt).

Definition v2_turn_none : V2Turn :=
  mkV2Turn (Ret (true, None)) (Ret true) (Ret tt).

Definition v2_env_two : V2Env :=
  mkV2Env (Ret 3%nat) (Ret true) (Ret tt)
          (fun i => if Nat.eqb i 2 || Nat.eqb i 5 then v2_turn_frame
                    else v2_turn_none).

(** ** [test_vision_simple.py]

    The script holds one camera object, which is the state; the modules it
    imports inside the loop are loaded already by [camera_stream].  The
    result is the exit code of the script, or the exception that ends it. *)

Inductive tvs_message : Type :=
  | TvsTitle
  | TvsRule
  | TvsFailedToOpen
  | TvsOpened
  | TvsCapturing
  | TvsFrame (number : Z)
  | TvsResolution (cols rows : Z)
  | TvsBrightnessLine (brightness : float)
  | TvsEdgeDensityLine (edge_density : float)
  | TvsAnalysis (light : string)
  | TvsEmpty
  | TvsFailedRead (number : Z)
  | TvsStopped
  | TvsDone.

Inductive tvs_event : Type :=
  | TvsCamera (e : event)
  | TvsPrint (m : tvs_message)
  | TvsBrightness (frame : option Frame)
  | TvsEdgeDensity (frame : option Frame)
  | TvsSleep (seconds : float).

(** The two measurements are calls to the outside: [TvsBrightness] is
    [cv2.cvtColor] and [np.mean], [TvsEdgeDensity] is [cv2.Canny], [np.sum]
    and the division by the size. *)
Definition TvsProg (A : Type) : Type := Prog IMX219Camera tvs_event A.

Definition tvs_print (m : tvs_message) : TvsProg unit :=
  pcall (TvsPrint m) (Ret tt).

(** A method call on [camera]. *)
Definition tvs_camera {A} (m : M A) : TvsProg A :=
  on_camera (fun cam => cam) (fun cam _ => cam) TvsCamera m.

Definition tvs_light_of (brightness : float) : string :=
  if PrimFloat.ltb brightness 50%float then "dark"
  else if PrimFloat.ltb brightness 150%float then "moderate"
  else "bright".

(** The answers of the outside to the calls of one turn of the [for] loop. *)
Record TvsTurn : Type := mkTvsTurn {
  tt_read : outcome (bool * option Frame);
  tt_brightness : outcome float;
  tt_edge_density : outcome float;
  tt_sleep : outcome unit
}.

(** The body of the [for] loop for index i. *)
Definition tvs_iteration (i : nat) (it : TvsTurn) : TvsProg unit :=
  r <- tvs_camera (read (tt_read it)) ;;
  let '(ok, frame) := r in
  (if ok then
     b <- pcall (TvsBrightness frame) (tt_brightness it) ;;
     d <- pcall (TvsEdgeDensity frame) (tt_edge_density it) ;;
     tvs_print (TvsFrame (Z.of_nat i + 1)) ;;
     shape <- tvs_camera (frame_shape frame) ;;
     tvs_print (TvsResolution (fst shape) (snd shape)) ;;
     tvs_print (TvsBrightnessLine b) ;;
     tvs_print (TvsEdgeDensityLine d) ;;
     tvs_print (TvsAnalysis (tvs_light_of b)) ;;
     tvs_print TvsEmpty
   else tvs_print (TvsFailedRead (Z.of_nat i + 1))) ;;
  pcall (TvsSleep 1%float) (tt_sleep it).

Fixpoint tvs_loop (turn : nat -> TvsTurn) (indices : list nat) : TvsProg unit :=
  match indices with
  | [] => pret tt
  | i :: rest =>
      tvs_iteration i (turn i) ;;
      tvs_loop turn rest
  end.

(** [try: body except KeyboardInterrupt: handler] *)
Definition pexcept_KeyboardInterrupt {S E} (body handler : Prog S E unit)
    : Prog S E unit :=
  fun st =>
    match body st with
    | (Raise e, st1, t1) =>
        match exn_cls e with
        | KeyboardInterrupt =>
            let '(r, st2, t2) := handler st1 in (r, st2, (t1 ++ t2)%list)
        | _ => (Raise e, st1, t1)
        end
    | done => done
    end.

(** [try: body finally: final] *)
Definition pfinally {S E A} (body : Prog S E A) (final : Prog S E unit)
    : Prog S E A :=
  fun st =>
    let '(r, st1, t1) := body st in
    let '(f, st2, t2) := final st1 in
    (match f with Raise e => Raise e | Ret _ => r end, st2, (t1 ++ t2)%list).

Record TvsEnv : Type := mkTvsEnv {
  tvs_open : OpenEnv;
  tvs_turn : nat -> TvsTurn
}.

(** The camera object the script builds. *)
Definition tvs_camera0 : IMX219Camera := __init__ "/dev/video0" 640 480 30 true.

(** The script: [sys.exit(1)] after a failed [open()], else the loop in its
    [try] and the end of the file, which is exit code 0. *)
Definition test_vision_simple (env : TvsEnv)
    : outcome Z * IMX219Camera * list tvs_event :=
  (tvs_print TvsTitle ;;
   tvs_print TvsRule ;;
   opened <- tvs_camera (open (tvs_open env)) ;;
   if negb opened then
     tvs_print TvsFailedToOpen ;;
     pret 1
   else
     tvs_print TvsOpened ;;
     tvs_print TvsCapturing ;;
     pfinally
       (pexcept_KeyboardInterrupt
          (tvs_loop (tvs_turn env) (seq 0 5))
          (tvs_print TvsStopped))
       (tvs_camera close ;; tvs_print TvsDone) ;;
     pret 0) tvs_camera0.

(** The calls of a run that reach the camera backend. *)
Definition tvs_camera_events (t : list tvs_event) : list event :=
  flat_map (fun e => match e with TvsCamera c => [c] | _ => [] end) t.

(** Answers for the scenarios of the script. *)
Definition tvs_turn_frame : TvsTurn :=
  mkTvsTurn (pull_ok (Some frame0)) (Ret 100%float) (Ret 0.5%float) (Ret tt).
Definition tvs_turn_failed : TvsTurn :=
  mkTvsTurn pull_failed (Ret 100%float) (Ret 0.5%float) (Ret tt).


(** The pull of the turn counts as a frame: [if ret]. *)
Definition tvs_ok (it : TvsTurn) : bool :=
  match tt_read it with
  | Ret (true, _) => true
  | _ => false
  end.

(** Every call of the turn returns, and a true flag comes with a frame. *)
Definition tvs_returns (it : TvsTurn) : bool :=
  match tt_read it, tt_sleep it with
  | Ret (true, Some _), Ret _ =>
      match tt_brightness it, tt_edge_density it with
      | Ret _, Ret _ => true
      | _, _ => false
      end
  | Ret (true, None), _ => false
  | Ret (false, _), Ret _ => true
  | _, _ => false
  end.

Definition tvs_env_four : TvsEnv :=
  mkTvsEnv env_good
           (fun i => if Nat.eqb i 1 then tvs_turn_failed else tvs_turn_frame).

(** ** [camera_test.py]

    The functions of the script keep no state.  Two answers of the outside
    have cases of their own, because the code has an [except] clause for
    them: [import cv2] may fail with [ImportError], and [subprocess.run]
    with [FileNotFoundError] or [subprocess.TimeoutExpired]; all three
    classes derive from [Exception].  The messages of the [except] clauses
    carry the text of the exception. *)

Inductive import_answer : Type :=
  | Imported
  | ImportFailed (msg : string)
  | ImportRaised (e : exn).

Inductive run_answer : Type :=
  | RunReturned (returncode : Z) (stdout : string)
  | RunNotFound
  | RunTimedOut
  | RunRaised (e : exn).

Inductive ct_message : Type :=
  | CtRule
  | CtRuleBelow
  | CtDetectionTitle
  | CtDeviceFound (path : string)
  | CtDeviceNotFound (path : string)
  | CtTroubleshooting
  | CtHint (line : nat)
  | CtOpenCVTitle
  | CtImported
  | CtOpenFailed
  | CtOpened
  | CtReadFailed
  | CtCaptured
  | CtResolution (cols rows : Z)
  | CtChannels (channels : Z)
  | CtDataType (dtype : string)
  | CtNotInstalled
  | CtInstallWith
  | CtError (text : string)
  | CtGstTitle
  | CtGstTesting
  | CtGstPipeline (pipeline : string)
  | CtGstOpenFailed
  | CtGstNormal
  | CtGstOpened
  | CtGstCaptured
  | CtGstNoFrame
  | CtGstError (text : string)
  | CtV4l2Title
  | CtV4l2Available
  | CtV4l2Devices
  | CtV4l2Stdout (stdout : string)
  | CtV4l2Failed
  | CtV4l2NotInstalled
  | CtV4l2InstallWith
  | CtV4l2TimedOut
  | CtV4l2Error (text : string)
  | CtStarting
  | CtSummaryTitle
  | CtResult (test_name : string) (passed : bool)
  | CtAllPassed
  | CtNextSteps
  | CtNextStep (line : nat)
  | CtSomeFailed
  | CtCommonFixes
  | CtFix (line : nat).

(** [CtChannelsOf] and [CtDtypeOf] are the lookups [frame.shape[2]] and
    [frame.dtype], which a [Frame] does not hold. *)
Inductive ct_event : Type :=
  | CtPrint (m : ct_message)
  | CtPathExists (path : string)
  | CtImportCv2
  | CtVideoCaptureIndex (index : Z)
  | CtVideoCapture (pipeline : string) (api : api_preference)
  | CtIsOpened (c : Cap)
  | CtRead (c : Cap)
  | CtRelease (c : Cap)
  | CtChannelsOf (frame : Frame)
  | CtDtypeOf (frame : Frame)
  | CtSubprocessRun (argv : list string) (timeout : Z).

Definition CtProg (A : Type) : Type := Prog unit ct_event A.

Definition ct_print (m : ct_message) : CtProg unit := pcall (CtPrint m) (Ret tt).

Definition ct_raise {A} (e : exn) : CtProg A := fun st => (Raise e, st, []).

(** [test_camera_device]; the argument is the answer of [os.path.exists]. *)
Definition test_camera_device (device_exists : bool) : CtProg bool :=
  ct_print CtRule ;;
  ct_print CtDetectionTitle ;;
  ct_print CtRule ;;
  let video_device := "/dev/video0" in
  found <- pcall (CtPathExists video_device) (Ret device_exists) ;;
  if found then
    ct_print (CtDeviceFound video_device) ;;
    pret true
  else
    ct_print (CtDeviceNotFound video_device) ;;
    ct_print CtTroubleshooting ;;
    ct_print (CtHint 1) ;;
    ct_print (CtHint 2) ;;
    ct_print (CtHint 3) ;;
    pret false.

(** The answers of the outside to the calls of one capture test. *)
Record CaptureEnv : Type := mkCaptureEnv {
  ce_import : import_answer;
  ce_VideoCapture : outcome Cap;
  ce_isOpened : outcome bool;
  ce_read : outcome (bool * option Frame);
  ce_channels : outcome Z;
  ce_dtype : string
}.

(** [frame.shape[1]], [frame.shape[0]] in a script. *)
Definition ct_frame_shape (frame : option Frame) : CtProg (Frame * Z * Z) :=
  match frame with
  | Some f => pret (f, shape1 f, shape0 f)
  | None =>
      ct_raise (mkExn AttributeError "'NoneType' object has no attribute 'shape'")
  end.

(** [test_opencv_capture]: the [try] body after [import cv2] has returned is
    under [except Exception] alone. *)
Definition test_opencv_capture (env : CaptureEnv) : CtProg bool :=
  ct_print CtRuleBelow ;;
  ct_print CtOpenCVTitle ;;
  ct_print CtRule ;;
  imp <- pcall CtImportCv2 (Ret (ce_import env)) ;;
  match imp with
  | ImportFailed _ =>
      ct_print CtNotInstalled ;;
      ct_print CtInstallWith ;;
      pret false
  | ImportRaised e =>
      ptry_except_Exception (ct_raise e)
        (fun e => ct_print (CtError (exn_msg e)) ;; pret false)
  | Imported =>
      ptry_except_Exception
        (ct_print CtImported ;;
         c <- pcall (CtVideoCaptureIndex 0) (ce_VideoCapture env) ;;
         opened <- pcall (CtIsOpened c) (ce_isOpened env) ;;
         if negb opened then
           ct_print CtOpenFailed ;;
           pcall (CtRelease c) (Ret tt) ;;
           pret false
         else
           ct_print CtOpened ;;
           r <- pcall (CtRead c) (ce_read env) ;;
           let '(ok, frame) := r in
           if negb ok then
             ct_print CtReadFailed ;;
             pcall (CtRelease c) (Ret tt) ;;
             pret false
           else
             ct_print CtCaptured ;;
             shape <- ct_frame_shape frame ;;
             let '(f, cols, rows) := shape in
             ct_print (CtResolution cols rows) ;;
             channels <- pcall (CtChannelsOf f) (ce_channels env) ;;
             ct_print (CtChannels channels) ;;
             dtype <- pcall (CtDtypeOf f) (Ret (ce_dtype env)) ;;
             ct_print (CtDataType dtype) ;;
             pcall (CtRelease c) (Ret tt) ;;
             pret true)
        (fun e => ct_print (CtError (exn_msg e)) ;; pret false)
  end.

Definition gst_pipeline : string :=
  "nvarguscamerasrc sensor-id=0 ! " ++
  "video/x-raw(memory:NVMM), width=1280, height=720, format=NV12, framerate=30/1 ! " ++
  "nvvidconv ! " ++
  "video/x-raw, format=BGRx ! " ++
  "videoconvert ! " ++
  "video/x-raw, format=BGR ! " ++
  "appsink".

(** [test_gstreamer_pipeline]: every exception of the [try] body that is an
    [Exception], [ImportError] among them, gets the same clause. *)
Definition test_gstreamer_pipeline (env : CaptureEnv) : CtProg bool :=
  ct_print CtRuleBelow ;;
  ct_print CtGstTitle ;;
  ct_print CtRule ;;
  imp <- pcall CtImportCv2 (Ret (ce_import env)) ;;
  match imp with
  | ImportFailed msg =>
      ct_print (CtGstError msg) ;;
      pret false
  | ImportRaised e =>
      ptry_except_Exception (ct_raise e)
        (fun e => ct_print (CtGstError (exn_msg e)) ;; pret false)
  | Imported =>
      ptry_except_Exception
        (ct_print CtGstTesting ;;
         ct_print (CtGstPipeline gst_pipeline) ;;
         c <- pcall (CtVideoCapture gst_pipeline CAP_GSTREAMER)
                    (ce_VideoCapture env) ;;
         opened <- pcall (CtIsOpened c) (ce_isOpened env) ;;
         if negb opened then
           ct_print CtGstOpenFailed ;;
           ct_print CtGstNormal ;;
           pcall (CtRelease c) (Ret tt) ;;
           pret false
         else
           ct_print CtGstOpened ;;
           r <- pcall (CtRead c) (ce_read env) ;;
           let '(ok, frame) := r in
           (if ok then
              ct_print CtGstCaptured ;;
              shape <- ct_frame_shape frame ;;
              let '(_, cols, rows) := shape in
              ct_print (CtResolution cols rows)
            else ct_print CtGstNoFrame) ;;
           pcall (CtRelease c) (Ret tt) ;;
           pret ok)
        (fun e => ct_print (CtGstError (exn_msg e)) ;; pret false)
  end.

(** [test_v4l2]; the argument is the answer of [subprocess.run]. *)
Definition test_v4l2 (answer : run_answer) : CtProg unit :=
  ct_print CtRuleBelow ;;
  ct_print CtV4l2Title ;;
  ct_print CtRule ;;
  result <- pcall (CtSubprocessRun ["v4l2-ctl"; "--list-devices"] 5)
                  (Ret answer) ;;
  match result with
  | RunReturned returncode stdout =>
      if (returncode =? 0)%Z then
        ct_print CtV4l2Available ;;
        ct_print CtV4l2Devices ;;
        ct_print (CtV4l2Stdout stdout)
      else ct_print CtV4l2Failed
  | RunNotFound =>
      ct_print CtV4l2NotInstalled ;;
      ct_print CtV4l2InstallWith
  | RunTimedOut => ct_print CtV4l2TimedOut
  | RunRaised e =>
      ptry_except_Exception (ct_raise e)
        (fun e => ct_print (CtV4l2Error (exn_msg e)))
  end.

(** The answers of the outside to the calls of one run of [main]. *)
Record CtEnv : Type := mkCtEnv {
  ct_device_exists : bool;
  ct_opencv : CaptureEnv;
  ct_gstreamer : CaptureEnv;
  ct_v4l2 : run_answer
}.

(** One line of the summary for each entry of [results]. *)
Fixpoint ct_summary (results : list (string * bool)) : CtProg unit :=
  match results with
  | [] => pret tt
  | (test_name, passed) :: rest =>
      ct_print (CtResult test_name passed) ;;
      ct_summary rest
  end.

(** [camera_test.main] *)
Definition camera_test_main (env : CtEnv) : CtProg Z :=
  ct_print CtStarting ;;
  r1 <- test_camera_device (ct_device_exists env) ;;
  r2 <- test_opencv_capture (ct_opencv env) ;;
  r3 <- test_gstreamer_pipeline (ct_gstreamer env) ;;
  let results :=
    [("Device Detection", r1); ("OpenCV Capture", r2);
     ("GStreamer Pipeline", r3)] in
  test_v4l2 (ct_v4l2 env) ;;
  ct_print CtRuleBelow ;;
  ct_print CtSummaryTitle ;;
  ct_print CtRule ;;
  ct_summary results ;;
  let all_passed := forallb (fun kv => snd kv) results in
  ct_print CtRuleBelow ;;
  (if all_passed then
     ct_print CtAllPassed ;;
     ct_print CtNextSteps ;;
     ct_print (CtNextStep 1) ;;
     ct_print (CtNextStep 2)
   else
     ct_print CtSomeFailed ;;
     ct_print CtCommonFixes ;;
     ct_print (CtFix 1) ;;
     ct_print (CtFix 2) ;;
     ct_print (CtFix 3)) ;;
  ct_print CtRule ;;
  pret (if all_passed then 0 else 1).

(** What the answers must be for a capture test to return True. *)
Definition opencv_passes (env : CaptureEnv) : bool :=
  match ce_import env, ce_VideoCapture env, ce_isOpened env, ce_read env,
        ce_channels env with
  | Imported, Ret _, Ret true, Ret (true, Some _), Ret _ => true
  | _, _, _, _, _ => false
  end.

Definition gstreamer_passes (env : CaptureEnv) : bool :=
  match ce_import env, ce_VideoCapture env, ce_isOpened env, ce_read env with
  | Imported, Ret _, Ret true, Ret (true, Some _) => true
  | _, _, _, _ => false
  end.

(** The answer of [subprocess.run] does not end the script. *)
Definition v4l2_goes_on (answer : run_answer) : bool :=
  match answer with
  | RunRaised e => is_Exception (exn_cls e)
  | _ => true
  end.

Definition is_ct_release (e : ct_event) : bool :=
  match e with CtRelease _ => true | _ => false end.

Definition is_ct_capture (e : ct_event) : bool :=
  match e with
  | CtVideoCaptureIndex _ | CtVideoCapture _ _ => true
  | _ => false
  end.

Definition ct_count (p : ct_event -> bool) (t : list ct_event) : nat :=
  length (filter p t).

(** Answers for the scenarios of the script. *)
Definition capture_good : CaptureEnv :=
  mkCaptureEnv Imported (Ret 4%nat) (Ret true) (pull_ok (Some frame0)) (Ret 3)
               "uint8".

Definition ct_env_good : CtEnv :=
  mkCtEnv true capture_good capture_good RunNotFound.

(** * Properties *)

Arguments _build_gstreamer_pipeline : simpl never.

(** Unfolds one method down to the primitive steps of a run. *)
Ltac run :=
  unfold read, close, get_fps, __enter__, __exit__, with_cap, frame_shape,
    print, call, modify, get, ret, raise, lift, bind; simpl.

(** ** [close] *)

Lemma close_run (s : IMX219Camera) :
  close s =
  (Ret tt, set_cap None s,
   (match cap s with Some c => [EvRelease c] | None => [] end ++ [EvPrint MsgClosed])%list).
Proof.
  destruct s as [d w h f g c n t]; destruct c; reflexivity.
Qed.

Lemma set_cap_idem (c : option Cap) (s : IMX219Camera) :
  set_cap c (set_cap c s) = set_cap c s.
Proof. reflexivity. Qed.

Lemma set_cap_same (s : IMX219Camera) : set_cap (cap s) s = s.
Proof. destruct s; reflexivity. Qed.

(** C7: [close] releases the handle when there is one and leaves the session
    without a handle; it returns normally in every state; a second [close]
    right after it returns normally too, calls no [release()] and leaves the
    state of the first; on a session that was never opened it only prints. *)
Theorem close_idempotent :
  (forall s,
     outcome_of (close s) = Ret tt /\
     cap (state_of (close s)) = None /\
     state_of (close s) = set_cap None s /\
     (forall c, cap s = Some c ->
        trace_of (close s) = [EvRelease c; EvPrint MsgClosed]) /\
     (cap s = None -> trace_of (close s) = [EvPrint MsgClosed])) /\
  (forall s,
     let s1 := state_of (close s) in
     close s1 = (Ret tt, s1, [EvPrint MsgClosed])) /\
  (forall d w h f g,
     close (__init__ d w h f g) =
     (Ret tt, __init__ d w h f g, [EvPrint MsgClosed])).
Proof.
  split; [|split].
  - intros s; rewrite close_run; unfold outcome_of, state_of, trace_of; simpl.
    repeat split.
    + intros c Hc; rewrite Hc; reflexivity.
    + intros Hc; rewrite Hc; reflexivity.
  - intros s; simpl. rewrite !close_run; unfold state_of; simpl. reflexivity.
  - intros; reflexivity.
Qed.

Lemma close_idempotent_witness :
  let s := state_of (open env_good camera0) in
  cap s = Some 7%nat /\
  trace_of (close s) = [EvRelease 7%nat; EvPrint MsgClosed] /\
  cap (state_of (close s)) = None /\
  trace_of (close (state_of (close s))) = [EvPrint MsgClosed].
Proof.
  intros s.
  destruct close_idempotent as (H1 & _ & _).
  destruct (H1 s) as (_ & Hc & _ & Ht & _).
  destruct (H1 (state_of (close s))) as (_ & _ & _ & _ & Hn).
  split; [reflexivity|]. split; [exact (Ht 7%nat eq_refl)|].
  split; [exact Hc|]. exact (Hn Hc).
Defined.

(** ** [read] *)

Lemma read_closed (pull : outcome (bool * option Frame)) (s : IMX219Camera) :
  cap s = None -> read pull s = (Ret (false, None), s, []).
Proof.
  intros H; run; rewrite H; reflexivity.
Qed.

Lemma read_ok (c : Cap) (frame : option Frame) (s : IMX219Camera) :
  cap s = Some c ->
  read (pull_ok frame) s =
  (Ret (true, frame), set_frame_count (frame_count s + 1) s, [EvRead c]).
Proof.
  intros H; run; rewrite H; simpl; rewrite H; reflexivity.
Qed.

Lemma read_not_ok (c : Cap) (frame : option Frame) (s : IMX219Camera) :
  cap s = Some c ->
  read (Ret (false, frame)) s = (Ret (false, frame), s, [EvRead c]).
Proof.
  intros H; run; rewrite H; simpl; rewrite H; reflexivity.
Qed.

Lemma read_raises (c : Cap) (e : exn) (s : IMX219Camera) :
  cap s = Some c ->
  read (Raise e) s = (Raise e, s, [EvRead c]).
Proof.
  intros H; run; rewrite H; simpl; rewrite H; reflexivity.
Qed.

(** C4: on a session that holds a handle, a pull that yields a frame makes
    [read] return [(True, frame)] with [frame_count] one higher and every
    other field as it was; a pull that yields nothing makes it return
    [(False, None)] with the whole state as it was; either way the backend is
    asked exactly once. *)
Theorem read_open_session (s : IMX219Camera) (c : Cap) :
  cap s = Some c ->
  (forall frame,
     let r := read (pull_ok frame) s in
     outcome_of r = Ret (true, frame) /\
     frame_count (state_of r) = frame_count s + 1 /\
     state_of r = set_frame_count (frame_count s + 1) s /\
     cap (state_of r) = cap s /\
     start_time (state_of r) = start_time s /\
     (width (state_of r), height (state_of r), framerate (state_of r)) =
       (width s, height s, framerate s) /\
     trace_of r = [EvRead c] /\ pulls (trace_of r) = 1%nat) /\
  (let r := read pull_failed s in
   outcome_of r = Ret (false, None) /\
   state_of r = s /\
   trace_of r = [EvRead c] /\ pulls (trace_of r) = 1%nat).
Proof.
  intros H; split.
  - intros frame r; subst r; rewrite (read_ok c frame s H).
    unfold outcome_of, state_of, trace_of; simpl. repeat split; assumption.
  - unfold pull_failed; rewrite (read_not_ok c None s H).
    unfold outcome_of, state_of, trace_of; simpl. repeat split.
Qed.

Lemma read_open_session_witness :
  let s := state_of (open env_good camera0) in
  cap s = Some 7%nat /\
  read (pull_ok (Some frame0)) s =
    (Ret (true, Some frame0), set_frame_count 1 s, [EvRead 7%nat]) /\
  read pull_failed s = (Ret (false, None), s, [EvRead 7%nat]).
Proof.
  intros s.
  destruct (read_open_session s 7%nat eq_refl) as [Hok Hfail].
  destruct (Hok (Some frame0)) as (Ho & _ & Hs & _ & _ & _ & Ht & _).
  destruct Hfail as (Ho' & Hs' & Ht' & _).
  split; [reflexivity|]. split.
  - rewrite (surjective_pairing (read (pull_ok (Some frame0)) s)).
    rewrite (surjective_pairing (fst (read (pull_ok (Some frame0)) s))).
    unfold outcome_of, state_of, trace_of in Ho, Hs, Ht.
    rewrite Ho, Hs, Ht. reflexivity.
  - rewrite (surjective_pairing (read pull_failed s)).
    rewrite (surjective_pairing (fst (read pull_failed s))).
    unfold outcome_of, state_of, trace_of in Ho', Hs', Ht'.
    rewrite Ho', Hs', Ht'. reflexivity.
Defined.

(** The guard of [read]: on a session without a handle, whatever the backend
    would answer, [read] returns [(False, None)], raises nothing, calls
    nothing and leaves the state as it was; a session fresh from the
    constructor and a session after [close] are such sessions; a session
    whose [open] failed at [isOpened()] still holds its handle and is not. *)
Lemma read_not_open (pull : outcome (bool * option Frame)) :
  (forall s, cap s = None -> read pull s = (Ret (false, None), s, [])) /\
  (forall d w h f g,
     read pull (__init__ d w h f g) =
     (Ret (false, None), __init__ d w h f g, [])) /\
  (forall s,
     let s1 := state_of (close s) in
     read pull s1 = (Ret (false, None), s1, [])).
Proof.
  split; [|split].
  - intros s H; apply read_closed; exact H.
  - intros; apply read_closed; reflexivity.
  - intros s s1; subst s1; apply read_closed.
    rewrite close_run; reflexivity.
Qed.

Lemma read_not_open_witness :
  cap camera0 = None /\
  read (pull_ok (Some frame0)) camera0 = (Ret (false, None), camera0, []).
Proof.
  split; [reflexivity|].
  exact (proj1 (read_not_open (pull_ok (Some frame0))) camera0 eq_refl).
Defined.

(** ** [open] *)

Ltac open_cases :=
  repeat (simpl;
    match goal with
    | |- context [match ?x with _ => _ end] => is_var x; destruct x
    | |- context [negb ?x] => is_var x; destruct x
    | |- context [if is_Exception (exn_cls ?e) then _ else _] =>
        destruct (is_Exception (exn_cls e)) eqn:?
    end).

Ltac run_open :=
  unfold open, outcome_of, state_of, trace_of; run;
  unfold try_except_Exception; run.

Lemma open_frame_count (env : OpenEnv) (s : IMX219Camera) :
  frame_count (state_of (open env s)) = frame_count s.
Proof.
  destruct s as [d w h f g c n t], env as [oc ow oh ofp oo ord tm].
  run_open; open_cases; reflexivity.
Qed.

Lemma open_geometry (env : OpenEnv) (s : IMX219Camera) :
  let s1 := state_of (open env s) in
  device s1 = device s /\ width s1 = width s /\ height s1 = height s /\
  framerate s1 = framerate s /\ use_gstreamer s1 = use_gstreamer s.
Proof.
  destruct s as [d w h f g c n t], env as [oc ow oh ofp oo ord tm].
  run_open; open_cases; repeat split.
Qed.

(** What a successful [open] means for the backend and for the state. *)
Lemma open_true_inv (env : OpenEnv) (s : IMX219Camera) :
  outcome_of (open env s) = Ret true ->
  exists c frame,
    handle_opens env s c /\
    env_read env = pull_ok (Some frame) /\
    state_of (open env s) =
      set_start_time (Some (env_time env)) (set_cap (Some c) s).
Proof.
  destruct s as [d w h f g c n t], env as [oc ow oh ofp oo ord tm].
  unfold handle_opens, sets_return, pull_ok.
  run_open; open_cases; intros H; try discriminate H;
    eexists; eexists; repeat split; congruence.
Qed.

(** [open] on a backend that opens and yields a frame. *)
Lemma open_ok (env : OpenEnv) (s : IMX219Camera) (c : Cap) (frame : Frame) :
  handle_opens env s c ->
  env_read env = pull_ok (Some frame) ->
  open env s =
  (Ret true,
   set_start_time (Some (env_time env)) (set_cap (Some c) s),
   (setup_trace s c ++
    [EvIsOpened c; EvRead c; EvPrint MsgOpened;
     EvPrint (MsgActualResolution (shape1 frame) (shape0 frame)); EvTime])%list).
Proof.
  destruct s as [d w h f g c0 n t], env as [oc ow oh ofp oo ord tm].
  unfold handle_opens, sets_return, setup_trace, pull_ok; simpl.
  intros (-> & Hs & ->) ->.
  destruct g.
  - reflexivity.
  - specialize (Hs eq_refl).
    destruct ow; [|discriminate]; destruct oh; [|discriminate];
      destruct ofp; [|discriminate]; reflexivity.
Qed.

(** [open] on a backend whose handle does not report itself opened. *)
Lemma open_not_opened (env : OpenEnv) (s : IMX219Camera) (c : Cap) :
  env_VideoCapture env = Ret c ->
  (use_gstreamer s = false -> sets_return env = true) ->
  env_isOpened env = Ret false ->
  open env s =
  (Ret false, set_cap (Some c) s,
   (setup_trace s c ++ [EvIsOpened c; EvPrint MsgFailedToOpen])%list).
Proof.
  destruct s as [d w h f g c0 n t], env as [oc ow oh ofp oo ord tm].
  unfold sets_return, setup_trace; simpl.
  intros -> Hs ->.
  destruct g.
  - reflexivity.
  - specialize (Hs eq_refl).
    destruct ow; [|discriminate]; destruct oh; [|discriminate];
      destruct ofp; [|discriminate]; reflexivity.
Qed.

(** [open] on a backend that opens and whose trial pull is not a success. *)
Lemma open_no_frame (env : OpenEnv) (s : IMX219Camera) (c : Cap)
    (frame : option Frame) :
  handle_opens env s c ->
  env_read env = Ret (false, frame) ->
  open env s =
  (Ret false, set_cap None s,
   (setup_trace s c ++
    [EvIsOpened c; EvRead c; EvPrint MsgFailedTestFrame;
     EvRelease c; EvPrint MsgClosed])%list).
Proof.
  destruct s as [d w h f g c0 n t], env as [oc ow oh ofp oo ord tm].
  unfold handle_opens, sets_return, setup_trace; simpl.
  intros (-> & Hs & ->) ->.
  destruct g.
  - reflexivity.
  - specialize (Hs eq_refl).
    destruct ow; [|discriminate]; destruct oh; [|discriminate];
      destruct ofp; [|discriminate]; reflexivity.
Qed.

Lemma releases_app (t1 t2 : list event) :
  releases (t1 ++ t2) = (releases t1 + releases t2)%nat.
Proof.
  unfold releases; rewrite filter_app, length_app; reflexivity.
Qed.

Lemma releases_setup_trace (s : IMX219Camera) (c : Cap) :
  releases (setup_trace s c) = 0%nat.
Proof.
  unfold setup_trace; destruct (use_gstreamer s); reflexivity.
Qed.

(** C3: when the handle opens and the trial pull yields no frame, [open]
    returns [False], has called [release()] on the handle exactly once, after
    the pull, and leaves the session without a handle; a [close] after it
    calls no [release()] and changes nothing. *)
Theorem open_trial_failure_releases (env : OpenEnv) (s : IMX219Camera)
    (c : Cap) (frame : option Frame) :
  handle_opens env s c ->
  env_read env = Ret (false, frame) ->
  let r := open env s in
  outcome_of r = Ret false /\
  cap (state_of r) = None /\
  trace_of r =
    (setup_trace s c ++
     [EvIsOpened c; EvRead c; EvPrint MsgFailedTestFrame;
      EvRelease c; EvPrint MsgClosed])%list /\
  releases (trace_of r) = 1%nat /\
  close (state_of r) = (Ret tt, state_of r, [EvPrint MsgClosed]) /\
  releases (trace_of (close (state_of r))) = 0%nat.
Proof.
  intros Ho Hr r; subst r; rewrite (open_no_frame env s c frame Ho Hr).
  unfold outcome_of, state_of, trace_of; cbn [fst snd].
  repeat split.
  rewrite releases_app, releases_setup_trace; reflexivity.
Qed.

Lemma open_trial_failure_releases_witness :
  handle_opens env_no_frame camera0 7%nat /\
  env_read env_no_frame = Ret (false, None) /\
  cap (state_of (open env_no_frame camera0)) = None.
Proof.
  assert (Ho : handle_opens env_no_frame camera0 7%nat)
    by (repeat split; reflexivity).
  split; [exact Ho|]. split; [reflexivity|].
  exact (proj1 (proj2
    (open_trial_failure_releases env_no_frame camera0 7%nat None Ho eq_refl))).
Defined.

(** C2: with a V4L2 session and a backend whose handle does not report itself
    opened, [open] returns [False] and the session still holds the handle, on
    which [release()] was not called; the next [read] asks that handle for a
    frame, and only [close] gives it up. *)
Theorem open_not_opened_keeps_handle :
  let r := open env_not_opened camera0 in
  outcome_of r = Ret false /\
  cap (state_of r) = Some 7%nat /\
  releases (trace_of r) = 0%nat /\
  trace_of (read pull_failed (state_of r)) = [EvRead 7%nat] /\
  trace_of (close (state_of r)) = [EvRelease 7%nat; EvPrint MsgClosed].
Proof.
  repeat split.
Qed.



(** The same on every session and every backend of that kind. *)
Lemma open_not_opened_cap (env : OpenEnv) (s : IMX219Camera) (c : Cap) :
  env_VideoCapture env = Ret c ->
  (use_gstreamer s = false -> sets_return env = true) ->
  env_isOpened env = Ret false ->
  outcome_of (open env s) = Ret false /\
  cap (state_of (open env s)) = Some c /\
  releases (trace_of (open env s)) = 0%nat.
Proof.
  intros Hc Hs Ho; rewrite (open_not_opened env s c Hc Hs Ho).
  unfold outcome_of, state_of, trace_of; cbn [fst snd]; repeat split.
  rewrite releases_app, releases_setup_trace; reflexivity.
Qed.

(** ** Runs of [read] *)

Lemma set_frame_count_same (s : IMX219Camera) :
  set_frame_count (frame_count s) s = s.
Proof. destruct s; reflexivity. Qed.

Lemma set_frame_count_twice (n m : Z) (s : IMX219Camera) :
  set_frame_count n (set_frame_count m s) = set_frame_count n s.
Proof. reflexivity. Qed.

Lemma read_many_ok (frames : list (option Frame)) :
  forall (s : IMX219Camera) (c : Cap),
    cap s = Some c ->
    read_many (map pull_ok frames) s =
    (Ret (map (fun f => (true, f)) frames),
     set_frame_count (frame_count s + Z.of_nat (length frames)) s,
     repeat (EvRead c) (length frames)).
Proof.
  induction frames as [|f frames IH]; intros s c Hc.
  - simpl. rewrite Z.add_0_r, set_frame_count_same. reflexivity.
  - cbn [map read_many length repeat].
    unfold bind at 1. rewrite (read_ok c f s Hc).
    unfold bind at 1.
    rewrite (IH (set_frame_count (frame_count s + 1) s) c Hc).
    rewrite set_frame_count_twice.
    cbn [frame_count set_frame_count].
    rewrite Nat2Z.inj_succ, <- Z.add_1_l, Z.add_assoc.
    unfold ret; cbv beta iota. rewrite app_nil_r.
    reflexivity.
Qed.

(** [open] never assigns [frame_count]: a successful [open] leaves it as it
    was (the trial frame is not counted), and N successful [read] calls add
    N to it; on a session whose [frame_count] was zero, a fresh one in
    particular, it is zero after [open] and exactly N after N successful
    reads. *)
Lemma open_leaves_frame_count (env : OpenEnv) (s : IMX219Camera) :
  outcome_of (open env s) = Ret true ->
  let s1 := state_of (open env s) in
  frame_count s1 = frame_count s /\
  (forall frames : list (option Frame),
     let r := read_many (map pull_ok frames) s1 in
     outcome_of r = Ret (map (fun f => (true, f)) frames) /\
     frame_count (state_of r) = frame_count s + Z.of_nat (length frames)) /\
  (frame_count s = 0 ->
   frame_count s1 = 0 /\
   forall frames : list (option Frame),
     frame_count (state_of (read_many (map pull_ok frames) s1)) =
     Z.of_nat (length frames)).
Proof.
  intros Ht s1.
  assert (Hfc : frame_count s1 = frame_count s) by apply open_frame_count.
  destruct (open_true_inv env s Ht) as (c & frame & _ & _ & Hs1).
  assert (Hc : cap s1 = Some c) by (subst s1; rewrite Hs1; reflexivity).
  assert (Hrun : forall frames : list (option Frame),
     let r := read_many (map pull_ok frames) s1 in
     outcome_of r = Ret (map (fun f => (true, f)) frames) /\
     frame_count (state_of r) = frame_count s + Z.of_nat (length frames)).
  { intros frames r; subst r. rewrite (read_many_ok frames s1 c Hc).
    unfold outcome_of, state_of; simpl. split; [reflexivity|]. lia. }
  split; [exact Hfc|]. split; [exact Hrun|].
  intros H0. split; [lia|].
  intros frames. destruct (Hrun frames) as [_ H]. simpl in H. lia.
Qed.

Lemma open_leaves_frame_count_witness :
  outcome_of (open env_good camera0) = Ret true /\
  frame_count (state_of (open env_good camera0)) = 0 /\
  frame_count
    (state_of (read_many (map pull_ok [Some frame0; Some frame0; Some frame0])
                 (state_of (open env_good camera0)))) = 3.
Proof.
  split; [reflexivity|].
  destruct (open_leaves_frame_count env_good camera0 eq_refl) as (_ & _ & H).
  destruct (H eq_refl) as [H0 HN].
  split; [exact H0|].
  exact (HN [Some frame0; Some frame0; Some frame0]).
Defined.

(** C1: a session is opened, reads three frames, is closed and opened
    again.  The second [open] returns [True] and stamps [start_time] anew
    with the clock, but [frame_count] is still three, not zero: the frames
    of the previous open carry over.  No frame was read since this [open]
    (its only pull is the trial pull), yet one second later [get_fps]
    reports 3.0 frames per second. *)
Theorem reopen_carries_frame_count :
  let s1 := state_of (open env_good camera0) in
  let s2 := state_of (read_many (map pull_ok [Some frame0; Some frame0; Some frame0]) s1) in
  let s3 := state_of (close s2) in
  (outcome_of (open env_good s3) = Ret true /\
   frame_count (state_of (open env_good s3)) = 3) /\
  (let r := open env_good_later s3 in
   outcome_of r = Ret true /\
   frame_count (state_of r) = 3 /\
   start_time s3 = Some 100%float /\
   start_time (state_of r) = Some 200%float /\
   pulls (trace_of r) = 1%nat /\
   outcome_of (get_fps 201%float (state_of r)) = Ret 3%float) /\
  ~ (forall env s, outcome_of (open env s) = Ret true ->
                   frame_count (state_of (open env s)) = 0).
Proof.
  intros s1 s2 s3. split; [split; reflexivity|]. split.
  - repeat split; vm_compute; reflexivity.
  - intros H. specialize (H env_good s3 eq_refl). discriminate H.
Qed.

(** ** Exceptions and [open] *)

Lemma open_raises_inv (env : OpenEnv) (s : IMX219Camera) (e : exn) :
  outcome_of (open env s) = Raise e -> is_Exception (exn_cls e) = false.
Proof.
  destruct s as [d w h f g c n t], env as [oc ow oh ofp oo ord tm].
  run_open; open_cases; intros H; try discriminate H;
    injection H as <-; assumption.
Qed.

Lemma open_VideoCapture_raises (env : OpenEnv) (s : IMX219Camera) (e : exn) :
  env_VideoCapture env = Raise e ->
  open env s =
  (if is_Exception (exn_cls e) then Ret false else Raise e,
   s,
   ([EvPrint (MsgOpening (device s));
     EvPrint (MsgResolution (width s) (height s) (framerate s));
     EvPrint (if use_gstreamer s then MsgUsingGStreamer else MsgUsingV4L2);
     if use_gstreamer s
     then EvVideoCapture (_build_gstreamer_pipeline s) CAP_GSTREAMER
     else EvVideoCapture (device s) CAP_V4L2] ++
    (if is_Exception (exn_cls e) then [EvPrint (MsgErrorOpening e)] else []))%list).
Proof.
  destruct s as [d w h f g c n t], env as [oc ow oh ofp oo ord tm].
  simpl; intros ->.
  run_open; destruct g; simpl; destruct (is_Exception (exn_cls e)); reflexivity.
Qed.

(** C8, as the code has it: a handle that does not open and a trial pull
    without a frame make [open] return [False]; no exception of class
    [Exception] leaves [open], whichever backend call raised it; one raised
    by the construction of the handle is printed and turned into [False]
    with the session as it was; an exception outside [Exception] raised
    there leaves [open]. *)
Theorem open_failure_reporting (env : OpenEnv) (s : IMX219Camera) :
  (forall c,
     env_VideoCapture env = Ret c ->
     (use_gstreamer s = false -> sets_return env = true) ->
     env_isOpened env = Ret false ->
     outcome_of (open env s) = Ret false) /\
  (forall c frame,
     handle_opens env s c ->
     env_read env = Ret (false, frame) ->
     outcome_of (open env s) = Ret false) /\
  (forall e,
     outcome_of (open env s) = Raise e -> is_Exception (exn_cls e) = false) /\
  (forall e,
     env_VideoCapture env = Raise e ->
     is_Exception (exn_cls e) = true ->
     outcome_of (open env s) = Ret false /\
     state_of (open env s) = s /\
     last (trace_of (open env s)) EvTime = EvPrint (MsgErrorOpening e)) /\
  (forall e,
     env_VideoCapture env = Raise e ->
     is_Exception (exn_cls e) = false ->
     outcome_of (open env s) = Raise e).
Proof.
  split; [|split; [|split; [|split]]].
  - intros c Hc Hs Ho; rewrite (open_not_opened env s c Hc Hs Ho); reflexivity.
  - intros c frame Ho Hr; rewrite (open_no_frame env s c frame Ho Hr); reflexivity.
  - intros e; apply open_raises_inv.
  - intros e He Hx.
    rewrite (open_VideoCapture_raises env s e He), Hx.
    destruct (use_gstreamer s); repeat split.
  - intros e He Hx.
    rewrite (open_VideoCapture_raises env s e He), Hx; reflexivity.
Qed.

Lemma open_failure_reporting_witness :
  let e := mkExn CvError "malformed pipeline description" in
  env_VideoCapture (env_raising e) = Raise e /\
  is_Exception (exn_cls e) = true /\
  outcome_of (open (env_raising e) default_camera) = Ret false.
Proof.
  intros e. split; [reflexivity|]. split; [reflexivity|].
  destruct (open_failure_reporting (env_raising e) default_camera)
    as (_ & _ & _ & H & _).
  exact (proj1 (H e eq_refl eq_refl)).
Defined.

(** C8 as stated fails: the construction of the handle raises [cv2.error]
    for a malformed pipeline description; [open] returns [False] and the
    exception does not leave it. *)
Lemma open_catches_backend_fault :
  let e := mkExn CvError "malformed pipeline description" in
  outcome_of (open (env_raising e) default_camera) = Ret false /\
  outcome_of (open (env_raising e) default_camera) <> Raise e.
Proof.
  intros e; split; [reflexivity|discriminate].
Qed.

(** ** The context manager *)

(** C10: whenever [open] returns, with [True] or with [False], [__enter__]
    returns the object, in the state and with the calls of that [open];
    [__exit__] is [close] whatever ended the block: it returns normally and
    leaves the session without a handle. *)
Theorem enter_discards_open_result :
  (forall env s b,
     outcome_of (open env s) = Ret b ->
     __enter__ env s =
     (Ret (state_of (open env s)), state_of (open env s), trace_of (open env s))) /\
  (forall (exc : exc_info) s,
     __exit__ exc s = close s /\
     outcome_of (__exit__ exc s) = Ret tt /\
     cap (state_of (__exit__ exc s)) = None).
Proof.
  split.
  - intros env s b H. unfold __enter__, bind at 1.
    destruct (open env s) as [[o s1] t1].
    unfold outcome_of in H; simpl in H; subst o.
    unfold state_of, trace_of; run. rewrite app_nil_r. reflexivity.
  - intros exc s. unfold __exit__. rewrite close_run. repeat split.
Qed.

Lemma enter_discards_open_result_witness :
  outcome_of (open env_not_opened camera0) = Ret false /\
  outcome_of (__enter__ env_not_opened camera0) =
    Ret (state_of (open env_not_opened camera0)).
Proof.
  split; [reflexivity|].
  rewrite (proj1 enter_discards_open_result env_not_opened camera0 false eq_refl).
  reflexivity.
Defined.

(** An exception that leaves [open] leaves [__enter__] as well. *)
Lemma enter_raises (env : OpenEnv) (s : IMX219Camera) (e : exn) :
  outcome_of (open env s) = Raise e ->
  __enter__ env s = (Raise e, state_of (open env s), trace_of (open env s)).
Proof.
  intros H. unfold __enter__, bind at 1.
  destruct (open env s) as [[o s1] t1].
  unfold outcome_of in H; simpl in H; subst o. reflexivity.
Qed.

(** ** The pipeline description *)

Lemma append_assoc (a b c : string) : ((a ++ b) ++ c = a ++ (b ++ c))%string.
Proof.
  induction a as [|x a IH]; simpl; [reflexivity|]. rewrite IH; reflexivity.
Qed.

Lemma pipeline_is_stages (s : IMX219Camera) :
  _build_gstreamer_pipeline s =
  String.concat " ! " (pipeline_stages (width s) (height s) (framerate s)).
Proof.
  unfold _build_gstreamer_pipeline, pipeline_stages, sensor_source,
    hardware_conversion, sink.
  cbn [String.concat].
  repeat (rewrite !append_assoc; cbn [append]).
  reflexivity.
Qed.

Lemma concat_snoc_sink (w h fps : Z) :
  String.concat " ! " (pipeline_stages w h fps) =
  String.concat " ! " (removelast (pipeline_stages w h fps)) ++ " ! " ++ sink.
Proof.
  unfold pipeline_stages. cbn [removelast String.concat].
  repeat (rewrite !append_assoc; cbn [append]).
  reflexivity.
Qed.

Lemma open_gstreamer_target (env : OpenEnv) (s : IMX219Camera) :
  use_gstreamer s = true ->
  nth_error (trace_of (open env s)) 3 =
  Some (EvVideoCapture (_build_gstreamer_pipeline s) CAP_GSTREAMER).
Proof.
  destruct s as [d w h f g c n t], env as [oc ow oh ofp oo ord tm].
  simpl; intros ->.
  run_open; open_cases; reflexivity.
Qed.

(** C9: for every width, height and framerate the pipeline description is
    the stages joined by [" ! "], first the sensor source, then the hardware
    conversion between the requested geometry in device memory and the
    converted one, and it ends in the sink with [max-buffers=1 drop=true
    sync=false]; with the accelerated backend [open] hands exactly this
    description to [cv2.VideoCapture] with [CAP_GSTREAMER]. *)
Theorem gstreamer_pipeline_description (s : IMX219Camera) :
  let w := width s in
  let h := height s in
  let fps := framerate s in
  _build_gstreamer_pipeline s = String.concat " ! " (pipeline_stages w h fps) /\
  String.prefix (sensor_source ++ " ! ") (_build_gstreamer_pipeline s) = true /\
  nth_error (pipeline_stages w h fps) 2 = Some hardware_conversion /\
  (exists front,
     _build_gstreamer_pipeline s =
     front ++ " ! " ++ "appsink max-buffers=1 drop=true sync=false") /\
  (use_gstreamer s = true ->
   forall env,
     nth_error (trace_of (open env s)) 3 =
     Some (EvVideoCapture (_build_gstreamer_pipeline s) CAP_GSTREAMER)).
Proof.
  intros w h fps. split; [apply pipeline_is_stages|].
  split; [reflexivity|]. split; [reflexivity|]. split.
  - exists (String.concat " ! " (removelast (pipeline_stages w h fps))).
    rewrite pipeline_is_stages. apply concat_snoc_sink.
  - intros Hg env. apply open_gstreamer_target; exact Hg.
Qed.

Lemma gstreamer_pipeline_description_witness :
  use_gstreamer default_camera = true /\
  nth_error (trace_of (open env_good default_camera)) 3 =
  Some (EvVideoCapture
          "nvarguscamerasrc sensor-id=0 ! video/x-raw(memory:NVMM), width=1280, height=720, format=NV12, framerate=30/1 ! nvvidconv ! video/x-raw, width=1280, height=720, format=BGRx ! videoconvert ! video/x-raw, format=BGR ! appsink max-buffers=1 drop=true sync=false"
          CAP_GSTREAMER).
Proof.
  split; [reflexivity|].
  exact (proj2 (proj2 (proj2 (proj2
    (gstreamer_pipeline_description default_camera)))) eq_refl env_good).
Defined.

(** ** [get_fps] *)

Lemma float_pos_not_zero (x : float) :
  PrimFloat.ltb 0%float x = true -> PrimFloat.eqb x 0%float = false.
Proof.
  rewrite ltb_spec, eqb_spec.
  change (Prim2SF 0%float) with (S754_zero false).
  destruct (Prim2SF x) as [sg|sg| |sg m e];
    unfold SFltb, SFeqb, SFcompare; try destruct sg; simpl; congruence.
Qed.

Lemma get_fps_unopened (now : float) (s : IMX219Camera) :
  start_time s = None -> get_fps now s = (Ret 0%float, s, []).
Proof.
  intros H; run; rewrite H; reflexivity.
Qed.

Lemma get_fps_no_frames (now : float) (s : IMX219Camera) :
  frame_count s = 0 -> get_fps now s = (Ret 0%float, s, []).
Proof.
  intros H; run; rewrite H; destruct (start_time s); reflexivity.
Qed.

Lemma get_fps_positive (now t0 : float) (s : IMX219Camera) :
  start_time s = Some t0 ->
  frame_count s <> 0 ->
  PrimFloat.ltb 0%float (PrimFloat.sub now t0) = true ->
  PrimFloat.is_infinity (float_of_int (frame_count s)) = false ->
  get_fps now s =
  (Ret (PrimFloat.div (float_of_int (frame_count s)) (PrimFloat.sub now t0)),
   s, [EvTime]).
Proof.
  intros Ht Hn Hpos Hfin; run; rewrite Ht.
  destruct (Z.eqb_spec (frame_count s) 0) as [E|_]; [contradiction|].
  simpl. rewrite Hpos. unfold int_truediv_float.
  rewrite Hfin, (float_pos_not_zero _ Hpos). reflexivity.
Qed.

Lemma get_fps_not_positive (now t0 : float) (s : IMX219Camera) :
  start_time s = Some t0 ->
  frame_count s <> 0 ->
  PrimFloat.ltb 0%float (PrimFloat.sub now t0) = false ->
  get_fps now s = (Ret 0%float, s, [EvTime]).
Proof.
  intros Ht Hn Hpos; run; rewrite Ht.
  destruct (Z.eqb_spec (frame_count s) 0) as [E|_]; [contradiction|].
  simpl. rewrite Hpos. reflexivity.
Qed.

(** [start_time] is written by a successful [open] only. *)
Lemma open_start_time (env : OpenEnv) (s : IMX219Camera) :
  start_time (state_of (open env s)) =
  match outcome_of (open env s) with
  | Ret true => Some (env_time env)
  | _ => start_time s
  end.
Proof.
  destruct s as [d w h f g c n t], env as [oc ow oh ofp oo ord tm].
  run_open; open_cases; reflexivity.
Qed.

(** C6, as the code has it: [get_fps] returns 0.0 when the session was never
    opened or no frame was read; otherwise it reads the clock once and, when
    the time since the successful [open] is positive, returns [frame_count]
    (one that converts to a finite float) divided by it, and 0.0 when that
    time is not positive; the divisor is the time since [open], so after
    [open] and N reads the value is N over the time since [open], whenever
    the reads happened. *)
Theorem get_fps_value (now : float) :
  (forall s,
     start_time s = None \/ frame_count s = 0 ->
     get_fps now s = (Ret 0%float, s, [])) /\
  (forall d w h f g,
     get_fps now (__init__ d w h f g) = (Ret 0%float, __init__ d w h f g, [])) /\
  (forall s t0,
     start_time s = Some t0 ->
     frame_count s <> 0 ->
     let elapsed := PrimFloat.sub now t0 in
     (PrimFloat.ltb 0%float elapsed = true ->
      PrimFloat.is_infinity (float_of_int (frame_count s)) = false ->
      get_fps now s =
      (Ret (PrimFloat.div (float_of_int (frame_count s)) elapsed), s, [EvTime])) /\
     (PrimFloat.ltb 0%float elapsed = false ->
      get_fps now s = (Ret 0%float, s, [EvTime]))) /\
  (forall env s0 (frames : list (option Frame)),
     outcome_of (open env s0) = Ret true ->
     frame_count s0 = 0 ->
     frames <> [] ->
     let s := state_of (read_many (map pull_ok frames) (state_of (open env s0))) in
     let elapsed := PrimFloat.sub now (env_time env) in
     let n := Z.of_nat (length frames) in
     PrimFloat.ltb 0%float elapsed = true ->
     PrimFloat.is_infinity (float_of_int n) = false ->
     outcome_of (get_fps now s) = Ret (PrimFloat.div (float_of_int n) elapsed)).
Proof.
  split; [|split; [|split]].
  - intros s [H|H]; [apply get_fps_unopened | apply get_fps_no_frames]; exact H.
  - intros; apply get_fps_unopened; reflexivity.
  - intros s t0 Ht Hn elapsed; split.
    + intros Hp Hf; apply get_fps_positive; assumption.
    + intros Hp; apply (get_fps_not_positive now t0); assumption.
  - intros env s0 frames Hopen H0 Hne s elapsed n Hp Hf.
    destruct (open_true_inv env s0 Hopen) as (c & frame & _ & _ & Hs1).
    assert (Hs : s = set_frame_count n (state_of (open env s0))).
    { subst s. rewrite (read_many_ok frames _ c) by (rewrite Hs1; reflexivity).
      unfold state_of at 1; cbn [fst snd].
      rewrite open_frame_count, H0. reflexivity. }
    assert (Hn : frame_count s = n) by (rewrite Hs; reflexivity).
    assert (Ht : start_time s = Some (env_time env)).
    { rewrite Hs. cbn [start_time set_frame_count].
      rewrite open_start_time, Hopen. reflexivity. }
    rewrite (get_fps_positive now (env_time env) s Ht).
    + rewrite Hn; reflexivity.
    + rewrite Hn. subst n. destruct frames; [contradiction|simpl; lia].
    + exact Hp.
    + rewrite Hn; exact Hf.
Qed.

Lemma get_fps_value_witness :
  let s := state_of (read_many (map pull_ok [Some frame0; Some frame0; Some frame0])
                       (state_of (open env_good camera0))) in
  start_time s = Some 100%float /\
  frame_count s <> 0 /\
  PrimFloat.ltb 0%float (PrimFloat.sub 102%float 100%float) = true /\
  PrimFloat.is_infinity (float_of_int (frame_count s)) = false /\
  get_fps 102%float s = (Ret 1.5%float, s, [EvTime]).
Proof.
  intros s.
  assert (Ht : start_time s = Some 100%float) by reflexivity.
  assert (Hn : frame_count s <> 0) by discriminate.
  assert (Hp : PrimFloat.ltb 0%float (PrimFloat.sub 102%float 100%float) = true)
    by reflexivity.
  assert (Hf : PrimFloat.is_infinity (float_of_int (frame_count s)) = false)
    by reflexivity.
  repeat (split; [assumption|]).
  destruct (get_fps_value 102%float) as (_ & _ & H & _).
  exact (proj1 (H s 100%float Ht Hn) Hp Hf).
Defined.

(** C6 as stated fails: five frames were read since an [open] at clock
    100.0, and the wall clock, set back meanwhile, reads 99.0; [get_fps]
    returns 0.0, while [frame_count] divided by the time since [open] is
    -5.0. *)
Lemma get_fps_clock_set_back :
  let s := state_of (read_many (map pull_ok (repeat (Some frame0) 5))
                       (state_of (open env_good camera0))) in
  start_time s = Some 100%float /\
  frame_count s = 5 /\
  outcome_of (get_fps 99%float s) = Ret 0%float /\
  int_truediv_float (frame_count s) (PrimFloat.sub 99%float 100%float) =
    Ret (-5)%float /\
  outcome_of (get_fps 99%float s) <>
    int_truediv_float (frame_count s) (PrimFloat.sub 99%float 100%float).
Proof.
  intros s. repeat (split; [reflexivity|]).
  intros H.
  apply (f_equal (fun o => match o with
                           | Ret x => PrimFloat.ltb x 0%float
                           | Raise _ => false
                           end)) in H.
  vm_compute in H. discriminate H.
Qed.

(** ** The scenario of the spec

    A V4L2 session on a backend that opens and always yields a frame: [open]
    returns [True], three reads return [(True, frame)] and [frame_count] is
    three, [close] returns, and a read after it returns [(False, None)]. *)
Example scenario_direct :
  let r1 := open env_good camera0 in
  let r2 := read_many (map pull_ok [Some frame0; Some frame0; Some frame0])
              (state_of r1) in
  let r3 := close (state_of r2) in
  let r4 := read (pull_ok (Some frame0)) (state_of r3) in
  outcome_of r1 = Ret true /\
  outcome_of r2 =
    Ret [(true, Some frame0); (true, Some frame0); (true, Some frame0)] /\
  frame_count (state_of r2) = 3 /\
  outcome_of r3 = Ret tt /\
  outcome_of r4 = Ret (false, None).
Proof.
  repeat split.
Qed.

(** The same session on a backend whose construction fails outright:
    [open] returns [False], [frame_count] stays zero and [get_fps] is 0.0. *)
Example scenario_open_fails :
  let r1 := open (env_raising (mkExn CvError "can't open camera")) camera0 in
  outcome_of r1 = Ret false /\
  frame_count (state_of r1) = 0 /\
  outcome_of (get_fps 101%float (state_of r1)) = Ret 0%float.
Proof.
  repeat split.
Qed.

(** * Further properties of the session *)

(** X1: [open] returns [True] exactly when the handle is created, reports
    itself opened and the trial pull yields a frame object with a true flag;
    it then holds that handle, has stamped [start_time] with the clock and
    has called no [release()]. *)
Theorem open_true_iff (env : OpenEnv) (s : IMX219Camera) :
  (outcome_of (open env s) = Ret true <->
   exists c frame,
     handle_opens env s c /\ env_read env = pull_ok (Some frame)) /\
  (outcome_of (open env s) = Ret true ->
   exists c,
     env_VideoCapture env = Ret c /\
     cap (state_of (open env s)) = Some c /\
     start_time (state_of (open env s)) = Some (env_time env) /\
     releases (trace_of (open env s)) = 0%nat).
Proof.
  split; [split|].
  - intros H. destruct (open_true_inv env s H) as (c & frame & Ho & Hr & _).
    exists c, frame; split; assumption.
  - intros (c & frame & Ho & Hr). rewrite (open_ok env s c frame Ho Hr). reflexivity.
  - intros H. destruct (open_true_inv env s H) as (c & frame & Ho & Hr & _).
    exists c. rewrite (open_ok env s c frame Ho Hr).
    unfold state_of, trace_of; cbn [fst snd].
    split; [exact (proj1 Ho)|]. split; [reflexivity|]. split; [reflexivity|].
    rewrite releases_app, releases_setup_trace; reflexivity.
Qed.

Lemma read_config (pull : outcome (bool * option Frame)) (s : IMX219Camera) :
  config (state_of (read pull s)) = config s.
Proof.
  destruct s as [d w h f g c n t]; destruct c as [c|]; [|reflexivity].
  destruct pull as [[[|] fr]|e]; reflexivity.
Qed.

Lemma get_fps_state (now : float) (s : IMX219Camera) :
  state_of (get_fps now s) = s.
Proof.
  destruct s as [d w h f g c n t]; unfold state_of; run.
  destruct t as [t0|]; [|reflexivity].
  destruct (n =? 0); [reflexivity|]. simpl.
  destruct (PrimFloat.ltb 0 (PrimFloat.sub now t0)); [|reflexivity].
  unfold int_truediv_float.
  destruct (PrimFloat.is_infinity (float_of_int n)); [reflexivity|].
  destruct (PrimFloat.eqb (PrimFloat.sub now t0) 0); reflexivity.
Qed.

(** X2: no method changes what the constructor was given: device, width,
    height, framerate and backend choice are the same after [open], [read],
    [get_fps], [close], [__enter__] and [__exit__], whatever the backend
    answers and whether the call returns or raises. *)
Theorem methods_keep_config (s : IMX219Camera) :
  (forall env, config (state_of (open env s)) = config s) /\
  (forall pull, config (state_of (read pull s)) = config s) /\
  (forall now, config (state_of (get_fps now s)) = config s) /\
  config (state_of (close s)) = config s /\
  (forall env, config (state_of (__enter__ env s)) = config s) /\
  (forall exc, config (state_of (__exit__ exc s)) = config s).
Proof.
  assert (Hopen : forall env, config (state_of (open env s)) = config s).
  { intros env. destruct (open_geometry env s) as (H1 & H2 & H3 & H4 & H5).
    unfold config. rewrite H1, H2, H3, H4, H5. reflexivity. }
  split; [exact Hopen|]. split; [intros; apply read_config|].
  split; [intros; rewrite get_fps_state; reflexivity|].
  split; [rewrite close_run; reflexivity|].
  split.
  - intros env. rewrite <- (Hopen env).
    unfold __enter__, bind at 1, state_of.
    destruct (open env s) as [[[b|e] s1] t1]; reflexivity.
  - intros exc. unfold __exit__. rewrite close_run; reflexivity.
Qed.

(** ** Runs of [read], whatever the backend answers *)

Lemma read_run (pull : outcome (bool * option Frame)) (s : IMX219Camera) :
  read pull s =
  match cap s with
  | None => (Ret (false, None), s, [])
  | Some c =>
      match pull with
      | Ret (ok, frame) =>
          (Ret (ok, frame),
           if ok then set_frame_count (frame_count s + 1) s else s,
           [EvRead c])
      | Raise e => (Raise e, s, [EvRead c])
      end
  end.
Proof.
  destruct (cap s) as [c|] eqn:Hc.
  - destruct pull as [[[|] fr]|e].
    + apply read_ok; exact Hc.
    + apply read_not_ok; exact Hc.
    + apply read_raises; exact Hc.
  - apply read_closed; exact Hc.
Qed.

Lemma read_many_cons (p : outcome (bool * option Frame))
    (ps : list (outcome (bool * option Frame))) (s : IMX219Camera) :
  read_many (p :: ps) s =
  match read p s with
  | (Ret r, s1, t1) =>
      match read_many ps s1 with
      | (Ret rs, s2, t2) => (Ret (r :: rs), s2, (t1 ++ t2)%list)
      | (Raise e, s2, t2) => (Raise e, s2, (t1 ++ t2)%list)
      end
  | (Raise e, s1, t1) => (Raise e, s1, t1)
  end.
Proof.
  cbn [read_many]. unfold bind at 1.
  destruct (read p s) as [[[r|e] s1] t1]; [|reflexivity].
  unfold bind at 1.
  destruct (read_many ps s1) as [[[rs|e] s2] t2]; [|reflexivity].
  unfold ret. rewrite app_nil_r. reflexivity.
Qed.

Lemma pulls_app (t1 t2 : list event) :
  pulls (t1 ++ t2) = (pulls t1 + pulls t2)%nat.
Proof.
  unfold pulls; rewrite filter_app, length_app; reflexivity.
Qed.

(** One [read]: the handle and [start_time] stay, [frame_count] grows by one
    when the result's flag is true and stays otherwise. *)
Lemma read_step (pull : outcome (bool * option Frame)) (s : IMX219Camera) :
  let r := read pull s in
  cap (state_of r) = cap s /\
  start_time (state_of r) = start_time s /\
  frame_count s <= frame_count (state_of r) /\
  pulls (trace_of r) = match cap s with Some _ => 1%nat | None => 0%nat end /\
  (forall x, outcome_of r = Ret x ->
     frame_count (state_of r) = frame_count s + (if fst x then 1 else 0)).
Proof.
  cbv zeta. rewrite read_run.
  destruct s as [d w h f g c n t]; destruct c as [c|];
    [destruct pull as [[[|] fr]|e]|];
    unfold state_of, trace_of, outcome_of; cbn;
    repeat split; try lia; intros x Hx; inversion Hx; subst; cbn; lia.
Qed.

(** X3: over a run of [read] calls with arbitrary backend answers,
    [frame_count] never decreases and the handle and [start_time] stay; when
    no call raised, there is one result per call, [frame_count] has grown by
    exactly the number of results whose flag is true, and the backend was
    asked once per call on a session with a handle and never on one
    without. *)
Theorem read_many_counts (ps : list (outcome (bool * option Frame))) :
  forall s : IMX219Camera,
    let r := read_many ps s in
    frame_count s <= frame_count (state_of r) /\
    cap (state_of r) = cap s /\
    start_time (state_of r) = start_time s /\
    (forall rs, outcome_of r = Ret rs ->
       length rs = length ps /\
       frame_count (state_of r) = frame_count s + Z.of_nat (successes rs) /\
       pulls (trace_of r) = match cap s with Some _ => length ps | None => 0%nat end).
Proof.
  induction ps as [|p ps IH]; intros s.
  - cbn. split; [lia|]. split; [reflexivity|]. split; [reflexivity|].
    intros rs H; inversion H; subst rs. cbn.
    split; [reflexivity|]. split; [lia|]. destruct (cap s); reflexivity.
  - cbv zeta. rewrite read_many_cons.
    destruct (read_step p s) as (Hc & Ht & Hle & Hp & Hx).
    destruct (read p s) as [[[x|e] s1] t1];
      unfold state_of, trace_of, outcome_of in *; cbn [fst snd] in *.
    + specialize (IH s1). cbv zeta in IH.
      destruct IH as (IHle & IHc & IHt & IHrs).
      destruct (read_many ps s1) as [[[rs|e] s2] t2];
        unfold state_of, trace_of, outcome_of in *; cbn [fst snd] in *.
      * split; [lia|]. split; [congruence|]. split; [congruence|].
        intros rs' H; inversion H; subst rs'.
        destruct (IHrs rs eq_refl) as (Hl & Hf & Hq).
        specialize (Hx x eq_refl).
        split; [cbn; lia|]. split.
        -- unfold successes in *. cbn [filter].
           destruct (fst x); cbn [length]; lia.
        -- rewrite pulls_app, Hp, Hq, Hc.
           destruct (cap s); reflexivity.
      * split; [lia|]. split; [congruence|]. split; [congruence|].
        intros rs' H; discriminate H.
    + split; [lia|]. split; [exact Hc|]. split; [exact Ht|].
      intros rs H; discriminate H.
Qed.

(** X4: [get_fps] leaves the object as it is, and the only exception it can
    raise is the [OverflowError] of converting a [frame_count] too large for
    a float: the test [elapsed > 0] keeps the division from a zero divisor. *)
Theorem get_fps_raises_only_overflow (now : float) (s : IMX219Camera) :
  state_of (get_fps now s) = s /\
  (forall e,
     outcome_of (get_fps now s) = Raise e ->
     exn_cls e = OverflowError /\
     PrimFloat.is_infinity (float_of_int (frame_count s)) = true) /\
  (PrimFloat.is_infinity (float_of_int (frame_count s)) = false ->
   exists v, outcome_of (get_fps now s) = Ret v).
Proof.
  split; [apply get_fps_state|].
  destruct s as [d w h f g c n t]; unfold outcome_of; run.
  destruct t as [t0|]; [|split; [discriminate|eexists; reflexivity]].
  destruct (n =? 0); [split; [discriminate|eexists; reflexivity]|]. simpl.
  destruct (PrimFloat.ltb 0 (PrimFloat.sub now t0)) eqn:Hp;
    [|split; [discriminate|eexists; reflexivity]].
  unfold int_truediv_float.
  rewrite (float_pos_not_zero _ Hp).
  destruct (PrimFloat.is_infinity (float_of_int n)); simpl.
  - split; [|discriminate]. intros e H; inversion H; split; reflexivity.
  - split; [discriminate|]. intros _; eexists; reflexivity.
Qed.

(** X5: [close] keeps the statistics: [frame_count] and [start_time] are as
    before it, so [get_fps] after [close] answers as it would have before. *)
Theorem get_fps_after_close (now : float) (s : IMX219Camera) :
  frame_count (state_of (close s)) = frame_count s /\
  start_time (state_of (close s)) = start_time s /\
  outcome_of (get_fps now (state_of (close s))) = outcome_of (get_fps now s) /\
  trace_of (get_fps now (state_of (close s))) = trace_of (get_fps now s).
Proof.
  rewrite close_run. destruct s as [d w h f g c n t].
  split; [reflexivity|]. split; [reflexivity|].
  unfold outcome_of, trace_of, state_of; run.
  destruct t as [t0|]; [|split; reflexivity].
  destruct (n =? 0); [split; reflexivity|]. simpl.
  destruct (PrimFloat.ltb 0 (PrimFloat.sub now t0)); [|split; reflexivity].
  destruct (int_truediv_float n (PrimFloat.sub now t0)); split; reflexivity.
Qed.

(** ** The backend calls of [open] *)

Lemma open_release_is_new (env : OpenEnv) (s : IMX219Camera) (c : Cap) :
  In (EvRelease c) (trace_of (open env s)) -> env_VideoCapture env = Ret c.
Proof.
  destruct s as [d w h f g c0 n t], env as [oc ow oh ofp oo ord tm].
  run_open; open_cases; cbn; intros H;
    repeat (destruct H as [H|H]; [try discriminate H|]);
    try contradiction; congruence.
Qed.

(** X6: every [open] constructs exactly one [cv2.VideoCapture], pulls at most
    one frame and calls [release()] at most once, whatever the backend
    answers (no retry, no second backend); it calls [release()] exactly when
    the handle opened and the trial pull came back with a false flag, and
    then on the handle it has just created. *)
Theorem open_backend_calls (env : OpenEnv) (s : IMX219Camera) :
  let t := trace_of (open env s) in
  constructions t = 1%nat /\
  (pulls t <= 1)%nat /\
  (releases t <= 1)%nat /\
  (releases t = 1%nat <->
   exists c frame, handle_opens env s c /\ env_read env = Ret (false, frame)) /\
  (forall c, In (EvRelease c) t -> env_VideoCapture env = Ret c).
Proof.
  cbv zeta. split; [|split; [|split; [|split]]].
  - destruct s as [d w h f g c n t], env as [oc ow oh ofp oo ord tm].
    run_open; open_cases; reflexivity.
  - destruct s as [d w h f g c n t], env as [oc ow oh ofp oo ord tm].
    run_open; open_cases; cbn; lia.
  - destruct s as [d w h f g c n t], env as [oc ow oh ofp oo ord tm].
    run_open; open_cases; cbn; lia.
  - split.
    + destruct s as [d w h f g c n t], env as [oc ow oh ofp oo ord tm].
      unfold handle_opens, sets_return.
      run_open; open_cases; cbn; intros H; try discriminate H;
        eexists; eexists; repeat split; congruence.
    + intros (c & frame & Ho & Hr). rewrite (open_no_frame env s c frame Ho Hr).
      unfold trace_of; cbn [snd].
      rewrite releases_app, releases_setup_trace; reflexivity.
  - intros c; apply open_release_is_new.
Qed.

(** X7: the handle attribute after [open]: when the construction raised it is
    what it was before; when the construction returned a handle it is that
    handle, unless [open] released it, in which case it is [None].  So a
    handle the session held before is never released by [open]; it is
    dropped unreleased as soon as the construction returns. *)
Theorem open_cap_after (env : OpenEnv) (s : IMX219Camera) :
  cap (state_of (open env s)) =
    match env_VideoCapture env with
    | Raise _ => cap s
    | Ret c =>
        if (releases (trace_of (open env s)) =? 0)%nat then Some c else None
    end /\
  (forall c0 c,
     cap s = Some c0 ->
     env_VideoCapture env = Ret c ->
     c <> c0 ->
     ~ In (EvRelease c0) (trace_of (open env s)) /\
     cap (state_of (open env s)) <> Some c0).
Proof.
  assert (Hcap : cap (state_of (open env s)) =
    match env_VideoCapture env with
    | Raise _ => cap s
    | Ret c =>
        if (releases (trace_of (open env s)) =? 0)%nat then Some c else None
    end).
  { destruct s as [d w h f g c n t], env as [oc ow oh ofp oo ord tm].
    run_open; open_cases; reflexivity. }
  split; [exact Hcap|].
  intros c0 c Hc0 Hc Hne. split.
  - intros Hin. pose proof (open_release_is_new env s c0 Hin). congruence.
  - rewrite Hcap, Hc.
    destruct (releases (trace_of (open env s)) =? 0)%nat; congruence.
Qed.

Lemma open_cap_after_witness :
  let s := state_of (open env_good camera0) in
  let env := mkOpenEnv (Ret 8%nat) (Ret true) (Ret true) (Ret true) (Ret true)
               pull_failed 100%float in
  cap s = Some 7%nat /\
  env_VideoCapture env = Ret 8%nat /\
  8%nat <> 7%nat /\
  ~ In (EvRelease 7%nat) (trace_of (open env s)) /\
  cap (state_of (open env s)) <> Some 7%nat.
Proof.
  intros s env.
  assert (Hne : 8%nat <> 7%nat) by discriminate.
  split; [reflexivity|]. split; [reflexivity|]. split; [exact Hne|].
  exact (proj2 (open_cap_after env s) 7%nat 8%nat eq_refl eq_refl Hne).
Defined.

(** * [camera_stream.main] *)

Lemma get_fps_result (now : float) (s : IMX219Camera) :
  exists r t, get_fps now s = (r, s, t) /\ (t = [] \/ t = [EvTime]).
Proof.
  pose proof (get_fps_state now s) as Hs.
  destruct (get_fps now s) as [[r s1] t] eqn:E.
  unfold state_of in Hs; cbn in Hs; subst s1.
  exists r, t. split; [reflexivity|].
  revert E. destruct s as [d w h f g c n st]; run.
  destruct st as [t0|]; [|intros E; inversion E; auto].
  destruct (n =? 0); [intros E; inversion E; auto|]. simpl.
  destruct (PrimFloat.ltb 0 (PrimFloat.sub now t0));
    [|intros E; inversion E; auto].
  destruct (int_truediv_float n (PrimFloat.sub now t0));
    intros E; inversion E; auto.
Qed.

Ltac script_simpl :=
  cbn [camera set_camera snapshot_count set_snapshot_count
       fst snd map app negb].

Ltac script_cases :=
  repeat (script_simpl;
    match goal with
    | |- context [match ?x with _ => _ end] => is_var x; destruct x
    | |- context [negb ?x] => is_var x; destruct x
    | |- context [if ?b then _ else _] =>
        lazymatch b with
        | true => fail
        | false => fail
        | _ => destruct b eqn:?
        end
    end).

Ltac unfold_script :=
  unfold main_camera, on_camera, main_print, pcall, pbind, pret, pget, pmodify.

(** What one turn of the loop does to the state and which calls it makes. *)
Lemma main_iteration_step (args : Args) (start : float) (it : IterEnv)
    (st : MainState) :
  let r := main_iteration args start it st in
  let st1 := snd (fst r) in
  cap (camera st1) = cap (camera st) /\
  start_time (camera st1) = start_time (camera st) /\
  main_releases (snd r) = 0%nat /\
  main_pulls (snd r) = match cap (camera st) with Some _ => 1%nat | None => 0%nat end /\
  frame_count (camera st1) =
    frame_count (camera st) +
    (if match cap (camera st) with Some _ => turn_delivers it | None => false end
     then 1 else 0) /\
  ((snapshot_count st1 = snapshot_count st /\ written_files (snd r) = []) \/
   (snapshot_count st1 = snapshot_count st + 1 /\
    written_files (snd r) = [snapshot_filename (snapshot_count st + 1)])).
Proof.
  destruct st as [cam sc], it as [rd ft pt im wk iw tm].
  cbv zeta. unfold main_iteration, turn_delivers. unfold_script.
  cbn [camera snapshot_count it_read it_fps_time it_putText it_imshow
       it_waitKey it_imwrite it_time set_camera set_snapshot_count].
  rewrite read_run.
  destruct (cap cam) as [c|] eqn:Hc.
  2:{ cbn. rewrite Hc. repeat split; try lia. left; split; reflexivity. }
  destruct rd as [[[|] fr]|e]; script_simpl.
  2:{ cbn. rewrite Hc. repeat split; try lia. left; split; reflexivity. }
  2:{ cbn. rewrite Hc. repeat split; try lia. left; split; reflexivity. }
  destruct (get_fps_result ft (set_frame_count (frame_count cam + 1) cam))
    as (r & t & -> & Ht).
  assert (Hc' : cap (set_frame_count (frame_count cam + 1) cam) = Some c)
    by exact Hc.
  destruct Ht as [-> | ->]; destruct r; script_cases; cbn;
    rewrite ?Hc'; repeat split; auto.
Qed.

Lemma main_releases_app (t1 t2 : list main_event) :
  main_releases (t1 ++ t2) = (main_releases t1 + main_releases t2)%nat.
Proof.
  unfold main_releases; rewrite filter_app, length_app; reflexivity.
Qed.

Lemma main_pulls_app (t1 t2 : list main_event) :
  main_pulls (t1 ++ t2) = (main_pulls t1 + main_pulls t2)%nat.
Proof.
  unfold main_pulls; rewrite filter_app, length_app; reflexivity.
Qed.

Lemma written_files_app (t1 t2 : list main_event) :
  written_files (t1 ++ t2) = (written_files t1 ++ written_files t2)%list.
Proof.
  induction t1 as [|e t1 IH]; [reflexivity|].
  destruct e; cbn; rewrite IH; reflexivity.
Qed.

Lemma main_releases_camera (t : list event) :
  main_releases (map MainCamera t) = releases t.
Proof.
  unfold main_releases, releases.
  induction t as [|e t IH]; [reflexivity|].
  destruct e; cbn; rewrite ?IH; reflexivity.
Qed.

Lemma main_pulls_camera (t : list event) :
  main_pulls (map MainCamera t) = pulls t.
Proof.
  unfold main_pulls, pulls.
  induction t as [|e t IH]; [reflexivity|].
  destruct e; cbn; rewrite ?IH; reflexivity.
Qed.

Lemma written_files_camera (t : list event) :
  written_files (map MainCamera t) = [].
Proof.
  induction t as [|e t IH]; [reflexivity|exact IH].
Qed.

(** The loop keeps the handle and [start_time] and calls no [release()]. *)
Lemma main_loop_camera (args : Args) (start : float) (its : list IterEnv) :
  forall st,
    let r := main_loop args start its st in
    cap (camera (snd (fst r))) = cap (camera st) /\
    start_time (camera (snd (fst r))) = start_time (camera st) /\
    main_releases (snd r) = 0%nat.
Proof.
  induction its as [|it its IH]; intros st; [cbn; auto|].
  cbv zeta. cbn [main_loop].
  destruct (main_iteration_step args start it st) as (Hc & Ht & Hr & _).
  destruct (main_iteration args start it st) as [[[[|]|e] st1] t1];
    cbn [fst snd] in *; auto.
  specialize (IH st1). cbv zeta in IH. destruct IH as (IHc & IHt & IHr).
  destruct (main_loop args start its st1) as [[r st2] t2]; cbn [fst snd] in *.
  rewrite main_releases_app. repeat split; try congruence. lia.
Qed.

(** The turns the loop has started are the first ones of the answers, one
    pull each; [frame_count] has grown by the number of those whose pull came
    back with a true flag; a loop that is still running has used all the
    answers. *)
Lemma main_loop_frames (args : Args) (start : float) (its : list IterEnv) :
  forall st c,
    cap (camera st) = Some c ->
    let r := main_loop args start its st in
    (main_pulls (snd r) <= length its)%nat /\
    (fst (fst r) = Running -> main_pulls (snd r) = length its) /\
    frame_count (camera (snd (fst r))) =
      frame_count (camera st) +
      Z.of_nat (length (filter turn_delivers (firstn (main_pulls (snd r)) its))).
Proof.
  induction its as [|it its IH]; intros st c Hcap.
  - cbn. repeat split; lia.
  - cbv zeta. cbn [main_loop].
    destruct (main_iteration_step args start it st) as (Hc & _ & _ & Hp & Hf & _).
    rewrite Hcap in Hp, Hf.
    destruct (main_iteration args start it st) as [[[[|]|e] st1] t1];
      cbn [fst snd] in *.
    + assert (Hcap1 : cap (camera st1) = Some c) by congruence.
      specialize (IH st1 c Hcap1). cbv zeta in IH.
      destruct IH as (IHle & IHrun & IHf).
      destruct (main_loop args start its st1) as [[r st2] t2];
        cbn [fst snd] in *.
      rewrite main_pulls_app, Hp. cbn [Nat.add firstn filter length].
      split; [lia|]. split; [intros H; rewrite (IHrun H); reflexivity|].
      rewrite IHf, Hf.
      destruct (turn_delivers it); cbn [length]; lia.
    + rewrite Hp. cbn [firstn filter length].
      split; [lia|]. split; [discriminate|].
      rewrite Hf. destruct (turn_delivers it); cbn [firstn filter length]; lia.
    + rewrite Hp. cbn [firstn filter length].
      split; [lia|]. split; [discriminate|].
      rewrite Hf. destruct (turn_delivers it); cbn [firstn filter length]; lia.
Qed.

(** The snapshots of the loop are numbered on from [snapshot_count]. *)
Lemma main_loop_snapshots (args : Args) (start : float) (its : list IterEnv) :
  forall st,
    let r := main_loop args start its st in
    exists k : nat,
      snapshot_count (snd (fst r)) = snapshot_count st + Z.of_nat k /\
      written_files (snd r) =
        map (fun i => snapshot_filename (snapshot_count st + Z.of_nat i)) (seq 1 k).
Proof.
  induction its as [|it its IH]; intros st.
  - exists 0%nat; cbn; split; [lia|reflexivity].
  - cbv zeta. cbn [main_loop].
    destruct (main_iteration_step args start it st) as (_ & _ & _ & _ & _ & Hs).
    destruct (main_iteration args start it st) as [[[[|]|e] st1] t1];
      cbn [fst snd] in *.
    + specialize (IH st1). cbv zeta in IH. destruct IH as (k & IHs & IHw).
      destruct (main_loop args start its st1) as [[r st2] t2];
        cbn [fst snd] in *.
      rewrite written_files_app, IHw.
      destruct Hs as [[Hs Hw]|[Hs Hw]]; rewrite Hw, Hs in *.
      * exists k; split; [lia|reflexivity].
      * exists (S k); split; [lia|].
        cbn [seq map app]. f_equal.
        rewrite <- (seq_shift k 1), map_map.
        apply map_ext; intros i. f_equal. lia.
    + destruct Hs as [[Hs Hw]|[Hs Hw]]; rewrite Hw, Hs.
      * exists 0%nat; split; [lia|reflexivity].
      * exists 1%nat; split; [lia|reflexivity].
    + destruct Hs as [[Hs Hw]|[Hs Hw]]; rewrite Hw, Hs.
      * exists 0%nat; split; [lia|reflexivity].
      * exists 1%nat; split; [lia|reflexivity].
Qed.

Lemma main_loop_app (args : Args) (start : float) (pre rest : list IterEnv) :
  forall st st1 t1,
    main_loop args start pre st = (Running, st1, t1) ->
    main_loop args start (pre ++ rest) st =
    (let '(r, st2, t2) := main_loop args start rest st1 in
     (r, st2, (t1 ++ t2)%list)).
Proof.
  induction pre as [|it pre IH]; intros st st1 t1 H.
  - cbn in H. inversion H; subst. cbn.
    destruct (main_loop args start rest st1) as [[r st2] t2]; reflexivity.
  - cbn [main_loop app] in *.
    destruct (main_iteration args start it st) as [[[[|]|e] st'] t'];
      try discriminate H.
    destruct (main_loop args start pre st') as [[r0 st0] t0] eqn:E.
    inversion H; subst.
    rewrite (IH st' st1 t0 E).
    destruct (main_loop args start rest st1) as [[r st2] t2].
    rewrite app_assoc. reflexivity.
Qed.

Lemma main_setup_run (env : MainEnv) (st : MainState) :
  main_setup env st =
  (let '(o, cam, t) := open (main_open env) (camera st) in
   match o with
   | Ret true =>
       (Ret true, set_camera cam st,
        (main_header ++ map MainCamera t ++
         [MainPrint MsgStarting; MainPrint MsgKeys; MainTime])%list)
   | Ret false =>
       (Ret false, set_camera cam st,
        (main_header ++ map MainCamera t ++ [MainPrint MsgExiting])%list)
   | Raise e => (Raise e, set_camera cam st, (main_header ++ map MainCamera t)%list)
   end).
Proof.
  unfold main_setup, main_header. unfold_script. script_simpl.
  destruct (open (main_open env) (camera st)) as [[[[|]|e] cam] t];
    script_simpl; rewrite ?app_nil_r; reflexivity.
Qed.

(** [get_fps] returns when [frame_count] converts to a finite float. *)
Lemma get_fps_raises_only_overflow_aux (now : float) (s : IMX219Camera) :
  forall e,
    PrimFloat.is_infinity (float_of_int (frame_count s)) = false ->
    outcome_of (get_fps now s) = Raise e -> False.
Proof.
  intros e Hfin.
  destruct s as [d w h f g c n t]; unfold outcome_of; run.
  destruct t as [t0|]; [|discriminate].
  destruct (n =? 0); [discriminate|]. simpl.
  destruct (PrimFloat.ltb 0 (PrimFloat.sub now t0)) eqn:Hp; [|discriminate].
  unfold int_truediv_float. simpl in Hfin.
  rewrite Hfin, (float_pos_not_zero _ Hp). discriminate.
Qed.

Lemma main_finally_run (destroy : outcome unit) (now : float) (st : MainState) :
  exists f t,
    main_finally destroy now st =
      (f, set_camera (set_cap None (camera st)) st, t) /\
    main_releases t =
      match cap (camera st) with Some _ => 1%nat | None => 0%nat end /\
    written_files t = [] /\
    main_pulls t = 0%nat /\
    (destroy = Ret tt ->
     PrimFloat.is_infinity (float_of_int (frame_count (camera st))) = false ->
     f = Ret tt).
Proof.
  unfold main_finally. unfold_script. rewrite close_run. script_simpl.
  destruct (get_fps_result now (set_cap None (camera st))) as (r & t & E & Ht).
  pose proof (get_fps_raises_only_overflow_aux now (set_cap None (camera st)))
    as Hfin.
  destruct destroy as [[]|e]; script_simpl.
  - rewrite E. script_simpl.
    destruct r as [v|e]; script_simpl;
      (eexists; eexists; split; [reflexivity|]);
      rewrite main_releases_app, main_pulls_app, written_files_app,
        main_releases_camera, main_pulls_camera, written_files_camera;
      destruct (cap (camera st)); destruct Ht as [-> | ->]; cbn;
      repeat split; auto; intros _ Hf;
      try (exfalso; apply (Hfin e Hf); unfold outcome_of; rewrite E; reflexivity).
  - eexists; eexists; split; [reflexivity|].
    rewrite main_releases_app, main_pulls_app, written_files_app,
      main_releases_camera, main_pulls_camera, written_files_camera.
    destruct (cap (camera st)); cbn; repeat split; auto; discriminate.
Qed.

Lemma pulls_setup_trace (s : IMX219Camera) (c : Cap) :
  pulls (setup_trace s c) = 0%nat.
Proof.
  unfold setup_trace; destruct (use_gstreamer s); reflexivity.
Qed.

(** After a successful [open]: the handle is held, nothing was released and
    one frame was pulled. *)
Lemma open_true_trace (env : OpenEnv) (s : IMX219Camera) :
  outcome_of (open env s) = Ret true ->
  (exists c, cap (state_of (open env s)) = Some c) /\
  frame_count (state_of (open env s)) = frame_count s /\
  releases (trace_of (open env s)) = 0%nat /\
  pulls (trace_of (open env s)) = 1%nat.
Proof.
  intros H. destruct (open_true_inv env s H) as (c & frame & Ho & Hr & _).
  rewrite (open_ok env s c frame Ho Hr).
  unfold state_of, trace_of; cbn [fst snd].
  split; [exists c; reflexivity|]. split; [reflexivity|].
  rewrite releases_app, releases_setup_trace, pulls_app, pulls_setup_trace.
  split; reflexivity.
Qed.


Lemma main_pulls_print (m : main_message) (t : list main_event) :
  main_pulls (MainPrint m :: t) = main_pulls t.
Proof. reflexivity. Qed.

(** The end of [main] after the loop. *)
Lemma main_end_run (env : MainEnv) (r : outcome unit) (st : MainState) :
  exists res t,
    main_end env r st = (res, set_camera (set_cap None (camera st)) st, t) /\
    main_releases t =
      match cap (camera st) with Some _ => 1%nat | None => 0%nat end /\
    written_files t = [] /\
    main_pulls t = 0%nat /\
    (res = Done 0 \/ exists e, res = Threw e) /\
    (main_destroy env = Ret tt ->
     PrimFloat.is_infinity (float_of_int (frame_count (camera st))) = false ->
     res = match r with
           | Ret _ => Done 0
           | Raise e =>
               match exn_cls e with
               | KeyboardInterrupt => Done 0
               | _ => Threw e
               end
           end).
Proof.
  unfold main_end.
  destruct (main_finally_run (main_destroy env) (main_final_time env) st)
    as (f & t & -> & Hrel & Hw & Hp & Hok).
  eexists; eexists; split; [reflexivity|].
  rewrite main_releases_app, written_files_app, main_pulls_app, Hrel, Hw, Hp.
  assert (Hh : forall b : bool,
             main_releases (if b then [MainPrint MsgInterrupted] else []) = 0%nat /\
             written_files (if b then [MainPrint MsgInterrupted] else []) = [] /\
             main_pulls (if b then [MainPrint MsgInterrupted] else []) = 0%nat)
    by (intros [|]; repeat split).
  match goal with
  | |- context [if ?b then [MainPrint MsgInterrupted] else []] =>
      destruct (Hh b) as (-> & -> & ->)
  end.
  split; [reflexivity|]. split; [reflexivity|]. split; [reflexivity|].
  split.
  - destruct f as [uf|ef]; [|right; exists ef; reflexivity].
    destruct r as [u|e]; [left; reflexivity|].
    destruct (exn_cls e); (left; reflexivity) || (right; exists e; reflexivity).
  - intros Hd Hf. rewrite (Hok Hd Hf).
    destruct r as [u|e]; [reflexivity|]. destruct (exn_cls e); reflexivity.
Qed.

(** X8: [main] returns 1 exactly when [camera.open()] returns [False]; it
    then prints once more and stops: no [close()], so a handle that [open]
    left in the object is not released, and no [destroyAllWindows()]. *)
Theorem main_open_failure (args : Args) (env : MainEnv) :
  let r := open (main_open env) (main_camera0 args) in
  (outcome_of r = Ret false ->
   main args env =
   (Done 1, mkMainState (state_of r) 0,
    (main_header ++ map MainCamera (trace_of r) ++ [MainPrint MsgExiting])%list)) /\
  (forall st t, main args env = (Done 1, st, t) -> outcome_of r = Ret false).
Proof.
  cbv zeta. unfold main. fold (main_camera0 args). rewrite main_setup_run.
  cbn [camera].
  destruct (open (main_open env) (main_camera0 args)) as [[[[|]|e] cam] topen];
    unfold outcome_of, state_of, trace_of; cbn [fst snd].
  - split; [discriminate|]. intros st t.
    destruct (main_loop args (main_start_time env) (main_iterations env)
                (set_camera cam {| camera := main_camera0 args; snapshot_count := 0 |}))
      as [[[u|e|] st2] t2].
    + destruct (main_end_run env (Ret tt) st2) as (res & t3 & -> & _ & _ & _ & Hres & _).
      intros H; inversion H; subst.
      destruct Hres as [Hres|[e Hres]]; discriminate Hres.
    + destruct (main_end_run env (Raise e) st2) as (res & t3 & -> & _ & _ & _ & Hres & _).
      intros H; inversion H; subst.
      destruct Hres as [Hres|[e' Hres]]; discriminate Hres.
    + discriminate.
  - split; [reflexivity|]. intros; reflexivity.
  - split; discriminate.
Qed.

Lemma main_open_failure_witness :
  let env := mkMainEnv env_not_opened 100%float [] (Ret tt) 101%float in
  let args := mkArgs "/dev/video0" 640 480 30 true true 0 in
  outcome_of (open (main_open env) (main_camera0 args)) = Ret false /\
  fst (fst (main args env)) = Done 1 /\
  cap (camera (snd (fst (main args env)))) = Some 7%nat /\
  main_releases (snd (main args env)) = 0%nat.
Proof.
  intros env args. split; [reflexivity|].
  rewrite (proj1 (main_open_failure args env) eq_refl).
  repeat split.
Defined.



(** X10: in every run of [main], finished or not, the k-th call of
    [cv2.imwrite] is given [snapshot_00k.jpg] (the number padded to three
    digits), and [snapshot_count] is the number of those calls, whatever
    [imwrite] returned. *)
Theorem main_snapshot_files (args : Args) (env : MainEnv) :
  let res := main args env in
  let n := snapshot_count (snd (fst res)) in
  n = Z.of_nat (length (written_files (snd res))) /\
  written_files (snd res) =
    map (fun i => snapshot_filename (Z.of_nat i))
        (seq 1 (length (written_files (snd res)))).
Proof.
  cbv zeta. unfold main. fold (main_camera0 args). rewrite main_setup_run.
  cbn [camera].
  destruct (open (main_open env) (main_camera0 args)) as [[[[|]|e] cam] topen];
    cbn [fst snd].
  2,3: rewrite ?written_files_app, written_files_camera; split; reflexivity.
  set (st1 := set_camera cam {| camera := main_camera0 args; snapshot_count := 0 |}).
  destruct (main_loop_snapshots args (main_start_time env) (main_iterations env) st1)
    as (k & Hk & Hw).
  change (snapshot_count st1) with 0 in Hk, Hw.
  assert (Hlen : length (written_files
                   (snd (main_loop args (main_start_time env)
                           (main_iterations env) st1))) = k)
    by (rewrite Hw, length_map, length_seq; reflexivity).
  assert (Hend : forall ro st2,
     written_files (snd (main_end env ro st2)) = [] /\
     snapshot_count (snd (fst (main_end env ro st2))) = snapshot_count st2).
  { intros ro st2.
    destruct (main_end_run env ro st2) as (res & t3 & -> & _ & H3 & _).
    split; [exact H3|reflexivity]. }
  destruct (main_loop args (main_start_time env) (main_iterations env) st1)
    as [[rl st2] t2]; cbn [fst snd] in *.
  assert (Hpre : forall x,
            written_files
              ((main_header ++ map MainCamera topen ++
                [MainPrint MsgStarting; MainPrint MsgKeys; MainTime]) ++ x) =
            written_files x).
  { intros x. unfold main_header.
    rewrite !written_files_app, written_files_camera. reflexivity. }
  destruct rl as [u|e|].
  - destruct (Hend (Ret tt) st2) as (H3 & Hs).
    destruct (main_end env (Ret tt) st2) as [[r3 st3] t3]; cbn [fst snd] in *.
    rewrite Hpre, written_files_app, H3, app_nil_r, Hs.
    rewrite Hlen, Hk. split; [lia|exact Hw].
  - destruct (Hend (Raise e) st2) as (H3 & Hs).
    destruct (main_end env (Raise e) st2) as [[r3 st3] t3]; cbn [fst snd] in *.
    rewrite Hpre, written_files_app, H3, app_nil_r, Hs.
    rewrite Hlen, Hk. split; [lia|exact Hw].
  - cbn [fst snd]. rewrite Hpre.
    rewrite Hlen, Hk. split; [lia|exact Hw].
Qed.

Lemma set_camera_same (st : MainState) : set_camera (camera st) st = st.
Proof. destruct st; reflexivity. Qed.

Lemma main_iteration_no_frame (args : Args) (start : float) (it : IterEnv)
    (st : MainState) (c : Cap) (frame : option Frame) :
  cap (camera st) = Some c ->
  it_read it = Ret (false, frame) ->
  main_iteration args start it st =
  (Ret false, st, [MainCamera (EvRead c); MainPrint MsgFailedRead]).
Proof.
  intros Hc Hr. unfold main_iteration. unfold_script.
  rewrite read_run, Hc, Hr. script_simpl. rewrite set_camera_same. reflexivity.
Qed.

Lemma main_iteration_raises (args : Args) (start : float) (it : IterEnv)
    (st : MainState) (c : Cap) (e : exn) :
  cap (camera st) = Some c ->
  it_read it = Raise e ->
  main_iteration args start it st = (Raise e, st, [MainCamera (EvRead c)]).
Proof.
  intros Hc Hr. unfold main_iteration. unfold_script.
  rewrite read_run, Hc, Hr. script_simpl. rewrite set_camera_same. reflexivity.
Qed.

(** A run of [main] that is still in its loop has opened the camera. *)
Lemma main_running_inv (args : Args) (env : MainEnv) (st : MainState)
    (t : list main_event) :
  main args env = (Running, st, t) ->
  exists c st1 t1 t2,
    main_setup env (mkMainState (main_camera0 args) 0) = (Ret true, st1, t1) /\
    main_loop args (main_start_time env) (main_iterations env) st1 =
      (Running, st, t2) /\
    t = (t1 ++ t2)%list /\
    cap (camera st) = Some c /\
    outcome_of (open (main_open env) (main_camera0 args)) = Ret true.
Proof.
  unfold main. fold (main_camera0 args).
  destruct (main_setup env (mkMainState (main_camera0 args) 0))
    as [[[[|]|e] st1] t1] eqn:Es; try discriminate.
  assert (Hopen : outcome_of (open (main_open env) (main_camera0 args)) = Ret true
                  /\ camera st1 = state_of (open (main_open env) (main_camera0 args))).
  { rewrite main_setup_run in Es. cbn [camera] in Es.
    destruct (open (main_open env) (main_camera0 args)) as [[[[|]|e] cam] topen];
      inversion Es; split; reflexivity. }
  destruct Hopen as [Hopen Hcam].
  destruct (open_true_trace _ _ Hopen) as ((c & Hc) & _).
  destruct (main_loop_camera args (main_start_time env) (main_iterations env) st1)
    as (Hlc & _).
  destruct (main_loop args (main_start_time env) (main_iterations env) st1)
    as [[[u|e|] st2] t2] eqn:El; cbn [fst snd] in *.
  - destruct (main_end_run env (Ret tt) st2) as (res & t3 & -> & _ & _ & _ & Hres & _).
    intros H; inversion H; subst. destruct Hres as [Hr|[e Hr]]; discriminate Hr.
  - destruct (main_end_run env (Raise e) st2) as (res & t3 & -> & _ & _ & _ & Hres & _).
    intros H; inversion H; subst. destruct Hres as [Hr|[e' Hr]]; discriminate Hr.
  - intros H; inversion H; subst.
    exists c, st1, t1, t2. repeat split; try reflexivity; try assumption.
    rewrite Hlc, Hcam. exact Hc.
Qed.

(** X11: in a run of [main] whose [open] returned [True], the turns of the
    loop that were started are the first answers, one pull each after the
    trial pull, and [frame_count], which the statistics print as the total,
    is the number of those turns whose pull came back with a true flag; a
    run that is still looping has started a turn for every answer. *)
Theorem main_frame_total (args : Args) (env : MainEnv)
    (r : run_end Z) (st : MainState) (t : list main_event) :
  outcome_of (open (main_open env) (main_camera0 args)) = Ret true ->
  main args env = (r, st, t) ->
  let turns := (main_pulls t - 1)%nat in
  (turns <= length (main_iterations env))%nat /\
  (r = Running -> turns = length (main_iterations env)) /\
  frame_count (camera st) =
    Z.of_nat (length (filter turn_delivers (firstn turns (main_iterations env)))).
Proof.
  intros Hopen. destruct (open_true_trace _ _ Hopen) as ((c & Hc) & Hfc & _ & Hpl).
  unfold main. fold (main_camera0 args). rewrite main_setup_run. cbn [camera].
  revert Hopen Hc Hfc Hpl.
  destruct (open (main_open env) (main_camera0 args)) as [[o cam] topen].
  unfold outcome_of, state_of, trace_of; cbn [fst snd].
  intros -> Hc Hfc Hpl.
  set (st1 := set_camera cam {| camera := main_camera0 args; snapshot_count := 0 |}).
  destruct (main_loop_frames args (main_start_time env) (main_iterations env) st1 c Hc)
    as (Hle & Hrun & Hf).
  change (frame_count (camera st1)) with (frame_count cam) in Hf.
  rewrite Hfc in Hf. change (frame_count (main_camera0 args)) with 0 in Hf.
  destruct (main_loop args (main_start_time env) (main_iterations env) st1)
    as [[rl st2] t2]; cbn [fst snd] in *.
  assert (Hpre : forall x,
            main_pulls
              (MainPrint MsgRule :: MainPrint MsgTitle :: MainPrint MsgRule ::
               (map MainCamera topen ++
                [MainPrint MsgStarting; MainPrint MsgKeys; MainTime]) ++ x) =
            S (main_pulls x)).
  { intros x.
    rewrite !main_pulls_print, !main_pulls_app, main_pulls_camera, Hpl.
    reflexivity. }
  assert (Hend : forall ro,
            (let '(r0, st3, t3) := main_end env ro st2 in
             (r0, st3,
              ((main_header ++ map MainCamera topen ++
                [MainPrint MsgStarting; MainPrint MsgKeys; MainTime]) ++ t2 ++ t3)%list))
            = (r, st, t) ->
            (main_pulls t - 1 = main_pulls t2)%nat /\ r <> Running /\
            frame_count (camera st) = frame_count (camera st2)).
  { intros ro.
    destruct (main_end_run env ro st2) as (res & t3 & -> & _ & _ & H3 & Hres & _).
    intros H; injection H as <- <- <-. unfold main_header; cbn [app].
    rewrite Hpre, main_pulls_app, H3. split; [lia|]. split; [|reflexivity].
    destruct Hres as [->|[e ->]]; discriminate. }
  destruct rl as [u|e|].
  - intros H. destruct (Hend (Ret tt) H) as (-> & Hnr & ->).
    cbv zeta. split; [exact Hle|]. split; [intros; contradiction|lia].
  - intros H. destruct (Hend (Raise e) H) as (-> & Hnr & ->).
    cbv zeta. split; [exact Hle|]. split; [intros; contradiction|lia].
  - intros H; injection H as <- <- <-. cbv zeta.
    unfold main_header; cbn [app]. rewrite Hpre.
    replace (S (main_pulls t2) - 1)%nat with (main_pulls t2) by lia.
    split; [exact Hle|]. split; [intros _; apply Hrun; reflexivity|lia].
Qed.

Lemma main_frame_total_witness :
  let env := env_main [turn_frame (-1); turn_no_frame; turn_frame 115] in
  let res := main default_args env in
  outcome_of (open (main_open env) (main_camera0 default_args)) = Ret true /\
  main_pulls (snd res) = 3%nat /\
  frame_count (camera (snd (fst res))) = 1.
Proof.
  intros env res.
  assert (Hopen : outcome_of (open (main_open env) (main_camera0 default_args))
                  = Ret true) by reflexivity.
  destruct (main_frame_total default_args env (fst (fst res)) (snd (fst res))
              (snd res) Hopen eq_refl) as (_ & _ & Hf).
  split; [exact Hopen|]. split; [reflexivity|]. exact Hf.
Defined.

(** X12: when the pull of a turn comes back with a false flag, [main] leaves
    the loop at once, asks for no further frame, closes the camera and
    returns 0; when the pull raises, it closes the camera and returns 0 for
    [KeyboardInterrupt] and lets any other exception out (the statements
    after the loop returning normally). *)
Theorem main_read_ends_loop (args : Args) (env : MainEnv)
    (pre post : list IterEnv) (it : IterEnv)
    (st : MainState) (t : list main_event) :
  main args (with_iterations env pre) = (Running, st, t) ->
  main_destroy env = Ret tt ->
  PrimFloat.is_infinity (float_of_int (frame_count (camera st))) = false ->
  (forall frame,
     it_read it = Ret (false, frame) ->
     exists st' t',
       main args (with_iterations env (pre ++ it :: post)) =
         (Done 0, st', (t ++ t')%list) /\
       frame_count (camera st') = frame_count (camera st) /\
       main_pulls t' = 1%nat /\ main_releases t' = 1%nat) /\
  (forall e,
     it_read it = Raise e ->
     exists st' t',
       main args (with_iterations env (pre ++ it :: post)) =
         (match exn_cls e with
          | KeyboardInterrupt => Done 0
          | _ => Threw e
          end, st', (t ++ t')%list) /\
       frame_count (camera st') = frame_count (camera st) /\
       main_pulls t' = 1%nat /\ main_releases t' = 1%nat).
Proof.
  intros Hrun Hd Hfin.
  destruct (main_running_inv _ _ _ _ Hrun) as (c & st1 & t1 & t2 & Hs & Hl & -> & Hc & _).
  cbn [with_iterations main_start_time main_iterations] in Hl.
  assert (Hs' : main_setup (with_iterations env (pre ++ it :: post))
                  (mkMainState (main_camera0 args) 0) = (Ret true, st1, t1))
    by exact Hs.
  assert (Hmain : forall ro tl,
            main_loop args (main_start_time env) (it :: post) st = (ro, st, tl) ->
            ro <> Running ->
            main args (with_iterations env (pre ++ it :: post)) =
            (let '(r3, st3, t3) :=
               main_end env (match ro with
                             | Threw e => Raise e
                             | _ => Ret tt
                             end) st in
             (r3, st3, ((t1 ++ t2) ++ tl ++ t3)%list))).
  { intros ro tl Hit Hnr. unfold main. fold (main_camera0 args). rewrite Hs'.
    cbn [with_iterations main_start_time main_iterations].
    rewrite (main_loop_app args (main_start_time env) pre (it :: post) st1 st t2 Hl).
    rewrite Hit.
    assert (Heq : forall ro', main_end (with_iterations env (pre ++ it :: post)) ro' st
                              = main_end env ro' st) by reflexivity.
    destruct ro as [u|e|]; [| |contradiction]; rewrite Heq;
      destruct (main_end env _ st) as [[r3 st3] t3];
      rewrite <- !app_assoc; reflexivity. }
  split.
  - intros frame Hr.
    assert (Hit : main_loop args (main_start_time env) (it :: post) st =
                  (Done tt, st, [MainCamera (EvRead c); MainPrint MsgFailedRead])).
    { cbn [main_loop]. rewrite (main_iteration_no_frame _ _ _ _ c frame Hc Hr).
      reflexivity. }
    rewrite (Hmain _ _ Hit) by discriminate.
    destruct (main_end_run env (Ret tt) st)
      as (res & t3 & -> & H3 & _ & Hp3 & _ & Hok).
    rewrite (Hok Hd Hfin), Hc in *.
    eexists; eexists; split; [reflexivity|].
    split; [reflexivity|].
    rewrite main_pulls_app, main_releases_app, H3, Hp3. split; reflexivity.
  - intros e Hr.
    assert (Hit : main_loop args (main_start_time env) (it :: post) st =
                  (Threw e, st, [MainCamera (EvRead c)])).
    { cbn [main_loop]. rewrite (main_iteration_raises _ _ _ _ c e Hc Hr).
      reflexivity. }
    rewrite (Hmain _ _ Hit) by discriminate.
    destruct (main_end_run env (Raise e) st)
      as (res & t3 & -> & H3 & _ & Hp3 & _ & Hok).
    rewrite (Hok Hd Hfin), Hc in *.
    eexists; eexists; split; [reflexivity|].
    split; [reflexivity|].
    rewrite main_pulls_app, main_releases_app, H3, Hp3. split; reflexivity.
Qed.

Lemma main_read_ends_loop_witness :
  let env := env_main [] in
  let pre := [turn_frame (-1); turn_frame 115] in
  let e := mkExn KeyboardInterrupt "" in
  fst (fst (main default_args (with_iterations env pre))) = Running /\
  fst (fst (main default_args
              (with_iterations env (pre ++ turn_no_frame :: [turn_frame (-1)]))))
    = Done 0 /\
  fst (fst (main default_args
              (with_iterations env (pre ++ turn_raising e :: []))))
    = Done 0.
Proof.
  intros env pre e.
  pose (res := main default_args (with_iterations env pre)).
  assert (Hrun : main default_args (with_iterations env pre) =
                 (Running, snd (fst res), snd res)) by reflexivity.
  destruct (main_read_ends_loop default_args env pre [turn_frame (-1)]
              turn_no_frame _ _ Hrun eq_refl eq_refl) as (H1 & _).
  destruct (main_read_ends_loop default_args env pre []
              (turn_raising e) _ _ Hrun eq_refl eq_refl) as (_ & H2).
  destruct (H1 None eq_refl) as (st1 & t1 & E1 & _).
  destruct (H2 e eq_refl) as (st2 & t2 & E2 & _).
  split; [reflexivity|]. split; [rewrite E1|rewrite E2]; reflexivity.
Defined.

(** * [vision_stream.VisionStream] *)

Ltac vs_simpl :=
  cbn [vs_model_name vs_camera_device vs_width vs_height vs_update_interval
       vs_use_gstreamer vs_model vs_camera vs_last_response vs_frame_count
       set_vs_model set_vs_camera set_vs_last_response set_vs_frame_count
       fst snd map app negb].

Ltac vs_cases :=
  repeat (vs_simpl;
    match goal with
    | |- context [match ?x with _ => _ end] => is_var x; destruct x
    | |- context [negb ?x] => is_var x; destruct x
    | |- context [if ?b then _ else _] =>
        lazymatch b with
        | true => fail
        | false => fail
        | _ => destruct b eqn:?
        end
    end).

Ltac unfold_vs :=
  unfold vs_on_camera, vs_print, ptry_except_Exception,
    pcall, pbind, pret, pget, pmodify.

Lemma vs_releases_app (t1 t2 : list vs_event) :
  vs_releases (t1 ++ t2) = (vs_releases t1 + vs_releases t2)%nat.
Proof.
  unfold vs_releases; rewrite filter_app, length_app; reflexivity.
Qed.

Lemma vs_releases_camera (t : list event) :
  vs_releases (map VsCamera t) = releases t.
Proof.
  unfold vs_releases, releases.
  induction t as [|e t IH]; [reflexivity|].
  destruct e; cbn; rewrite ?IH; reflexivity.
Qed.

(** [query_vision] leaves the stream as it is and lets no [Exception] out. *)
Lemma query_vision_run (frame : option Frame) (prompt : string)
    (generated : outcome string) (st : VisionStream) :
  query_vision frame prompt generated st =
  match vs_model st with
  | None => (Ret "Model not loaded", st, [])
  | Some m =>
      (match generated with
       | Ret response => Ret response
       | Raise e =>
           if is_Exception (exn_cls e) then Ret ("Error: " ++ exn_msg e)
           else Raise e
       end, st, [VsGenerate m prompt frame])
  end.
Proof.
  unfold query_vision. unfold_vs.
  destruct (vs_model st) as [m|]; [|reflexivity].
  destruct generated as [response|e]; [reflexivity|].
  vs_simpl. destruct (is_Exception (exn_cls e)); reflexivity.
Qed.

(** X13: [query_vision] never changes the stream and lets no [Exception]
    out: without a model it answers ["Model not loaded"] and calls nothing;
    with one it calls [generate] once and returns the response, or
    ["Error: "] followed by the message when [generate] raises an
    [Exception]; only an exception outside [Exception] leaves it. *)
Theorem query_vision_total (frame : option Frame) (prompt : string)
    (generated : outcome string) (st : VisionStream) :
  let r := query_vision frame prompt generated st in
  snd (fst r) = st /\
  (vs_model st = None -> r = (Ret "Model not loaded", st, [])) /\
  (forall m, vs_model st = Some m -> snd r = [VsGenerate m prompt frame]) /\
  (forall m response,
     vs_model st = Some m -> generated = Ret response ->
     fst (fst r) = Ret response) /\
  (forall m e,
     vs_model st = Some m -> generated = Raise e ->
     is_Exception (exn_cls e) = true ->
     fst (fst r) = Ret ("Error: " ++ exn_msg e)) /\
  (forall e, fst (fst r) = Raise e -> is_Exception (exn_cls e) = false).
Proof.
  cbv zeta. rewrite query_vision_run.
  destruct (vs_model st) as [m|]; cbn [fst snd].
  - split; [reflexivity|]. split; [discriminate|].
    split; [intros m' H; inversion H; reflexivity|].
    split; [intros m' response _ ->; reflexivity|].
    split; [intros m' e _ -> ->; reflexivity|].
    intros e. destruct generated as [response|e']; [discriminate|].
    destruct (is_Exception (exn_cls e')) eqn:E; [discriminate|].
    intros H; inversion H; subst; exact E.
  - split; [reflexivity|]. split; [reflexivity|].
    split; [discriminate|]. split; [discriminate|].
    split; discriminate.
Qed.

(** X14: [load_model] returns [True] exactly when [nano_llm] was importable
    and [from_pretrained] returned; only then is [self.model] set, to the
    loaded model; without [nano_llm] it does not call [from_pretrained]; an
    [Exception] from the loading is printed and gives [False]. *)
Theorem load_model_result (available : bool) (loaded : outcome Model)
    (st : VisionStream) :
  let r := load_model available loaded st in
  (fst (fst r) = Ret true <-> available = true /\ exists m, loaded = Ret m) /\
  (forall m, available = true -> loaded = Ret m ->
     snd (fst r) = set_vs_model (Some m) st) /\
  (fst (fst r) <> Ret true -> snd (fst r) = st) /\
  (available = false ->
   forall name, ~ In (VsFromPretrained name) (snd r)) /\
  (forall e, fst (fst r) = Raise e -> is_Exception (exn_cls e) = false).
Proof.
  cbv zeta. unfold load_model. unfold_vs.
  destruct available; vs_simpl.
  - destruct loaded as [m|e]; vs_simpl;
      [|destruct (is_Exception (exn_cls e)) eqn:E]; vs_simpl.
    + split; [split; [intros _; split; [reflexivity|exists m; reflexivity]|reflexivity]|].
      split; [intros m' _ H; inversion H; reflexivity|].
      split; [intros H; exfalso; apply H; reflexivity|].
      split; discriminate.
    + split; [split; [discriminate|intros (_ & m & H); discriminate H]|].
      split; [discriminate|]. split; [reflexivity|].
      split; discriminate.
    + split; [split; [discriminate|intros (_ & m & H); discriminate H]|].
      split; [discriminate|]. split; [reflexivity|].
      split; [discriminate|].
      intros e' H; inversion H; subst; exact E.
  - split; [split; [discriminate|intros (H & _); discriminate H]|].
    split; [discriminate|]. split; [reflexivity|].
    split; [|discriminate].
    intros _ name H. cbn in H.
    repeat (destruct H as [H|H]; [discriminate H|]). exact H.
Qed.

Lemma open_camera_run (env : OpenEnv) (st : VisionStream) :
  let cam0 := __init__ (vs_camera_device st) (vs_width st) (vs_height st) 30
                       (vs_use_gstreamer st) in
  open_camera env st =
  (outcome_of (open env cam0),
   set_vs_camera (Some (state_of (open env cam0))) st,
   (VsPrint (VsOpeningCamera (vs_camera_device st))
    :: map VsCamera (trace_of (open env cam0)))).
Proof.
  cbv zeta. unfold open_camera. unfold_vs. vs_simpl.
  unfold outcome_of, state_of, trace_of.
  destruct (open env _) as [[[b|e] cam] t]; destruct st; reflexivity.
Qed.

Lemma mock_open_camera_run (env : OpenEnv) (st : MockVisionStream) :
  let cam0 := __init__ (mvs_camera_device st) (mvs_width st) (mvs_height st) 30
                       false in
  mock_open_camera env st =
  (outcome_of (open env cam0),
   set_mvs_camera (Some (state_of (open env cam0))) st,
   (MvsPrint (MvsOpening (mvs_camera_device st))
    :: map MvsCamera (trace_of (open env cam0)))).
Proof.
  cbv zeta. unfold mock_open_camera, mvs_on_camera, mvs_print.
  unfold pcall, pbind, pret, pget, pmodify.
  cbn [mvs_camera set_mvs_camera mvs_camera_device mvs_width mvs_height fst snd app].
  unfold outcome_of, state_of, trace_of.
  destruct (open env _) as [[[b|e] cam] t]; destruct st; reflexivity.
Qed.

(** X15: [open_camera] always builds a new camera object from the stream's
    device, width and height with framerate 30 and opens that one: the
    result is the result of its [open], its [frame_count] is zero, and a
    camera the stream held before is dropped without [close()], none of its
    handles being released.  [VisionStream] passes on its backend choice,
    [MockVisionStream] always takes V4L2. *)
Theorem open_camera_fresh (env : OpenEnv) :
  (forall st : VisionStream,
     let r := open_camera env st in
     exists cam,
       vs_camera (snd (fst r)) = Some cam /\
       config cam =
         (vs_camera_device st, vs_width st, vs_height st, 30, vs_use_gstreamer st) /\
       frame_count cam = 0 /\
       fst (fst r) =
         outcome_of (open env (__init__ (vs_camera_device st) (vs_width st)
                                 (vs_height st) 30 (vs_use_gstreamer st))) /\
       (forall old c0 c,
          vs_camera st = Some old -> cap old = Some c0 ->
          env_VideoCapture env = Ret c -> c <> c0 ->
          ~ In (VsCamera (EvRelease c0)) (snd r))) /\
  (forall st : MockVisionStream,
     let r := mock_open_camera env st in
     exists cam,
       mvs_camera (snd (fst r)) = Some cam /\
       config cam = (mvs_camera_device st, mvs_width st, mvs_height st, 30, false) /\
       frame_count cam = 0 /\
       fst (fst r) =
         outcome_of (open env (__init__ (mvs_camera_device st) (mvs_width st)
                                 (mvs_height st) 30 false))).
Proof.
  split.
  - intros st. cbv zeta. rewrite open_camera_run. cbn [fst snd].
    set (cam0 := __init__ (vs_camera_device st) (vs_width st) (vs_height st) 30
                          (vs_use_gstreamer st)).
    exists (state_of (open env cam0)).
    split; [destruct st; reflexivity|].
    split.
    { destruct (open_geometry env cam0) as (H1 & H2 & H3 & H4 & H5).
      unfold config. rewrite H1, H2, H3, H4, H5. reflexivity. }
    split; [rewrite open_frame_count; reflexivity|].
    split; [reflexivity|].
    intros old c0 c _ _ Hc Hne [H|H]; [discriminate H|].
    apply in_map_iff in H. destruct H as (e & He & Hin).
    inversion He; subst e.
    pose proof (open_release_is_new env cam0 c0 Hin). congruence.
  - intros st. cbv zeta. rewrite mock_open_camera_run. cbn [fst snd].
    set (cam0 := __init__ (mvs_camera_device st) (mvs_width st) (mvs_height st) 30
                          false).
    exists (state_of (open env cam0)).
    split; [destruct st; reflexivity|].
    split.
    { destruct (open_geometry env cam0) as (H1 & H2 & H3 & H4 & H5).
      unfold config. rewrite H1, H2, H3, H4, H5. reflexivity. }
    split; [rewrite open_frame_count; reflexivity|reflexivity].
Qed.

Lemma cleanup_run (st : VisionStream) :
  cleanup st =
  match vs_camera st with
  | Some cam =>
      (Ret tt, set_vs_camera (Some (set_cap None cam)) st,
       (map VsCamera (match cap cam with Some c => [EvRelease c] | None => [] end
                      ++ [EvPrint MsgClosed]) ++ [VsPrint VsClosed])%list)
  | None => (Ret tt, st, [VsPrint VsClosed])
  end.
Proof.
  unfold cleanup. unfold_vs.
  destruct (vs_camera st) as [cam|] eqn:Hc; vs_simpl.
  - rewrite Hc, close_run. vs_simpl. destruct st; reflexivity.
  - reflexivity.
Qed.

(** X16: [cleanup] returns normally in every state; it closes the camera
    when the stream has one, releasing the handle if one is held, and a
    second [cleanup] releases nothing and leaves the state of the first;
    before [open_camera] it only prints.  [__exit__] is [cleanup]. *)
Theorem cleanup_idempotent (st : VisionStream) :
  let r := cleanup st in
  fst (fst r) = Ret tt /\
  (vs_camera st = None -> r = (Ret tt, st, [VsPrint VsClosed])) /\
  (forall cam, vs_camera st = Some cam ->
     vs_camera (snd (fst r)) = Some (set_cap None cam) /\
     vs_releases (snd r) =
       match cap cam with Some _ => 1%nat | None => 0%nat end) /\
  snd (fst (cleanup (snd (fst r)))) = snd (fst r) /\
  vs_releases (snd (cleanup (snd (fst r)))) = 0%nat /\
  (forall exc, vs_exit exc st = r).
Proof.
  cbv zeta.
  assert (Hexit : forall exc, vs_exit exc st = cleanup st) by reflexivity.
  destruct (vs_camera st) as [cam|] eqn:Hc.
  - rewrite (cleanup_run st), Hc. cbn [fst snd].
    rewrite cleanup_run. vs_simpl.
    split; [reflexivity|]. split; [discriminate|].
    split.
    { intros cam' H; inversion H; subst cam'. split; [reflexivity|].
      rewrite vs_releases_app, vs_releases_camera.
      destruct (cap cam); reflexivity. }
    split; [destruct st; reflexivity|]. split; [reflexivity|].
    intros exc. rewrite Hexit, cleanup_run, Hc. reflexivity.
  - rewrite (cleanup_run st), Hc. cbn [fst snd]. rewrite cleanup_run, Hc.
    cbn [fst snd].
    split; [reflexivity|]. split; [reflexivity|].
    split; [discriminate|]. split; [reflexivity|]. split; [reflexivity|].
    intros exc. rewrite Hexit, cleanup_run, Hc. reflexivity.
Qed.

Ltac vs_done :=
  vs_simpl; eexists; repeat split; cbn [frame_count set_frame_count cap];
  try reflexivity; try assumption; try lia; try discriminate;
  try (intros _; eexists; reflexivity).

(** What one turn of the loop of [run] does to a stream with a camera. *)
Lemma vs_turn_step (prompt : string) (it : VsTurn) (last : float)
    (st : VisionStream) (cam : IMX219Camera) :
  vs_camera st = Some cam ->
  let r := vs_turn prompt it last st in
  let st1 := snd (fst r) in
  exists cam1,
    vs_camera st1 = Some cam1 /\
    cap cam1 = cap cam /\
    vs_frame_count st1 - vs_frame_count st = frame_count cam1 - frame_count cam /\
    vs_releases (snd r) = 0%nat /\
    vs_model st1 = vs_model st /\
    vs_update_interval st1 = vs_update_interval st /\
    (turn_goes_on it = true -> exists last', fst (fst r) = Ret last').
Proof.
  intros Hc. cbv zeta. unfold vs_turn, turn_goes_on.
  destruct it as [rd sr tm gen sl].
  cbn [vt_read vt_sleep_retry vt_time vt_generate vt_sleep].
  unfold_vs. rewrite Hc, read_run.
  destruct (cap cam) as [c|] eqn:Hcap.
  - destruct rd as [[[|] fr]|e]; vs_simpl.
    + destruct (PrimFloat.leb (vs_update_interval st) (PrimFloat.sub tm last));
        vs_simpl.
      * rewrite query_vision_run. vs_simpl.
        destruct (vs_model st) as [m|] eqn:Hm; vs_simpl.
        -- destruct gen as [resp|e]; vs_simpl;
             [|destruct (is_Exception (exn_cls e)) eqn:E]; vs_simpl;
             destruct sl as [[]|e']; destruct sr as [[]|e'']; vs_done.
        -- destruct sl as [[]|e']; destruct sr as [[]|e''];
             destruct gen as [resp|e]; vs_done.
      * destruct sl as [[]|e']; destruct sr as [[]|e''];
          destruct gen as [resp|e]; vs_done.
    + destruct sl as [[]|e']; destruct sr as [[]|e''];
        destruct gen as [resp|e]; vs_done.
    + vs_done.
  - destruct sl as [[]|e']; destruct sr as [[]|e''];
      destruct gen as [resp|e]; destruct rd as [[b fr]|e3]; vs_done.
Qed.

(** The loop of [run] on a stream with a camera: the handle stays, nothing is
    released, the stream's counter and the camera's grow together. *)
Lemma vs_loop_inv (prompt : string) (its : list VsTurn) :
  forall (last : float) (st : VisionStream) (cam : IMX219Camera),
    vs_camera st = Some cam ->
    let r := vs_loop prompt its last st in
    let st1 := snd (fst r) in
    exists cam1,
      vs_camera st1 = Some cam1 /\
      cap cam1 = cap cam /\
      vs_frame_count st1 - vs_frame_count st = frame_count cam1 - frame_count cam /\
      vs_releases (snd r) = 0%nat /\
      (forallb turn_goes_on its = true -> fst (fst r) = None).
Proof.
  induction its as [|it its IH]; intros last st cam Hc.
  - cbn. exists cam. repeat split; try assumption; lia.
  - cbv zeta. cbn [vs_loop forallb].
    destruct (vs_turn_step prompt it last st cam Hc)
      as (cam1 & Hc1 & Hcap1 & Hf1 & Hr1 & _ & _ & Hgo).
    destruct (vs_turn prompt it last st) as [[[last'|e] st1] t1];
      cbn [fst snd] in *.
    + destruct (IH last' st1 cam1 Hc1) as (cam2 & Hc2 & Hcap2 & Hf2 & Hr2 & Hgo2).
      destruct (vs_loop prompt its last' st1) as [[r st2] t2]; cbn [fst snd] in *.
      exists cam2. rewrite vs_releases_app, Hr1, Hr2.
      repeat split; try assumption; try congruence; try lia.
      intros H. apply andb_true_iff in H. apply Hgo2, H.
    + exists cam1. repeat split; try assumption.
      intros H. apply andb_true_iff in H. destruct H as [H _].
      destruct (Hgo H) as (l & Hl). discriminate Hl.
Qed.

Lemma vs_releases_print (m : vs_message) (t : list vs_event) :
  vs_releases (VsPrint m :: t) = vs_releases t.
Proof. reflexivity. Qed.



(** X18: in any run of [run], finished or not, the stream's [frame_count]
    has grown by exactly what the camera's [frame_count] has grown by: both
    count the reads that came back with a true flag. *)
Theorem vs_run_counts_frames (prompt : string) (its : list VsTurn)
    (st : VisionStream) (cam : IMX219Camera) :
  vs_camera st = Some cam ->
  let st' := snd (fst (vs_run prompt its st)) in
  vs_frame_count st' - vs_frame_count st = vs_camera_frames st' - frame_count cam.
Proof.
  intros Hc. cbv zeta. unfold vs_run, vs_camera_frames.
  destruct (vs_loop_inv prompt its 0%float st cam Hc)
    as (cam1 & Hc1 & _ & Hf & _).
  destruct (vs_loop prompt its 0%float st) as [[[e|] st1] t1];
    cbn [fst snd] in *.
  - rewrite cleanup_run, Hc1. cbn [fst snd]. vs_simpl. exact Hf.
  - rewrite Hc1. exact Hf.
Qed.

Lemma vs_run_counts_frames_witness :
  let cam := state_of (open env_good camera0) in
  let st := set_vs_camera (Some cam)
              (VisionStream_init "VILA-1.5-3B" "/dev/video0" 640 480 2%float false) in
  let its := [mkVsTurn pull_failed (Ret tt) 100%float (Ret "a desk") (Ret tt);
              mkVsTurn (pull_ok (Some frame0)) (Ret tt) 101%float (Ret "a desk")
                       (Ret tt)] in
  let st' := snd (fst (vs_run "What do you see?" its st)) in
  vs_camera st = Some cam /\
  vs_frame_count st' = 1 /\
  vs_frame_count st' - vs_frame_count st = vs_camera_frames st' - frame_count cam.
Proof.
  intros cam st its st'.
  split; [reflexivity|]. split; [reflexivity|].
  exact (vs_run_counts_frames "What do you see?" its st cam eq_refl).
Defined.

(** X19: no answer of the camera ends the loop of [run]: as long as the
    reads and the pauses return and the model returns or raises an
    [Exception], [run] is still running after every turn; a read with a
    false flag is followed by a pause and the next read, and an [Exception]
    of the model becomes the response text. *)
Theorem vs_run_goes_on (prompt : string) (its : list VsTurn)
    (st : VisionStream) (cam : IMX219Camera) :
  vs_camera st = Some cam ->
  forallb turn_goes_on its = true ->
  fst (fst (vs_run prompt its st)) = Running /\
  vs_releases (snd (vs_run prompt its st)) = 0%nat.
Proof.
  intros Hc Hgo. unfold vs_run.
  destruct (vs_loop_inv prompt its 0%float st cam Hc)
    as (cam1 & _ & _ & _ & Hr & Hnone).
  specialize (Hnone Hgo).
  destruct (vs_loop prompt its 0%float st) as [[o st1] t1]; cbn [fst snd] in *.
  subst o. split; [reflexivity|exact Hr].
Qed.

Lemma vs_run_goes_on_witness :
  let cam := state_of (open env_good camera0) in
  let st := set_vs_camera (Some cam)
              (VisionStream_init "VILA-1.5-3B" "/dev/video0" 640 480 2%float false) in
  let its := [mkVsTurn pull_failed (Ret tt) 100%float (Ret "a desk") (Ret tt);
              mkVsTurn (pull_ok (Some frame0)) (Ret tt) 101%float
                       (Raise (mkExn CvError "out of memory")) (Ret tt)] in
  vs_camera st = Some cam /\
  forallb turn_goes_on its = true /\
  fst (fst (vs_run "What do you see?" its st)) = Running.
Proof.
  intros cam st its.
  split; [reflexivity|]. split; [reflexivity|].
  exact (proj1 (vs_run_goes_on "What do you see?" its st cam eq_refl eq_refl)).
Defined.

(** X20: [run] on a stream that has no camera yet (before [open_camera])
    raises [AttributeError] at the first read, after the prints and
    [cleanup], and touches no backend. *)
Theorem vs_run_without_camera (prompt : string) (it : VsTurn)
    (its : list VsTurn) (st : VisionStream) :
  vs_camera st = None ->
  vs_run prompt (it :: its) st =
  (Threw (mkExn AttributeError "'NoneType' object has no attribute 'read'"),
   st, (vs_run_header prompt st ++ [VsPrint VsClosed])%list).
Proof.
  intros Hc. unfold vs_run. cbn [vs_loop].
  unfold vs_turn. unfold_vs. rewrite Hc. vs_simpl.
  rewrite cleanup_run, Hc. reflexivity.
Qed.

Lemma vs_run_without_camera_witness :
  let st := VisionStream_init "VILA-1.5-3B" "/dev/video0" 640 480 2%float true in
  let it := mkVsTurn (pull_ok (Some frame0)) (Ret tt) 100%float (Ret "a desk")
                     (Ret tt) in
  vs_camera st = None /\
  fst (fst (vs_run "What do you see?" [it] st)) =
    Threw (mkExn AttributeError "'NoneType' object has no attribute 'read'").
Proof.
  intros st it. split; [reflexivity|].
  rewrite (vs_run_without_camera "What do you see?" it [] st eq_refl).
  reflexivity.
Defined.

(** * [vision_stream.MockVisionStream] *)

Ltac mvs_simpl :=
  cbn [mvs_camera_device mvs_width mvs_height mvs_update_interval mvs_camera
       mvs_frame_count set_mvs_camera set_mvs_frame_count
       fst snd map app negb].

Ltac unfold_mvs :=
  unfold mvs_on_camera, mvs_print, analyze_frame,
    pcall, pbind, pret, pget, pmodify.

Ltac mvs_done :=
  mvs_simpl; eexists; repeat split; cbn [frame_count set_frame_count cap];
  try reflexivity; try assumption; try lia; try discriminate.

Lemma mvs_releases_app (t1 t2 : list mvs_event) :
  mvs_releases (t1 ++ t2) = (mvs_releases t1 + mvs_releases t2)%nat.
Proof.
  unfold mvs_releases; rewrite filter_app, length_app; reflexivity.
Qed.

Lemma mvs_releases_camera (t : list event) :
  mvs_releases (map MvsCamera t) = releases t.
Proof.
  unfold mvs_releases, releases.
  induction t as [|e t IH]; [reflexivity|].
  destruct e; cbn; rewrite ?IH; reflexivity.
Qed.

Lemma mvs_releases_print (m : mvs_message) (t : list mvs_event) :
  mvs_releases (MvsPrint m :: t) = mvs_releases t.
Proof. reflexivity. Qed.

Lemma mock_turn_step (it : MvsTurn) (last : float)
    (st : MockVisionStream) (cam : IMX219Camera) :
  mvs_camera st = Some cam ->
  let r := mock_turn it last st in
  let st1 := snd (fst r) in
  exists cam1,
    mvs_camera st1 = Some cam1 /\
    cap cam1 = cap cam /\
    mvs_frame_count st1 - mvs_frame_count st = frame_count cam1 - frame_count cam /\
    mvs_releases (snd r) = 0%nat /\
    mvs_update_interval st1 = mvs_update_interval st.
Proof.
  intros Hc. cbv zeta. unfold mock_turn.
  destruct it as [rd sr tm br ed sl].
  cbn [mt_read mt_sleep_retry mt_time mt_brightness mt_edge_density mt_sleep].
  unfold_mvs. rewrite Hc, read_run.
  destruct (cap cam) as [c|] eqn:Hcap.
  - destruct rd as [[[|] fr]|e]; mvs_simpl.
    + destruct (PrimFloat.leb (mvs_update_interval st) (PrimFloat.sub tm last));
        mvs_simpl.
      * destruct br as [b|e]; mvs_simpl; [|mvs_done].
        destruct ed as [d|e]; mvs_simpl; [|mvs_done].
        destruct sl as [[]|e]; mvs_done.
      * destruct sl as [[]|e]; mvs_done.
    + destruct sr as [[]|e]; mvs_done.
    + mvs_done.
  - destruct sr as [[]|e]; mvs_done.
Qed.

Lemma mock_loop_inv (its : list MvsTurn) :
  forall (last : float) (st : MockVisionStream) (cam : IMX219Camera),
    mvs_camera st = Some cam ->
    let r := mock_loop its last st in
    let st1 := snd (fst r) in
    exists cam1,
      mvs_camera st1 = Some cam1 /\
      cap cam1 = cap cam /\
      mvs_frame_count st1 - mvs_frame_count st = frame_count cam1 - frame_count cam /\
      mvs_releases (snd r) = 0%nat.
Proof.
  induction its as [|it its IH]; intros last st cam Hc.
  - cbn. exists cam. repeat split; try assumption; lia.
  - cbv zeta. cbn [mock_loop].
    destruct (mock_turn_step it last st cam Hc)
      as (cam1 & Hc1 & Hcap1 & Hf1 & Hr1 & _).
    destruct (mock_turn it last st) as [[[last'|e] st1] t1];
      cbn [fst snd] in *.
    + destruct (IH last' st1 cam1 Hc1) as (cam2 & Hc2 & Hcap2 & Hf2 & Hr2).
      destruct (mock_loop its last' st1) as [[r st2] t2]; cbn [fst snd] in *.
      exists cam2. rewrite mvs_releases_app, Hr1, Hr2.
      repeat split; try assumption; try congruence; lia.
    + exists cam1. repeat split; assumption.
Qed.

Lemma mock_finally_run (st : MockVisionStream) :
  mock_finally st =
  match mvs_camera st with
  | Some cam =>
      (Ret tt, set_mvs_camera (Some (set_cap None cam)) st,
       map MvsCamera (match cap cam with Some c => [EvRelease c] | None => [] end
                      ++ [EvPrint MsgClosed]))
  | None => (Ret tt, st, [])
  end.
Proof.
  unfold mock_finally. unfold_mvs.
  destruct (mvs_camera st) as [cam|] eqn:Hc; mvs_simpl.
  - rewrite Hc, close_run. mvs_simpl. destruct st; reflexivity.
  - reflexivity.
Qed.

(** How [MockVisionStream.run] ends on a stream with a camera. *)
Lemma mock_run_end (prompt : string) (its : list MvsTurn)
    (st st' : MockVisionStream) (cam : IMX219Camera)
    (r : run_end unit) (t : list mvs_event) :
  mvs_camera st = Some cam ->
  mock_run prompt its st = (r, st', t) ->
  (r = Running ->
   mvs_releases t = 0%nat /\
   exists cam', mvs_camera st' = Some cam' /\ cap cam' = cap cam) /\
  (r <> Running ->
   (exists cam', mvs_camera st' = Some cam' /\ cap cam' = None) /\
   mvs_releases t = match cap cam with Some _ => 1%nat | None => 0%nat end).
Proof.
  intros Hc. unfold mock_run.
  destruct (mock_loop_inv its 0%float st cam Hc)
    as (cam1 & Hc1 & Hcap1 & _ & Hr1).
  destruct (mock_loop its 0%float st) as [[[e|] st1] t1];
    cbn [fst snd] in *.
  - rewrite mock_finally_run, Hc1.
    intros H. injection H as <- <- <-.
    split.
    + destruct (exn_cls e); discriminate.
    + intros _. split; [exists (set_cap None cam1); split; reflexivity|].
      unfold mock_run_header; cbn [app].
      rewrite !mvs_releases_print, !mvs_releases_app, Hr1,
        mvs_releases_camera, Hcap1.
      destruct (exn_cls e); destruct (cap cam); reflexivity.
  - intros H. injection H as <- <- <-.
    split; [|intros Hn; contradiction].
    intros _. split; [exact Hr1|exists cam1; split; assumption].
Qed.

(** X21: in [MockVisionStream.run] an exception of the frame analysis is not
    caught ([VisionStream.run] turns an [Exception] of the model into the
    response text): when the analysis of the first frame raises, the loop
    ends at once, the camera is closed, its handle released once, and the
    exception leaves [run], or [run] returns for [KeyboardInterrupt]. *)
Theorem mock_run_analysis_raises (prompt : string) (it : MvsTurn)
    (its : list MvsTurn) (st : MockVisionStream) (cam : IMX219Camera)
    (c : Cap) (frame : option Frame) (e : exn) :
  mvs_camera st = Some cam ->
  cap cam = Some c ->
  mt_read it = pull_ok frame ->
  PrimFloat.leb (mvs_update_interval st) (PrimFloat.sub (mt_time it) 0%float) = true ->
  mt_brightness it = Raise e ->
  let r := mock_run prompt (it :: its) st in
  fst (fst r) =
    match exn_cls e with KeyboardInterrupt => Done tt | _ => Threw e end /\
  mvs_releases (snd r) = 1%nat /\
  mvs_frame_count (snd (fst r)) = mvs_frame_count st + 1 /\
  ~ In (MvsEdgeDensity frame) (snd r).
Proof.
  intros Hc Hcap Hrd Hdue Hbr. cbv zeta. unfold mock_run. cbn [mock_loop].
  unfold mock_turn. unfold_mvs. rewrite Hc, read_run, Hcap, Hrd.
  unfold pull_ok. mvs_simpl. rewrite Hdue, Hbr. mvs_simpl.
  rewrite mock_finally_run. mvs_simpl. cbn [cap set_frame_count]. rewrite Hcap.
  split; [destruct (exn_cls e); reflexivity|].
  split; [destruct (exn_cls e); reflexivity|].
  split; [reflexivity|].
  intros H. unfold mock_run_header in H.
  destruct (exn_cls e); cbn in H;
    repeat (destruct H as [H|H]; [discriminate H|]); exact H.
Qed.

Lemma mock_run_analysis_raises_witness :
  let cam := state_of (open env_good camera0) in
  let st := set_mvs_camera (Some cam)
              (MockVisionStream_init "/dev/video0" 640 480 2%float) in
  let e := mkExn CvError "cvtColor failed" in
  let it := mkMvsTurn (pull_ok (Some frame0)) (Ret tt) 100%float (Raise e)
                      (Ret 0.5%float) (Ret tt) in
  mvs_camera st = Some cam /\
  cap cam = Some 7%nat /\
  PrimFloat.leb (mvs_update_interval st) (PrimFloat.sub (mt_time it) 0%float) = true /\
  fst (fst (mock_run "Analyzing scene..." [it] st)) = Threw e.
Proof.
  intros cam st e it.
  split; [reflexivity|]. split; [reflexivity|]. split; [reflexivity|].
  exact (proj1 (mock_run_analysis_raises "Analyzing scene..." it [] st cam 7%nat
                  (Some frame0) e eq_refl eq_refl eq_refl eq_refl eq_refl)).
Defined.

(** * [vision_stream.main] *)

Lemma constructions_app (t1 t2 : list event) :
  constructions (t1 ++ t2) = (constructions t1 + constructions t2)%nat.
Proof.
  unfold constructions; rewrite filter_app, length_app; reflexivity.
Qed.

Lemma mvs_camera_events_app (t1 t2 : list mvs_event) :
  mvs_camera_events (t1 ++ t2) =
  (mvs_camera_events t1 ++ mvs_camera_events t2)%list.
Proof. apply flat_map_app. Qed.

Lemma vs_camera_events_app (t1 t2 : list vs_event) :
  vs_camera_events (t1 ++ t2) =
  (vs_camera_events t1 ++ vs_camera_events t2)%list.
Proof. apply flat_map_app. Qed.

Lemma vmain_camera_events_app (t1 t2 : list vmain_event) :
  vmain_camera_events (t1 ++ t2) =
  (vmain_camera_events t1 ++ vmain_camera_events t2)%list.
Proof. apply flat_map_app. Qed.

Lemma mvs_camera_events_camera (t : list event) :
  mvs_camera_events (map MvsCamera t) = t.
Proof.
  induction t as [|e t IH]; [reflexivity|]. cbn. f_equal. exact IH.
Qed.

Lemma vs_camera_events_camera (t : list event) :
  vs_camera_events (map VsCamera t) = t.
Proof.
  induction t as [|e t IH]; [reflexivity|]. cbn. f_equal. exact IH.
Qed.

Lemma vmain_camera_events_mock (t : list mvs_event) :
  vmain_camera_events (map VmMock t) = mvs_camera_events t.
Proof.
  induction t as [|e t IH]; [reflexivity|].
  destruct e; cbn; rewrite ?IH; try reflexivity; f_equal; exact IH.
Qed.

Lemma vmain_camera_events_real (t : list vs_event) :
  vmain_camera_events (map VmReal t) = vs_camera_events t.
Proof.
  induction t as [|e t IH]; [reflexivity|].
  destruct e; cbn; rewrite ?IH; try reflexivity; f_equal; exact IH.
Qed.

Lemma vmain_camera_events_real_print (m : vs_message) (t : list vmain_event) :
  vmain_camera_events (VmReal (VsPrint m) :: t) = vmain_camera_events t.
Proof. reflexivity. Qed.

Lemma mvs_releases_events (t : list mvs_event) :
  releases (mvs_camera_events t) = mvs_releases t.
Proof.
  unfold releases, mvs_releases, mvs_camera_events.
  induction t as [|e t IH]; [reflexivity|].
  destruct e as [c| | | | |]; cbn; try exact IH.
  destruct c; cbn; rewrite ?IH; reflexivity.
Qed.

Lemma vs_releases_events (t : list vs_event) :
  releases (vs_camera_events t) = vs_releases t.
Proof.
  unfold releases, vs_releases, vs_camera_events.
  induction t as [|e t IH]; [reflexivity|].
  destruct e as [c| | | | |]; cbn; try exact IH.
  destruct c; cbn; rewrite ?IH; reflexivity.
Qed.

(** A method trace of [read] or [close] holds no construction. *)
Lemma read_constructions (pull : outcome (bool * option Frame))
    (s : IMX219Camera) :
  constructions (snd (read pull s)) = 0%nat.
Proof.
  rewrite read_run. destruct (cap s); [|reflexivity].
  destruct pull as [[b f]|e]; reflexivity.
Qed.

Lemma close_constructions (s : IMX219Camera) :
  constructions (snd (close s)) = 0%nat.
Proof.
  rewrite close_run. destruct (cap s); reflexivity.
Qed.

Lemma mock_turn_constructions (it : MvsTurn) (last : float)
    (st : MockVisionStream) :
  constructions (mvs_camera_events (snd (mock_turn it last st))) = 0%nat.
Proof.
  unfold mock_turn.
  destruct it as [rd sr tm br ed sl].
  cbn [mt_read mt_sleep_retry mt_time mt_brightness mt_edge_density mt_sleep].
  unfold_mvs.
  destruct (mvs_camera st) as [cam|]; [|reflexivity].
  rewrite read_run.
  destruct (cap cam) as [c|].
  - destruct rd as [[[|] fr]|e]; mvs_simpl; [| |reflexivity].
    + destruct (PrimFloat.leb (mvs_update_interval st) (PrimFloat.sub tm last));
        mvs_simpl.
      * destruct br as [b|e]; mvs_simpl; [|reflexivity].
        destruct ed as [d|e]; mvs_simpl; [|reflexivity].
        destruct sl as [[]|e]; reflexivity.
      * destruct sl as [[]|e]; reflexivity.
    + destruct sr as [[]|e]; reflexivity.
  - destruct sr as [[]|e]; reflexivity.
Qed.

Lemma mock_loop_constructions (its : list MvsTurn) :
  forall last st,
    constructions (mvs_camera_events (snd (mock_loop its last st))) = 0%nat.
Proof.
  induction its as [|it its IH]; intros last st; [reflexivity|].
  cbn [mock_loop].
  pose proof (mock_turn_constructions it last st) as H1.
  destruct (mock_turn it last st) as [[[last'|e] st1] t1]; cbn [snd] in *;
    [|exact H1].
  specialize (IH last' st1).
  destruct (mock_loop its last' st1) as [[r st2] t2]; cbn [snd] in *.
  rewrite mvs_camera_events_app, constructions_app, H1, IH. reflexivity.
Qed.

Lemma mock_run_constructions (prompt : string) (its : list MvsTurn)
    (st : MockVisionStream) :
  constructions (mvs_camera_events (snd (mock_run prompt its st))) = 0%nat.
Proof.
  unfold mock_run.
  pose proof (mock_loop_constructions its 0%float st) as H1.
  destruct (mock_loop its 0%float st) as [[[e|] st1] t1]; cbn [snd] in *.
  - rewrite mock_finally_run.
    destruct (mvs_camera st1) as [cam|]; cbn [snd];
      unfold mock_run_header; cbn [app mvs_camera_events flat_map];
      rewrite !mvs_camera_events_app, !constructions_app, H1;
      [rewrite mvs_camera_events_camera|];
      destruct (exn_cls e); try destruct (cap cam); reflexivity.
  - unfold mock_run_header; cbn [app mvs_camera_events flat_map]. exact H1.
Qed.

Lemma vs_turn_constructions (prompt : string) (it : VsTurn) (last : float)
    (st : VisionStream) :
  constructions (vs_camera_events (snd (vs_turn prompt it last st))) = 0%nat.
Proof.
  unfold vs_turn.
  destruct it as [rd sr tm gen sl].
  cbn [vt_read vt_sleep_retry vt_time vt_generate vt_sleep].
  unfold_vs.
  destruct (vs_camera st) as [cam|]; [|reflexivity].
  rewrite read_run.
  destruct (cap cam) as [c|].
  - destruct rd as [[[|] fr]|e]; vs_simpl; [| |reflexivity].
    + destruct (PrimFloat.leb (vs_update_interval st) (PrimFloat.sub tm last));
        vs_simpl.
      * rewrite query_vision_run. vs_simpl.
        destruct (vs_model st) as [m|]; vs_simpl.
        -- destruct gen as [resp|e]; vs_simpl;
             [|destruct (is_Exception (exn_cls e))]; vs_simpl;
             try reflexivity; destruct sl as [[]|e']; reflexivity.
        -- destruct sl as [[]|e']; reflexivity.
      * destruct sl as [[]|e']; reflexivity.
    + destruct sr as [[]|e]; reflexivity.
  - destruct sr as [[]|e]; reflexivity.
Qed.

Lemma vs_loop_constructions (prompt : string) (its : list VsTurn) :
  forall last st,
    constructions (vs_camera_events (snd (vs_loop prompt its last st))) = 0%nat.
Proof.
  induction its as [|it its IH]; intros last st; [reflexivity|].
  cbn [vs_loop].
  pose proof (vs_turn_constructions prompt it last st) as H1.
  destruct (vs_turn prompt it last st) as [[[last'|e] st1] t1]; cbn [snd] in *;
    [|exact H1].
  specialize (IH last' st1).
  destruct (vs_loop prompt its last' st1) as [[r st2] t2]; cbn [snd] in *.
  rewrite vs_camera_events_app, constructions_app, H1, IH. reflexivity.
Qed.

Lemma vs_run_constructions (prompt : string) (its : list VsTurn)
    (st : VisionStream) :
  constructions (vs_camera_events (snd (vs_run prompt its st))) = 0%nat.
Proof.
  unfold vs_run.
  pose proof (vs_loop_constructions prompt its 0%float st) as H1.
  destruct (vs_loop prompt its 0%float st) as [[[e|] st1] t1]; cbn [snd] in *.
  - rewrite cleanup_run.
    destruct (vs_camera st1) as [cam|]; cbn [snd];
      unfold vs_run_header; cbn [app vs_camera_events flat_map];
      rewrite !vs_camera_events_app, !constructions_app, H1;
      [rewrite vs_camera_events_camera|];
      destruct (exn_cls e); try destruct (cap cam); reflexivity.
  - unfold vs_run_header; cbn [app vs_camera_events flat_map]. exact H1.
Qed.

Lemma open_constructions (env : OpenEnv) (s : IMX219Camera) :
  constructions (trace_of (open env s)) = 1%nat.
Proof.
  destruct s as [d w h f g c n t], env as [oc ow oh ofp oo ord tm].
  run_open; open_cases; reflexivity.
Qed.

Lemma open_v4l2_target (env : OpenEnv) (s : IMX219Camera) :
  use_gstreamer s = false ->
  In (EvVideoCapture (device s) CAP_V4L2) (trace_of (open env s)).
Proof.
  destruct s as [d w h f g c n t], env as [oc ow oh ofp oo ord tm].
  simpl; intros ->.
  run_open; open_cases; cbn; auto 10.
Qed.

Lemma no_model_call_mock (t : list mvs_event) :
  forallb (fun e => negb (is_model_call e)) (map VmMock t) = true.
Proof.
  induction t as [|e t IH]; [reflexivity|exact IH].
Qed.

(** X22: in mock mode, that is with [--mock] or without [nano_llm], [main]
    never calls the model runtime and constructs exactly one
    [cv2.VideoCapture], on the device path with the V4L2 backend: the
    options [--model] and [--no-gstreamer] have no effect. *)
Theorem vision_main_mock_mode (available : bool) (args : VArgs) (env : VMainEnv) :
  vargs_mock args || negb available = true ->
  let r := vision_main available args env in
  forallb (fun e => negb (is_model_call e)) (snd r) = true /\
  constructions (vmain_camera_events (snd r)) = 1%nat /\
  In (EvVideoCapture (vargs_device args) CAP_V4L2) (vmain_camera_events (snd r)).
Proof.
  intros Hmock. cbv zeta. unfold vision_main. rewrite Hmock.
  rewrite mock_open_camera_run.
  cbn [mvs_camera_device mvs_width mvs_height MockVisionStream_init].
  set (cam0 := __init__ (vargs_device args) (vargs_width args)
                        (vargs_height args) 30 false).
  pose proof (open_constructions (vm_open env) cam0) as Hone.
  pose proof (open_v4l2_target (vm_open env) cam0 eq_refl) as Hin.
  change (device cam0) with (vargs_device args) in Hin.
  unfold outcome_of, state_of, trace_of in *.
  destruct (open (vm_open env) cam0) as [[[[|]|e] cam] topen];
    cbn [fst snd] in *.
  - pose proof (mock_run_constructions (vargs_prompt args) (vm_mock_turns env)
                  (set_mvs_camera (Some cam)
                     (MockVisionStream_init (vargs_device args) (vargs_width args)
                        (vargs_height args) (vargs_interval args)))) as Hrun.
    destruct (mock_run _ _ _) as [[r st2] t2]; cbn [fst snd] in *.
    unfold vmain_header; cbn [app map].
    split; [|split].
    + cbn [forallb is_model_call negb andb].
      rewrite forallb_app, !no_model_call_mock. reflexivity.
    + cbn [vmain_camera_events flat_map app].
      change (flat_map _ (map VmMock (map MvsCamera topen) ++ map VmMock t2))
        with (vmain_camera_events (map VmMock (map MvsCamera topen) ++ map VmMock t2)).
      rewrite vmain_camera_events_app, !vmain_camera_events_mock,
        mvs_camera_events_camera, constructions_app, Hone, Hrun. reflexivity.
    + cbn [vmain_camera_events flat_map app].
      change (flat_map _ (map VmMock (map MvsCamera topen) ++ map VmMock t2))
        with (vmain_camera_events (map VmMock (map MvsCamera topen) ++ map VmMock t2)).
      rewrite vmain_camera_events_app, !vmain_camera_events_mock,
        mvs_camera_events_camera.
      apply in_or_app; left; exact Hin.
  - unfold vmain_header; cbn [app map].
    split; [|split].
    + cbn [forallb is_model_call negb andb].
      rewrite forallb_app, !no_model_call_mock. reflexivity.
    + cbn [vmain_camera_events flat_map app].
      change (flat_map _ (map VmMock (map MvsCamera topen) ++ [VmPrint VmFailedCamera]))
        with (vmain_camera_events (map VmMock (map MvsCamera topen) ++ [VmPrint VmFailedCamera])).
      rewrite vmain_camera_events_app, !vmain_camera_events_mock,
        mvs_camera_events_camera, constructions_app, Hone. reflexivity.
    + cbn [vmain_camera_events flat_map app].
      change (flat_map _ (map VmMock (map MvsCamera topen) ++ [VmPrint VmFailedCamera]))
        with (vmain_camera_events (map VmMock (map MvsCamera topen) ++ [VmPrint VmFailedCamera])).
      rewrite vmain_camera_events_app, !vmain_camera_events_mock,
        mvs_camera_events_camera.
      apply in_or_app; left; exact Hin.
  - unfold vmain_header; cbn [app map].
    split; [|split].
    + cbn [forallb is_model_call negb andb].
      apply no_model_call_mock.
    + cbn [vmain_camera_events flat_map app].
      change (flat_map _ (map VmMock (map MvsCamera topen)))
        with (vmain_camera_events (map VmMock (map MvsCamera topen))).
      rewrite !vmain_camera_events_mock, mvs_camera_events_camera. exact Hone.
    + cbn [vmain_camera_events flat_map app].
      change (flat_map _ (map VmMock (map MvsCamera topen)))
        with (vmain_camera_events (map VmMock (map MvsCamera topen))).
      rewrite !vmain_camera_events_mock, mvs_camera_events_camera. exact Hin.
Qed.

Lemma vision_main_mock_mode_witness :
  let args := mkVArgs "VILA-1.5-3B" "/dev/video0" 640 480 2%float
                      "What do you see?" true false in
  let env := mkVMainEnv (Ret 1%nat) env_good [] [] in
  vargs_mock args || negb true = true /\
  constructions (vmain_camera_events (snd (vision_main true args env))) = 1%nat /\
  In (EvVideoCapture "/dev/video0" CAP_V4L2)
     (vmain_camera_events (snd (vision_main true args env))).
Proof.
  intros args env. split; [reflexivity|].
  exact (proj2 (vision_main_mock_mode true args env eq_refl)).
Defined.

(** X23: when the model does not load, [main] never touches the camera: it
    returns 1 after an [Exception] of the loading, and an exception outside
    [Exception] leaves it; no [cv2.VideoCapture] is constructed. *)
Theorem vision_main_load_failure (args : VArgs) (env : VMainEnv) (e : exn) :
  vargs_mock args = false ->
  vm_loaded env = Raise e ->
  let r := vision_main true args env in
  vmain_camera_events (snd r) = [] /\
  fst (fst r) = (if is_Exception (exn_cls e) then Done 1 else Threw e) /\
  match snd (fst r) with
  | RealStream st => vs_model st = None /\ vs_camera st = None
  | _ => False
  end.
Proof.
  intros Hm He. cbv zeta. unfold vision_main. rewrite Hm. cbn [orb negb].
  unfold load_model. unfold_vs. rewrite He. vs_simpl.
  cbn [VisionStream_init vs_model_name].
  destruct (is_Exception (exn_cls e)); vs_simpl; repeat split.
Qed.

Lemma vision_main_load_failure_witness :
  let args := mkVArgs "VILA-1.5-3B" "/dev/video0" 640 480 2%float
                      "What do you see?" false false in
  let e := mkExn CvError "out of memory" in
  let env := mkVMainEnv (Raise e) env_good [] [] in
  vargs_mock args = false /\
  vm_loaded env = Raise e /\
  fst (fst (vision_main true args env)) = Done 1 /\
  vmain_camera_events (snd (vision_main true args env)) = [].
Proof.
  intros args e env.
  destruct (vision_main_load_failure args env e eq_refl eq_refl) as (H1 & H2 & _).
  split; [reflexivity|]. split; [reflexivity|]. split; [exact H2|exact H1].
Defined.

(** How [VisionStream.run] ends on a stream with a camera. *)
Lemma vs_run_end (prompt : string) (its : list VsTurn)
    (st st' : VisionStream) (cam : IMX219Camera)
    (r : run_end unit) (t : list vs_event) :
  vs_camera st = Some cam ->
  vs_run prompt its st = (r, st', t) ->
  r <> Running ->
  (exists cam', vs_camera st' = Some cam' /\ cap cam' = None) /\
  vs_releases t = match cap cam with Some _ => 1%nat | None => 0%nat end /\
  (r = Done tt -> In (VsPrint VsStopped) t).
Proof.
  intros Hc. unfold vs_run.
  destruct (vs_loop_inv prompt its 0%float st cam Hc)
    as (cam1 & Hc1 & Hcap1 & _ & Hr1 & _).
  destruct (vs_loop prompt its 0%float st) as [[[e|] st1] t1];
    cbn [fst snd] in *.
  - rewrite cleanup_run, Hc1.
    intros H _. injection H as <- <- <-.
    split; [exists (set_cap None cam1); split; reflexivity|].
    split.
    + unfold vs_run_header; cbn [app].
      rewrite !vs_releases_print, !vs_releases_app, Hr1,
        vs_releases_camera, Hcap1.
      destruct (exn_cls e); destruct (cap cam); reflexivity.
    + destruct (exn_cls e); try discriminate. intros _.
      unfold vs_run_header; cbn [app In]. do 6 right.
      apply in_or_app; right. left; reflexivity.
  - intros H Hr. injection H as <- <- <-. contradiction.
Qed.

Lemma mock_run_done (prompt : string) (its : list MvsTurn)
    (st st' : MockVisionStream) (t : list mvs_event) :
  mock_run prompt its st = (Done tt, st', t) -> In (MvsPrint MvsStopped) t.
Proof.
  unfold mock_run.
  destruct (mock_loop its 0%float st) as [[[e|] st1] t1]; [|discriminate].
  rewrite mock_finally_run.
  destruct (mvs_camera st1) as [cam|]; destruct (exn_cls e);
    intros H; try discriminate H; injection H as <- <-;
    unfold mock_run_header; cbn [app In]; do 6 right;
    apply in_or_app; right; left; reflexivity.
Qed.

Lemma releases_open_true (env : OpenEnv) (s : IMX219Camera) :
  outcome_of (open env s) = Ret true ->
  releases (trace_of (open env s)) = 0%nat /\
  exists c, cap (state_of (open env s)) = Some c.
Proof.
  intros H. destruct (open_true_trace env s H) as (Hc & _ & Hr & _).
  split; assumption.
Qed.

(** X24: [main] returns 0 only after the loop of [run] was ended by
    [KeyboardInterrupt] (the "Stopped by user" line was printed); the camera
    was then constructed once, its handle released exactly once, and the
    stream's camera holds no handle.  Its only other exit code is 1. *)
Theorem vision_main_exit_codes (available : bool) (args : VArgs)
    (env : VMainEnv) :
  let r := vision_main available args env in
  (forall z, fst (fst r) = Done z -> z = 0 \/ z = 1) /\
  (fst (fst r) = Done 0 ->
   constructions (vmain_camera_events (snd r)) = 1%nat /\
   releases (vmain_camera_events (snd r)) = 1%nat /\
   (In (VmMock (MvsPrint MvsStopped)) (snd r) \/
    In (VmReal (VsPrint VsStopped)) (snd r)) /\
   match snd (fst r) with
   | MockStream st => exists cam, mvs_camera st = Some cam /\ cap cam = None
   | RealStream st => exists cam, vs_camera st = Some cam /\ cap cam = None
   | NoStream => False
   end).
Proof.
  cbv zeta. unfold vision_main.
  destruct (vargs_mock args || negb available).
  - rewrite mock_open_camera_run.
    cbn [mvs_camera_device mvs_width mvs_height MockVisionStream_init].
    set (cam0 := __init__ (vargs_device args) (vargs_width args)
                          (vargs_height args) 30 false).
    set (st0 := MockVisionStream_init (vargs_device args) (vargs_width args)
                  (vargs_height args) (vargs_interval args)).
    pose proof (open_constructions (vm_open env) cam0) as Hone.
    pose proof (releases_open_true (vm_open env) cam0) as Hopen.
    unfold outcome_of, state_of, trace_of in *.
    destruct (open (vm_open env) cam0) as [[[[|]|e] cam] topen];
      cbn [fst snd] in *.
    + destruct (Hopen eq_refl) as (Hrel & c & Hc).
      pose proof (mock_run_constructions (vargs_prompt args) (vm_mock_turns env)
                    (set_mvs_camera (Some cam) st0)) as Hcon.
      pose proof (mock_run_end (vargs_prompt args) (vm_mock_turns env)
                    (set_mvs_camera (Some cam) st0)) as Hend.
      pose proof (mock_run_done (vargs_prompt args) (vm_mock_turns env)
                    (set_mvs_camera (Some cam) st0)) as Hdone.
      destruct (mock_run _ _ _) as [[r st2] t2]; cbn [fst snd] in *.
      split.
      * intros z. destruct r; intros H; inversion H; auto.
      * intros H. destruct r as [[]|e|]; try discriminate H.
        destruct (Hend st2 cam (Done tt) t2 eq_refl eq_refl) as (_ & Hnr).
        destruct Hnr as (Hcam & Hr2); [discriminate|].
        rewrite Hc in Hr2.
        unfold vmain_header; cbn [app map vmain_camera_events flat_map].
        change (flat_map _ (map VmMock (map MvsCamera topen) ++ map VmMock t2))
          with (vmain_camera_events
                  (map VmMock (map MvsCamera topen) ++ map VmMock t2)).
        rewrite vmain_camera_events_app, !vmain_camera_events_mock,
          mvs_camera_events_camera, constructions_app, releases_app,
          mvs_releases_events, Hone, Hcon, Hrel, Hr2.
        split; [reflexivity|]. split; [reflexivity|]. split; [|exact Hcam].
        left. do 5 right. apply in_or_app; right.
        apply in_map. exact (Hdone st2 t2 eq_refl).
    + split; [intros z H; inversion H; auto|discriminate].
    + split; discriminate.
  - destruct (load_model available (vm_loaded env)
                (VisionStream_init (vargs_model args) (vargs_device args)
                   (vargs_width args) (vargs_height args) (vargs_interval args)
                   (negb (vargs_no_gstreamer args))))
      as [[[[|]|e] st1] t1] eqn:Eload.
    2:{ cbn [fst snd]. split; [intros z H; inversion H; auto|discriminate]. }
    2:{ cbn [fst snd]. split; discriminate. }
    assert (Hnocam : vs_camera_events t1 = []).
    { revert Eload. unfold load_model. unfold_vs.
      destruct available; vs_simpl.
      - destruct (vm_loaded env) as [m|e]; vs_simpl;
          [|destruct (is_Exception (exn_cls e))]; vs_simpl;
          intros H; inversion H; reflexivity.
      - intros H; inversion H. }
    rewrite open_camera_run.
    set (cam0 := __init__ (vs_camera_device st1) (vs_width st1) (vs_height st1)
                          30 (vs_use_gstreamer st1)).
    pose proof (open_constructions (vm_open env) cam0) as Hone.
    pose proof (releases_open_true (vm_open env) cam0) as Hopen.
    unfold outcome_of, state_of, trace_of in *.
    destruct (open (vm_open env) cam0) as [[[[|]|e] cam] topen];
      cbn [fst snd] in *.
    + destruct (Hopen eq_refl) as (Hrel & c & Hc).
      pose proof (vs_run_constructions (vargs_prompt args) (vm_turns env)
                    (set_vs_camera (Some cam) st1)) as Hcon.
      pose proof (vs_run_end (vargs_prompt args) (vm_turns env)
                    (set_vs_camera (Some cam) st1)) as Hend.
      destruct (vs_run _ _ _) as [[r st3] t3]; cbn [fst snd] in *.
      split.
      * intros z. destruct r; intros H; inversion H; auto.
      * intros H. destruct r as [[]|e|]; try discriminate H.
        assert (Hcam0 : vs_camera (set_vs_camera (Some cam) st1) = Some cam)
          by reflexivity.
        assert (Hdone : Done tt <> @Running unit) by discriminate.
        destruct (Hend st3 cam (Done tt) t3 Hcam0 eq_refl Hdone)
          as (Hcam & Hr3 & Hstop).
        rewrite Hc in Hr3.
        unfold vmain_header; cbn [app map vmain_camera_events flat_map].
        change (flat_map _ (map VmReal t1 ++
                            map VmReal (VsPrint (VsOpeningCamera (vs_camera_device st1))
                                        :: map VsCamera topen) ++ map VmReal t3))
          with (vmain_camera_events
                  (map VmReal t1 ++
                   map VmReal (VsPrint (VsOpeningCamera (vs_camera_device st1))
                               :: map VsCamera topen) ++ map VmReal t3)).
        rewrite !vmain_camera_events_app, !vmain_camera_events_real, Hnocam.
        cbn [app].
        rewrite vmain_camera_events_real_print, vmain_camera_events_app,
          !vmain_camera_events_real, vs_camera_events_camera,
          constructions_app, releases_app,
          vs_releases_events, Hone, Hcon, Hrel, Hr3.
        split; [reflexivity|]. split; [reflexivity|]. split; [|exact Hcam].
        right. do 4 right. apply in_or_app; right. right.
        apply in_or_app; right.
        apply in_map. exact (Hstop eq_refl).
    + split; [intros z H; inversion H; auto|discriminate].
    + split; discriminate.
Qed.

(** * Keys and duration in [camera_stream.main] *)

Lemma land_255 (k : Z) : Z.land k 255 = k mod 256.
Proof. exact (Z.land_ones k 8 ltac:(lia)). Qed.

Ltac in_cases H :=
  cbn in H; repeat (destruct H as [H|H]; [try discriminate H|]);
  try contradiction.

(** X25: the key of a turn is the answer of [cv2.waitKey] modulo 256: when
    the turn reaches [waitKey] and gets k, it leaves the loop with the
    "Quitting" line, writing no snapshot and without the duration check,
    exactly when k mod 256 is 113 (q); it writes the next snapshot exactly
    when k mod 256 is 115 (s); for any other answer, -1 (no key) among
    them, it does neither. *)
Theorem main_key_handling (args : Args) (start : float) (it : IterEnv)
    (st : MainState) (k : Z) :
  it_waitKey it = Ret k ->
  let r := main_iteration args start it st in
  In (MainWaitKey 1) (snd r) ->
  (k mod 256 = 113 ->
   fst (fst r) = Ret false /\ In (MainPrint MsgQuitting) (snd r) /\
   written_files (snd r) = [] /\ ~ In MainTime (snd r)) /\
  (k mod 256 = 115 ->
   written_files (snd r) = [snapshot_filename (snapshot_count st + 1)] /\
   ~ In (MainPrint MsgQuitting) (snd r)) /\
  (k mod 256 <> 113 -> k mod 256 <> 115 ->
   written_files (snd r) = [] /\ ~ In (MainPrint MsgQuitting) (snd r) /\
   snapshot_count (snd (fst r)) = snapshot_count st).
Proof.
  intros Hk. destruct st as [cam sc], it as [rd ft pt im wk iw tm].
  cbn [it_waitKey] in Hk. subst wk.
  cbv zeta. unfold main_iteration, ord_q, ord_s. unfold_script.
  cbn [camera snapshot_count it_read it_fps_time it_putText it_imshow
       it_waitKey it_imwrite it_time set_camera set_snapshot_count].
  rewrite read_run, land_255.
  destruct (cap cam) as [c|] eqn:Hc.
  2:{ intros Hin; in_cases Hin. }
  destruct rd as [[[|] fr]|e]; script_simpl.
  2:{ intros Hin; in_cases Hin. }
  2:{ intros Hin; in_cases Hin. }
  destruct (get_fps_result ft (set_frame_count (frame_count cam + 1) cam))
    as (r & t & -> & Ht).
  destruct r as [v|e]; script_simpl.
  2:{ destruct Ht as [-> | ->]; intros Hin; in_cases Hin. }
  destruct pt as [[]|e]; script_simpl.
  2:{ destruct Ht as [-> | ->]; intros Hin; in_cases Hin. }
  destruct (args_no_display args) eqn:Hnd; script_simpl;
    [|destruct im as [[]|e]; script_simpl;
      [|destruct Ht as [-> | ->]; intros Hin; in_cases Hin]];
    (destruct (Z.eqb_spec (k mod 256) 113) as [Hq|Hq]; script_simpl;
     [intros _; split; [|split];
      [intros _; destruct Ht as [-> | ->];
       (split; [reflexivity|]); (split; [cbn; auto 12|]);
       (split; [reflexivity|]); intros Hin; in_cases Hin
      |intros Hx; exfalso; lia
      |intros Hx; exfalso; lia]
     |]);
    (destruct (Z.eqb_spec (k mod 256) 115) as [Hs|Hs]; script_simpl);
    script_cases; intros _; (split; [|split]);
    try (intros Hx; exfalso; lia);
    try (intros Hx Hy; exfalso; lia);
    intros; destruct Ht as [-> | ->];
    repeat split; try reflexivity; intros Hin; in_cases Hin.
Qed.

Lemma main_key_handling_witness :
  let st := mkMainState (state_of (open env_good camera0)) 0 in
  let r := main_iteration default_args 100%float (turn_frame 1048691) st in
  it_waitKey (turn_frame 1048691) = Ret 1048691 /\
  In (MainWaitKey 1) (snd r) /\
  1048691 mod 256 = 115 /\
  written_files (snd r) = ["snapshot_001.jpg"].
Proof.
  intros st r.
  assert (Hin : In (MainWaitKey 1) (snd r)) by (cbn; auto 10).
  destruct (main_key_handling default_args 100%float (turn_frame 1048691) st
              1048691 eq_refl Hin) as (_ & Hs & _).
  split; [reflexivity|]. split; [exact Hin|]. split; [reflexivity|].
  exact (proj1 (Hs eq_refl)).
Defined.

(** The duration line of one turn. *)
Lemma main_iteration_duration (args : Args) (start : float) (it : IterEnv)
    (st : MainState) (d : Z) :
  In (MainPrint (MsgDurationReached d)) (snd (main_iteration args start it st)) ->
  d = args_duration args /\ 0 < d /\
  float_ge_int (PrimFloat.sub (it_time it) start) d = true /\
  fst (fst (main_iteration args start it st)) = Ret false.
Proof.
  destruct st as [cam sc], it as [rd ft pt im wk iw tm].
  unfold main_iteration, ord_q, ord_s. unfold_script.
  cbn [camera snapshot_count it_read it_fps_time it_putText it_imshow
       it_waitKey it_imwrite it_time set_camera set_snapshot_count].
  rewrite read_run.
  destruct (cap cam) as [c|] eqn:Hc.
  2:{ intros Hin; in_cases Hin. }
  destruct rd as [[[|] fr]|e]; script_simpl.
  2:{ intros Hin; in_cases Hin. }
  2:{ intros Hin; in_cases Hin. }
  destruct (get_fps_result ft (set_frame_count (frame_count cam + 1) cam))
    as (r & t & -> & Ht).
  destruct (Z.gtb_spec (args_duration args) 0) as [Hd|Hd];
    destruct (float_ge_int (PrimFloat.sub tm start) (args_duration args)) eqn:Hge;
    destruct Ht as [-> | ->]; destruct r as [v|e]; script_cases;
    intros Hin; in_cases Hin;
    inversion Hin; subst; repeat split; try reflexivity; try lia;
    try assumption.
Qed.

(** X26: [main] prints the duration line only when [--duration] is positive
    and, in some turn, the wall clock read in that turn minus the one read
    before the loop is at least the duration; so with [--duration 0], the
    default, the run is never ended by the duration. *)
Theorem main_duration (args : Args) (env : MainEnv) (d : Z) :
  In (MainPrint (MsgDurationReached d)) (snd (main args env)) ->
  d = args_duration args /\ 0 < d /\
  exists it,
    In it (main_iterations env) /\
    float_ge_int (PrimFloat.sub (it_time it) (main_start_time env)) d = true.
Proof.
  assert (Hloop : forall its st,
            In (MainPrint (MsgDurationReached d))
               (snd (main_loop args (main_start_time env) its st)) ->
            d = args_duration args /\ 0 < d /\
            exists it, In it its /\
              float_ge_int (PrimFloat.sub (it_time it) (main_start_time env)) d = true).
  { induction its as [|it its IH]; intros st; [intros []|].
    cbn [main_loop].
    pose proof (main_iteration_duration args (main_start_time env) it st d) as H1.
    destruct (main_iteration args (main_start_time env) it st)
      as [[[[|]|e] st1] t1]; cbn [fst snd] in *.
    - specialize (IH st1).
      destruct (main_loop args (main_start_time env) its st1) as [[r st2] t2].
      cbn [snd] in *. intros Hin. apply in_app_or in Hin.
      destruct Hin as [Hin|Hin].
      + destruct (H1 Hin) as (_ & _ & _ & Hf). discriminate Hf.
      + destruct (IH Hin) as (Hd & Hp & it' & Hit & Hge).
        split; [exact Hd|]. split; [exact Hp|].
        exists it'. split; [right; exact Hit|exact Hge].
    - intros Hin. destruct (H1 Hin) as (Hd & Hp & Hge & _).
      split; [exact Hd|]. split; [exact Hp|].
      exists it. split; [left; reflexivity|exact Hge].
    - intros Hin. destruct (H1 Hin) as (_ & _ & _ & Hf). discriminate Hf. }
  assert (Hcam : forall t, ~ In (MainPrint (MsgDurationReached d)) (map MainCamera t)).
  { intros t Hin. apply in_map_iff in Hin. destruct Hin as (x & Hx & _).
    discriminate Hx. }
  assert (Hend : forall ro st,
            ~ In (MainPrint (MsgDurationReached d)) (snd (main_end env ro st))).
  { intros ro st. unfold main_end, main_finally. unfold_script.
    rewrite close_run. script_simpl.
    destruct (get_fps_result (main_final_time env) (set_cap None (camera st)))
      as (r & t & E & Ht).
    destruct (main_destroy env) as [[]|e]; script_simpl.
    - rewrite E. script_simpl.
      destruct r as [v|e]; script_simpl; cbn [snd]; intros Hin;
        apply in_app_or in Hin; destruct Hin as [Hin|Hin];
        try (destruct ro as [u|e0]; [|destruct (exn_cls e0)]; in_cases Hin; fail);
        apply in_app_or in Hin; destruct Hin as [Hin|Hin];
        try (exact (Hcam _ Hin));
        destruct Ht as [-> | ->]; in_cases Hin.
    - cbn [snd]. intros Hin.
      apply in_app_or in Hin; destruct Hin as [Hin|Hin];
        try (destruct ro as [u|e0]; [|destruct (exn_cls e0)]; in_cases Hin; fail).
      apply in_app_or in Hin; destruct Hin as [Hin|Hin];
        [exact (Hcam _ Hin)|in_cases Hin]. }
  unfold main. fold (main_camera0 args). rewrite main_setup_run. cbn [camera].
  destruct (open (main_open env) (main_camera0 args)) as [[[[|]|e] cam] topen];
    cbn [fst snd].
  - set (st1 := set_camera cam {| camera := main_camera0 args; snapshot_count := 0 |}).
    specialize (Hloop (main_iterations env) st1).
    destruct (main_loop args (main_start_time env) (main_iterations env) st1)
      as [[rl st2] t2]; cbn [snd] in *.
    assert (Hpre : forall x,
              In (MainPrint (MsgDurationReached d))
                 ((main_header ++ map MainCamera topen ++
                   [MainPrint MsgStarting; MainPrint MsgKeys; MainTime]) ++ x) ->
              In (MainPrint (MsgDurationReached d)) x).
    { intros x Hin. apply in_app_or in Hin. destruct Hin as [Hin|Hin]; [|exact Hin].
      exfalso. apply in_app_or in Hin. destruct Hin as [Hin|Hin]; [in_cases Hin|].
      apply in_app_or in Hin. destruct Hin as [Hin|Hin];
        [exact (Hcam _ Hin)|in_cases Hin]. }
    destruct rl as [u|e|].
    + pose proof (Hend (Ret tt) st2) as He.
      destruct (main_end env (Ret tt) st2) as [[r3 st3] t3]; cbn [snd] in *.
      intros Hin. apply Hpre in Hin. apply in_app_or in Hin.
      destruct Hin as [Hin|Hin]; [exact (Hloop Hin)|contradiction].
    + pose proof (Hend (Raise e) st2) as He.
      destruct (main_end env (Raise e) st2) as [[r3 st3] t3]; cbn [snd] in *.
      intros Hin. apply Hpre in Hin. apply in_app_or in Hin.
      destruct Hin as [Hin|Hin]; [exact (Hloop Hin)|contradiction].
    + cbn [snd]. intros Hin. apply Hpre in Hin. exact (Hloop Hin).
  - intros Hin. exfalso.
    apply in_app_or in Hin. destruct Hin as [Hin|Hin]; [in_cases Hin|].
    apply in_app_or in Hin. destruct Hin as [Hin|Hin];
      [exact (Hcam _ Hin)|in_cases Hin].
  - intros Hin. exfalso.
    apply in_app_or in Hin. destruct Hin as [Hin|Hin]; [in_cases Hin|].
    exact (Hcam _ Hin).
Qed.

Lemma main_duration_witness :
  let args := mkArgs "/dev/video0" 640 480 30 true true 2 in
  let env := env_main [turn_frame (-1)] in
  In (MainPrint (MsgDurationReached 2)) (snd (main args env)) /\
  float_ge_int (PrimFloat.sub 102%float 100%float) 2 = true.
Proof.
  intros args env.
  assert (Hin : In (MainPrint (MsgDurationReached 2)) (snd (main args env)))
    by (cbn; auto 40).
  split; [exact Hin|].
  destruct (main_duration args env 2 Hin) as (_ & _ & it & Hit & Hge).
  destruct Hit as [<-|[]]. exact Hge.
Defined.

(** * [test_capture_v2.py] *)

Ltac unfold_v2 :=
  unfold v2_print, ptry_except_Exception, pcall, pbind, pret, pget, pmodify.

Lemma v2_count_app (p : v2_event -> bool) (t1 t2 : list v2_event) :
  v2_count p (t1 ++ t2) = (v2_count p t1 + v2_count p t2)%nat.
Proof.
  unfold v2_count; rewrite filter_app, length_app; reflexivity.
Qed.

(** One turn of the loop, whatever the answers: the count never decreases
    and nothing is released. *)
Lemma v2_iteration_any (c : Cap) (i : nat) (it : V2Turn) (n : Z) :
  let r := v2_iteration c i it n in
  n <= snd (fst r) /\ v2_count is_v2_release (snd r) = 0%nat.
Proof.
  cbv zeta. unfold v2_iteration. unfold_v2.
  destruct it as [rd iw sl]. cbn [v2_read v2_imwrite v2_sleep].
  destruct rd as [[[|] [f|]]|e]; cbn [fst snd app];
    try destruct (n + 1 =? 1); cbn [fst snd app];
    try destruct iw as [b|e]; cbn [fst snd app];
    try destruct sl as [[]|e']; cbn [fst snd app];
    split; try reflexivity; lia.
Qed.

(** One turn of the loop all of whose calls return. *)
Lemma v2_iteration_returns (c : Cap) (i : nat) (it : V2Turn) (n : Z) :
  v2_returns it = true ->
  exists t,
    v2_iteration c i it n = (Ret tt, n + (if v2_good it then 1 else 0), t) /\
    v2_count is_v2_read t = 1%nat /\
    v2_count is_v2_imwrite t =
      if v2_good it && (n =? 0) then 1%nat else 0%nat.
Proof.
  unfold v2_returns, v2_good, v2_iteration. unfold_v2.
  destruct it as [rd iw sl]. cbn [v2_read v2_imwrite v2_sleep].
  destruct rd as [[[|] [f|]]|e]; try discriminate;
    destruct iw as [b|e]; try discriminate;
    destruct sl as [[]|e]; try discriminate; intros _; cbn [fst snd app andb].
  - replace (n + 1 =? 1) with (n =? 0)
      by (destruct (Z.eqb_spec n 0), (Z.eqb_spec (n + 1) 1); lia || reflexivity).
    destruct (n =? 0); cbn [fst snd app]; eexists; repeat split.
  - rewrite Z.add_0_r. eexists; repeat split.
  - rewrite Z.add_0_r. eexists; repeat split.
  - rewrite Z.add_0_r. eexists; repeat split.
Qed.

Lemma v2_loop_any (c : Cap) (turn : nat -> V2Turn) (indices : list nat) :
  forall n,
    let r := v2_loop c turn indices n in
    n <= snd (fst r) /\ v2_count is_v2_release (snd r) = 0%nat.
Proof.
  induction indices as [|i rest IH]; intros n; [cbn; split; [lia|reflexivity]|].
  cbv zeta. cbn [v2_loop]. unfold pbind.
  destruct (v2_iteration_any c i (turn i) n) as (Hle & Hr).
  destruct (v2_iteration c i (turn i) n) as [[[u|e] n1] t1]; cbn [fst snd] in *.
  - destruct (IH n1) as (Hle2 & Hr2).
    destruct (v2_loop c turn rest n1) as [[r n2] t2]; cbn [fst snd] in *.
    rewrite v2_count_app, Hr, Hr2. split; [lia|reflexivity].
  - split; assumption.
Qed.

Lemma v2_loop_returns (c : Cap) (turn : nat -> V2Turn) (indices : list nat) :
  forall n,
    0 <= n ->
    (forall i, In i indices -> v2_returns (turn i) = true) ->
    let good := length (filter v2_good (map turn indices)) in
    exists t,
      v2_loop c turn indices n = (Ret tt, n + Z.of_nat good, t) /\
      v2_count is_v2_read t = length indices /\
      v2_count is_v2_imwrite t =
        if (n =? 0) && (0 <? good)%nat then 1%nat else 0%nat.
Proof.
  induction indices as [|i rest IH]; intros n Hn Hret; cbv zeta.
  - cbn. exists []. rewrite Z.add_0_r, andb_false_r. repeat split.
  - cbn [v2_loop map filter]. unfold pbind at 1.
    destruct (v2_iteration_returns c i (turn i) n (Hret i (or_introl eq_refl)))
      as (t1 & -> & Hr1 & Hw1).
    assert (Hn1 : 0 <= n + (if v2_good (turn i) then 1 else 0))
      by (destruct (v2_good (turn i)); lia).
    destruct (IH _ Hn1 (fun j Hj => Hret j (or_intror Hj))) as (t2 & -> & Hr2 & Hw2).
    eexists; split; [|split].
    + f_equal. f_equal.
      destruct (v2_good (turn i)); cbn [length]; lia.
    + rewrite v2_count_app, Hr1, Hr2. reflexivity.
    + rewrite v2_count_app, Hw1, Hw2.
      destruct (v2_good (turn i)); cbn [length andb].
      * destruct (Z.eqb_spec n 0) as [->|Hne]; cbn.
        -- reflexivity.
        -- destruct (Z.eqb_spec (n + 1) 0); [lia|reflexivity].
      * rewrite Z.add_0_r. reflexivity.
Qed.

(** X27: when the capture opens and every call returns, the script reads
    exactly ten times, counts the reads that give a true flag and a frame
    object (a true flag with [None] is skipped), writes [test_frame.jpg]
    once, for the first counted frame only, releases the capture once, and
    exits with 0 when at least one frame was counted and with 1 when none
    was. *)
Theorem v2_exit_code (env : V2Env) (c : Cap) :
  v2_VideoCapture env = Ret c ->
  v2_isOpened env = Ret true ->
  v2_stabilize env = Ret tt ->
  (forall i, In i (seq 0 10) -> v2_returns (v2_turn env i) = true) ->
  let good := length (filter v2_good (map (v2_turn env) (seq 0 10))) in
  let r := test_capture_v2 env in
  fst (fst r) = Ret (if (0 <? good)%nat then 0 else 1) /\
  snd (fst r) = Z.of_nat good /\
  v2_count is_v2_read (snd r) = 10%nat /\
  v2_count is_v2_release (snd r) = 1%nat /\
  v2_count is_v2_imwrite (snd r) = (if (0 <? good)%nat then 1 else 0)%nat.
Proof.
  intros Hc Ho Hs Hret. cbv zeta.
  destruct (v2_loop_returns c (v2_turn env) (seq 0 10) 0 (Z.le_refl 0) Hret)
    as (t & Hloop & Hr & Hw).
  destruct (v2_loop_any c (v2_turn env) (seq 0 10) 0) as (_ & Hrel).
  cbv zeta in Hloop, Hw. rewrite Z.add_0_l in Hloop.
  rewrite Hloop in Hrel. cbn [snd] in Hrel.
  set (good := length (filter v2_good (map (v2_turn env) (seq 0 10)))) in *.
  unfold test_capture_v2, v2_body. unfold_v2.
  rewrite Hc, Ho, Hs. cbn [fst snd app negb].
  rewrite Hloop. cbn [fst snd app].
  assert (Hgt : (Z.of_nat good >? 0) = (0 <? good)%nat).
  { destruct (Nat.ltb_spec 0 good); destruct (Z.gtb_spec (Z.of_nat good) 0);
      try reflexivity; lia. }
  rewrite Hgt. cbn [Z.eqb andb] in Hw.
  unfold v2_count in *.
  destruct (0 <? good)%nat; cbn [fst snd app];
    (split; [reflexivity|]); (split; [reflexivity|]);
    cbn [filter is_v2_read is_v2_release is_v2_imwrite length];
    rewrite !filter_app, !length_app;
    cbn [filter is_v2_read is_v2_release is_v2_imwrite length];
    rewrite Hr, Hw, Hrel; repeat split.
Qed.

Lemma v2_exit_code_witness :
  v2_VideoCapture v2_env_two = Ret 3%nat /\
  v2_isOpened v2_env_two = Ret true /\
  v2_stabilize v2_env_two = Ret tt /\
  (forall i, In i (seq 0 10) -> v2_returns (v2_turn v2_env_two i) = true) /\
  fst (fst (test_capture_v2 v2_env_two)) = Ret 0 /\
  snd (fst (test_capture_v2 v2_env_two)) = 2 /\
  v2_count is_v2_imwrite (snd (test_capture_v2 v2_env_two)) = 1%nat.
Proof.
  assert (Hret : forall i, In i (seq 0 10) ->
                           v2_returns (v2_turn v2_env_two i) = true).
  { intros i Hi. cbn in Hi.
    repeat (destruct Hi as [<-|Hi]; [reflexivity|]). contradiction. }
  destruct (v2_exit_code v2_env_two 3%nat eq_refl eq_refl eq_refl Hret)
    as (H1 & H2 & _ & _ & H5).
  split; [reflexivity|]. split; [reflexivity|]. split; [reflexivity|].
  split; [exact Hret|]. split; [exact H1|]. split; [exact H2|exact H5].
Defined.

(** X28: the script ends with exit code 0 or 1 unless an exception outside
    [Exception] ends it; it exits with 0 only after releasing the capture,
    with at least one frame counted; when [isOpened()] is false it exits
    with 1 at once, reading nothing and without [release()]; every
    [Exception] raised by a call gives exit code 1 after the traceback, and
    the capture is not released then either. *)
Theorem v2_failure_paths (env : V2Env) :
  let r := test_capture_v2 env in
  (forall z, fst (fst r) = Ret z -> z = 0 \/ z = 1) /\
  (forall e, fst (fst r) = Raise e -> is_Exception (exn_cls e) = false) /\
  (fst (fst r) = Ret 0 ->
   v2_count is_v2_release (snd r) = 1%nat /\ 0 < snd (fst r)) /\
  (forall c,
     v2_VideoCapture env = Ret c -> v2_isOpened env = Ret false ->
     fst (fst r) = Ret 1 /\
     v2_count is_v2_read (snd r) = 0%nat /\
     v2_count is_v2_release (snd r) = 0%nat) /\
  (In V2Traceback (snd r) ->
   fst (fst r) = Ret 1 /\ v2_count is_v2_release (snd r) = 0%nat).
Proof.
  cbv zeta. unfold test_capture_v2, v2_body. unfold_v2.
  destruct (v2_VideoCapture env) as [c|e]; cbn [fst snd app].
  2:{ destruct (is_Exception (exn_cls e)) eqn:E; cbn [fst snd app].
      - split; [intros z H; inversion H; auto|].
        split; [discriminate|]. split; [discriminate|].
        split; [discriminate|]. intros _; split; reflexivity.
      - split; [discriminate|].
        split; [intros e' H; inversion H; subst; exact E|].
        split; [discriminate|]. split; [discriminate|].
        intros H; in_cases H. }
  destruct (v2_isOpened env) as [[|]|e]; cbn [fst snd app negb].
  3:{ destruct (is_Exception (exn_cls e)) eqn:E; cbn [fst snd app].
      - split; [intros z H; inversion H; auto|].
        split; [discriminate|]. split; [discriminate|].
        split; [discriminate|]. intros _; split; reflexivity.
      - split; [discriminate|].
        split; [intros e' H; inversion H; subst; exact E|].
        split; [discriminate|]. split; [discriminate|].
        intros H; in_cases H. }
  2:{ split; [intros z H; inversion H; auto|].
      split; [discriminate|]. split; [discriminate|].
      split; [intros c' _ _; repeat split|]. intros H; in_cases H. }
  destruct (v2_stabilize env) as [[]|e]; cbn [fst snd app].
  2:{ destruct (is_Exception (exn_cls e)) eqn:E; cbn [fst snd app].
      - split; [intros z H; inversion H; auto|].
        split; [discriminate|]. split; [discriminate|].
        split; [discriminate|]. intros _; split; reflexivity.
      - split; [discriminate|].
        split; [intros e' H; inversion H; subst; exact E|].
        split; [discriminate|]. split; [discriminate|].
        intros H; in_cases H. }
  destruct (v2_loop_any c (v2_turn env) (seq 0 10) 0) as (Hle & Hrel).
  assert (Hnotb : ~ In V2Traceback (snd (v2_loop c (v2_turn env) (seq 0 10) 0))).
  { generalize 0 at 1. generalize (seq 0 10).
    induction l as [|i rest IH]; intros n; [intros []|].
    cbn [v2_loop]. unfold pbind.
    assert (H1 : ~ In V2Traceback (snd (v2_iteration c i (v2_turn env i) n))).
    { unfold v2_iteration. unfold_v2.
      destruct (v2_turn env i) as [rd iw sl]. cbn [v2_read v2_imwrite v2_sleep].
      destruct rd as [[[|] [f|]]|e]; cbn [fst snd app];
        try destruct (n + 1 =? 1); cbn [fst snd app];
        try destruct iw as [b|e]; cbn [fst snd app];
        try destruct sl as [[]|e']; cbn [fst snd app];
        intros H; in_cases H. }
    destruct (v2_iteration c i (v2_turn env i) n) as [[[u|e] n1] t1];
      cbn [fst snd] in *; [|exact H1].
    specialize (IH n1).
    destruct (v2_loop c (v2_turn env) rest n1) as [[r n2] t2]; cbn [fst snd] in *.
    intros H. apply in_app_or in H. tauto. }
  unfold v2_count in *.
  destruct (v2_loop c (v2_turn env) (seq 0 10) 0) as [[[u|e] n] t];
    cbn [fst snd app] in *.
  - destruct (Z.gtb_spec n 0) as [Hn|Hn]; cbn [fst snd app];
      (split; [intros z H; inversion H; auto|]);
      (split; [discriminate|]).
    + split.
      * intros _. split; [|exact Hn].
        cbn [filter is_v2_release length].
        rewrite !filter_app, !length_app. cbn [filter is_v2_release length].
        rewrite Hrel. reflexivity.
      * split; [discriminate|]. intros H. exfalso.
        in_cases H. apply in_app_or in H. destruct H as [H|H];
          [contradiction|in_cases H].
    + split; [discriminate|]. split; [discriminate|].
      intros H. exfalso.
      in_cases H. apply in_app_or in H. destruct H as [H|H];
        [contradiction|in_cases H].
  - destruct (is_Exception (exn_cls e)) eqn:E; cbn [fst snd app].
    + split; [intros z H; inversion H; auto|].
      split; [discriminate|]. split; [discriminate|].
      split; [discriminate|]. intros _; split; [reflexivity|].
      cbn [filter is_v2_release length].
      rewrite !filter_app, !length_app. cbn [filter is_v2_release length].
      rewrite Hrel. reflexivity.
    + split; [discriminate|].
      split; [intros e' H; inversion H; subst; exact E|].
      split; [discriminate|]. split; [discriminate|].
      intros H. exfalso. in_cases H.
Qed.

(** * [test_vision_simple.py] *)

Ltac unfold_tvs :=
  unfold tvs_camera, tvs_print, on_camera, pexcept_KeyboardInterrupt, pfinally,
    pcall, pbind, pret, pget, pmodify.

Lemma tvs_camera_events_app (t1 t2 : list tvs_event) :
  tvs_camera_events (t1 ++ t2) =
  (tvs_camera_events t1 ++ tvs_camera_events t2)%list.
Proof. apply flat_map_app. Qed.

Lemma tvs_camera_events_camera (t : list event) :
  tvs_camera_events (map TvsCamera t) = t.
Proof.
  induction t as [|e t IH]; [reflexivity|].
  cbn. f_equal. exact IH.
Qed.

Lemma tvs_iteration_inv (i : nat) (it : TvsTurn) (s : IMX219Camera) :
  let r := tvs_iteration i it s in
  cap (snd (fst r)) = cap s /\
  releases (tvs_camera_events (snd r)) = 0%nat /\
  constructions (tvs_camera_events (snd r)) = 0%nat /\
  (pulls (tvs_camera_events (snd r)) <= 1)%nat /\
  (cap s <> None -> tvs_returns it = true ->
   fst (fst r) = Ret tt /\
   pulls (tvs_camera_events (snd r)) = 1%nat /\
   frame_count (snd (fst r)) =
     frame_count s + (if tvs_ok it then 1 else 0)).
Proof.
  cbv zeta. unfold tvs_iteration, tvs_returns, tvs_ok. unfold_tvs.
  rewrite read_run.
  destruct it as [rd br ed sl]. cbn [tt_read tt_brightness tt_edge_density tt_sleep].
  destruct (cap s) as [c|] eqn:Hc.
  - destruct rd as [[[|] [f|]]|e]; cbn;
      try destruct br as [b|eb]; cbn;
      try destruct ed as [d|ee]; cbn;
      try destruct sl as [[]|es]; cbn;
      rewrite ?Hc; repeat split; try reflexivity; try lia;
      try (intros _ Hx; discriminate Hx); try (intros; lia).
  - destruct sl as [[]|es]; cbn; rewrite ?Hc;
      repeat split; try reflexivity; try lia; congruence.
Qed.

Lemma tvs_loop_inv (turn : nat -> TvsTurn) (indices : list nat)
    (s : IMX219Camera) :
  let r := tvs_loop turn indices s in
  cap (snd (fst r)) = cap s /\
  releases (tvs_camera_events (snd r)) = 0%nat /\
  constructions (tvs_camera_events (snd r)) = 0%nat /\
  (pulls (tvs_camera_events (snd r)) <= length indices)%nat /\
  (cap s <> None ->
   (forall i, In i indices -> tvs_returns (turn i) = true) ->
   fst (fst r) = Ret tt /\
   pulls (tvs_camera_events (snd r)) = length indices /\
   frame_count (snd (fst r)) =
     frame_count s +
     Z.of_nat (length (filter tvs_ok (map turn indices)))).
Proof.
  cbv zeta. revert s.
  induction indices as [|i rest IH]; intros s.
  - cbn. repeat split; try reflexivity; try lia.
  - cbn [tvs_loop]. unfold pbind.
    destruct (tvs_iteration_inv i (turn i) s) as (H1 & H2 & H3 & H4 & H5).
    destruct (tvs_iteration i (turn i) s) as [[[u|e] s1] t1]; cbn [fst snd] in *.
    + destruct (IH s1) as (I1 & I2 & I3 & I4 & I5).
      destruct (tvs_loop turn rest s1) as [[r s2] t2]; cbn [fst snd] in *.
      rewrite tvs_camera_events_app, releases_app, constructions_app, pulls_app.
      rewrite H2, H3, I2, I3.
      split; [congruence|]. split; [reflexivity|]. split; [reflexivity|].
      split; [cbn [length]; lia|].
      intros Hcap Hall.
      destruct (H5 Hcap (Hall i (or_introl eq_refl))) as (_ & P1 & F1).
      destruct (I5 ltac:(congruence) (fun j Hj => Hall j (or_intror Hj)))
        as (R & P2 & F2).
      split; [exact R|]. split; [cbn [length]; lia|].
      cbn [map filter]. rewrite F2, F1.
      destruct (tvs_ok (turn i)); cbn [length]; lia.
    + split; [exact H1|]. split; [exact H2|]. split; [exact H3|].
      split; [cbn [length]; lia|].
      intros Hcap Hall.
      destruct (H5 Hcap (Hall i (or_introl eq_refl))) as (R & _). discriminate R.
Qed.

Lemma tvs_camera_events_print (m : tvs_message) (t : list tvs_event) :
  tvs_camera_events (TvsPrint m :: t) = tvs_camera_events t.
Proof. reflexivity. Qed.

Lemma tvs_camera_events_cons (e : event) (t : list tvs_event) :
  tvs_camera_events (TvsCamera e :: t) = e :: tvs_camera_events t.
Proof. reflexivity. Qed.

Lemma tvs_camera_events_nil : tvs_camera_events [] = [].
Proof. reflexivity. Qed.

Ltac tvs_trace :=
  rewrite ?tvs_camera_events_print, ?tvs_camera_events_app,
    ?tvs_camera_events_camera, ?tvs_camera_events_print,
    ?tvs_camera_events_app, ?tvs_camera_events_print,
    ?tvs_camera_events_cons, ?tvs_camera_events_print,
    ?tvs_camera_events_nil, ?app_nil_r.

(** X29: the script [test_vision_simple.py] closes the camera it has opened.
    When [open()] returns True, then whatever the calls of the loop answer
    or raise, the run ends with the handle cleared, after exactly one
    [release()] and one [VideoCapture], with at most six pulls (the trial
    pull of [open] and five turns); it ends with exit code 0 or with an
    exception other than [KeyboardInterrupt]; when every call returns it
    ends with exit code 0 after six pulls and [frame_count] is the number
    of turns with a true flag.  When [open()] returns False the script exits
    with code 1 and does nothing more with the camera: when the reason is
    that [isOpened()] was false, the handle is still set and was never
    released. *)
Theorem tvs_closes_camera (env : TvsEnv) :
  let o := open (tvs_open env) tvs_camera0 in
  let r := test_vision_simple env in
  let t := tvs_camera_events (snd r) in
  (outcome_of o = Ret true ->
   cap (snd (fst r)) = None /\
   releases t = 1%nat /\
   constructions t = 1%nat /\
   (pulls t <= 6)%nat /\
   (forall z, fst (fst r) = Ret z -> z = 0) /\
   (forall e, fst (fst r) = Raise e -> exn_cls e <> KeyboardInterrupt) /\
   ((forall i, In i (seq 0 5) -> tvs_returns (tvs_turn env i) = true) ->
    fst (fst r) = Ret 0 /\
    pulls t = 6%nat /\
    frame_count (snd (fst r)) =
      Z.of_nat (length (filter tvs_ok (map (tvs_turn env) (seq 0 5)))))) /\
  (outcome_of o = Ret false ->
   fst (fst r) = Ret 1 /\ snd (fst r) = state_of o /\ t = trace_of o) /\
  (forall c,
     env_VideoCapture (tvs_open env) = Ret c ->
     env_isOpened (tvs_open env) = Ret false ->
     fst (fst r) = Ret 1 /\
     cap (snd (fst r)) = Some c /\
     releases t = 0%nat).
Proof.
  cbv zeta.
  pose proof (open_true_trace (tvs_open env) tvs_camera0) as Ht.
  pose proof (open_constructions (tvs_open env) tvs_camera0) as Hk.
  pose proof (open_not_opened_cap (tvs_open env) tvs_camera0) as Hn.
  unfold test_vision_simple. unfold_tvs.
  unfold outcome_of, state_of, trace_of in *.
  destruct (open (tvs_open env) tvs_camera0) as [[oo s1] t1].
  cbn [fst snd] in *.
  destruct oo as [[|]|e]; cbn [negb fst snd app].
  - split; [intros _|split; [discriminate|]].
    2:{ intros c Hv Hi.
        destruct (Hn c Hv ltac:(discriminate) Hi) as (Hx & _). discriminate Hx. }
    destruct (Ht eq_refl) as ((c & Hc) & Hf & Hr & Hp).
    change (frame_count tvs_camera0) with 0 in Hf.
    pose proof (tvs_loop_inv (tvs_turn env) (seq 0 5) s1) as Hl.
    cbv zeta in Hl.
    destruct (tvs_loop (tvs_turn env) (seq 0 5) s1) as [[rl s2] t2].
    cbn [fst snd] in Hl. destruct Hl as (L1 & L2 & L3 & L4 & L5).
    change (length (seq 0 5)) with 5%nat in *.
    assert (Hc2 : cap s2 = Some c) by congruence.
    destruct rl as [u|e].
    + cbn [fst snd app]. rewrite close_run, Hc2. cbn [fst snd app map].
      tvs_trace.
      rewrite !releases_app, !constructions_app, !pulls_app.
      rewrite Hr, Hk, Hp, L2, L3.
      split; [reflexivity|]. split; [reflexivity|]. split; [reflexivity|].
      split; [cbn; lia|].
      split; [intros z Hz; inversion Hz; reflexivity|].
      split; [discriminate|].
      intros Hall.
      destruct (L5 ltac:(congruence) Hall) as (_ & P & F).
      split; [reflexivity|]. split; [rewrite P; reflexivity|].
      cbn [frame_count set_cap]. rewrite F, Hf. reflexivity.
    + destruct (exn_cls e) eqn:E; cbn [fst snd app];
        rewrite close_run, Hc2; cbn [fst snd app map];
        tvs_trace;
        rewrite !releases_app, !constructions_app, !pulls_app;
        rewrite Hr, Hk, Hp, L2, L3;
        (split; [reflexivity|]); (split; [reflexivity|]);
        (split; [reflexivity|]); (split; [cbn; lia|]);
        (split; [intros z Hz; inversion Hz; reflexivity|]);
        (split; [intros e' He'; try discriminate He'; inversion He'; subst e';
                 rewrite E; discriminate|]);
        intros Hall; destruct (L5 ltac:(congruence) Hall) as (Hx & _);
        discriminate Hx.
  - split; [discriminate|]. split.
    + intros _. split; [reflexivity|]. split; [reflexivity|].
      tvs_trace. reflexivity.
    + intros c Hv Hi.
      destruct (Hn c Hv ltac:(discriminate) Hi) as (_ & Hcap & Hrel).
      split; [reflexivity|]. split; [exact Hcap|].
      tvs_trace. rewrite ?releases_app, Hrel. reflexivity.
  - split; [discriminate|]. split; [discriminate|].
    intros c Hv Hi.
    destruct (Hn c Hv ltac:(discriminate) Hi) as (Hx & _). discriminate Hx.
Qed.

Lemma tvs_closes_camera_witness :
  outcome_of (open (tvs_open tvs_env_four) tvs_camera0) = Ret true /\
  fst (fst (test_vision_simple tvs_env_four)) = Ret 0 /\
  cap (snd (fst (test_vision_simple tvs_env_four))) = None /\
  frame_count (snd (fst (test_vision_simple tvs_env_four))) = 4.
Proof.
  destruct (tvs_closes_camera tvs_env_four) as (H & _).
  destruct (H eq_refl) as (Hcap & _ & _ & _ & _ & _ & Hall).
  assert (Hret : forall i, In i (seq 0 5) ->
                           tvs_returns (tvs_turn tvs_env_four i) = true).
  { intros i Hi. cbn in Hi.
    repeat (destruct Hi as [<-|Hi]; [reflexivity|]). contradiction. }
  destruct (Hall Hret) as (H0 & _ & Hf).
  split; [reflexivity|]. split; [exact H0|]. split; [exact Hcap|exact Hf].
Defined.

(** * [camera_test.py] *)

Ltac unfold_ct :=
  unfold ct_frame_shape;
  unfold ct_print, ct_raise, ptry_except_Exception,
    pcall, pbind, pret, pget, pmodify.

Lemma ct_count_app (p : ct_event -> bool) (t1 t2 : list ct_event) :
  ct_count p (t1 ++ t2) = (ct_count p t1 + ct_count p t2)%nat.
Proof. unfold ct_count. rewrite filter_app, length_app. reflexivity. Qed.

Lemma ct_count_cons (p : ct_event -> bool) (e : ct_event) (t : list ct_event) :
  ct_count p (e :: t) = ((if p e then 1 else 0) + ct_count p t)%nat.
Proof. unfold ct_count. cbn [filter]. destruct (p e); reflexivity. Qed.

Lemma ct_count_nil (p : ct_event -> bool) : ct_count p [] = 0%nat.
Proof. reflexivity. Qed.

Ltac ct_counts :=
  repeat first [rewrite ct_count_app | rewrite ct_count_cons
               | rewrite ct_count_nil];
  cbn [is_ct_release is_ct_capture Nat.add].

Lemma test_opencv_capture_cases (env : CaptureEnv) (st : unit) :
  let r := test_opencv_capture env st in
  (forall b, fst (fst r) = Ret b -> b = opencv_passes env) /\
  (forall e, fst (fst r) = Raise e -> is_Exception (exn_cls e) = false) /\
  (opencv_passes env = true ->
   fst (fst r) = Ret true /\
   ct_count is_ct_release (snd r) = 1%nat /\
   ct_count is_ct_capture (snd r) = 1%nat) /\
  (ct_count is_ct_release (snd r) <= ct_count is_ct_capture (snd r))%nat /\
  (ct_count is_ct_capture (snd r) <= 1)%nat.
Proof.
  cbv zeta. unfold test_opencv_capture, opencv_passes.
  destruct env as [imp vc op rd ch dt].
  cbn [ce_import ce_VideoCapture ce_isOpened ce_read ce_channels ce_dtype].
  unfold_ct.
  destruct imp as [|msg|e0]; cbn [fst snd app].
  - destruct vc as [c|e1]; cbn [fst snd app];
      [destruct op as [[|]|e2]; cbn [fst snd app negb];
       [destruct rd as [[[|] [f|]]|e3]; cbn [fst snd app negb];
        [destruct ch as [n|e4]; cbn [fst snd app]
        | | | | ]
       | | ]
      | ];
      repeat match goal with
             | |- context [is_Exception (exn_cls ?e)] =>
                 let E := fresh "E" in
                 destruct (is_Exception (exn_cls e)) eqn:E; cbn [fst snd app]
             end;
      ct_counts;
      (split; [intros b Hb; try discriminate Hb; inversion Hb; reflexivity|]);
      (split; [intros e Hb; try discriminate Hb; inversion Hb; subst;
               assumption|]);
      (split; [intros Hb; try discriminate Hb; repeat split; reflexivity|]);
      split; lia.
  - ct_counts.
    split; [intros b Hb; inversion Hb; reflexivity|].
    split; [discriminate|]. split; [discriminate|]. split; lia.
  - destruct (is_Exception (exn_cls e0)) eqn:E; cbn [fst snd app];
      ct_counts;
      (split; [intros b Hb; try discriminate Hb; inversion Hb; reflexivity|]);
      (split; [intros e Hb; try discriminate Hb; inversion Hb; subst;
               assumption|]);
      (split; [discriminate|]); split; lia.
Qed.

Lemma test_gstreamer_pipeline_cases (env : CaptureEnv) (st : unit) :
  let r := test_gstreamer_pipeline env st in
  (forall b, fst (fst r) = Ret b -> b = gstreamer_passes env) /\
  (forall e, fst (fst r) = Raise e -> is_Exception (exn_cls e) = false) /\
  (gstreamer_passes env = true ->
   fst (fst r) = Ret true /\
   ct_count is_ct_release (snd r) = 1%nat /\
   ct_count is_ct_capture (snd r) = 1%nat) /\
  (ct_count is_ct_release (snd r) <= ct_count is_ct_capture (snd r))%nat /\
  (ct_count is_ct_capture (snd r) <= 1)%nat.
Proof.
  cbv zeta. unfold test_gstreamer_pipeline, gstreamer_passes.
  destruct env as [imp vc op rd ch dt].
  cbn [ce_import ce_VideoCapture ce_isOpened ce_read ce_channels ce_dtype].
  unfold_ct.
  destruct imp as [|msg|e0]; cbn [fst snd app].
  - destruct vc as [c|e1]; cbn [fst snd app];
      [destruct op as [[|]|e2]; cbn [fst snd app negb];
       [destruct rd as [[[|] [f|]]|e3]; cbn [fst snd app negb]
       | | ]
      | ];
      repeat match goal with
             | |- context [is_Exception (exn_cls ?e)] =>
                 let E := fresh "E" in
                 destruct (is_Exception (exn_cls e)) eqn:E; cbn [fst snd app]
             end;
      ct_counts;
      (split; [intros b Hb; try discriminate Hb; inversion Hb; reflexivity|]);
      (split; [intros e Hb; try discriminate Hb; inversion Hb; subst;
               assumption|]);
      (split; [intros Hb; try discriminate Hb; repeat split; reflexivity|]);
      split; lia.
  - ct_counts.
    split; [intros b Hb; inversion Hb; reflexivity|].
    split; [discriminate|]. split; [discriminate|]. split; lia.
  - destruct (is_Exception (exn_cls e0)) eqn:E; cbn [fst snd app];
      ct_counts;
      (split; [intros b Hb; try discriminate Hb; inversion Hb; reflexivity|]);
      (split; [intros e Hb; try discriminate Hb; inversion Hb; subst;
               assumption|]);
      (split; [discriminate|]); split; lia.
Qed.

Lemma test_camera_device_run (device_exists : bool) (st : unit) :
  exists t,
    test_camera_device device_exists st = (Ret device_exists, st, t) /\
    ct_count is_ct_release t = 0%nat /\ ct_count is_ct_capture t = 0%nat.
Proof.
  unfold test_camera_device. unfold_ct.
  destruct device_exists; cbn [fst snd app]; eexists;
    (split; [reflexivity|]); split; reflexivity.
Qed.

Lemma test_v4l2_run (answer : run_answer) (st : unit) :
  exists r t,
    test_v4l2 answer st = (r, st, t) /\
    (v4l2_goes_on answer = true -> r = Ret tt) /\
    (forall u, r = Ret u -> v4l2_goes_on answer = true) /\
    (forall e, r = Raise e -> is_Exception (exn_cls e) = false) /\
    ct_count is_ct_release t = 0%nat /\ ct_count is_ct_capture t = 0%nat.
Proof.
  unfold test_v4l2, v4l2_goes_on. unfold_ct.
  destruct answer as [code out| | |e]; cbn [fst snd app];
    try destruct (code =? 0)%Z; try destruct (is_Exception (exn_cls e)) eqn:E;
    cbn [fst snd app]; do 2 eexists;
    (split; [reflexivity|]);
    (split; [intros Hx; try discriminate Hx; reflexivity|]);
    (split; [intros u Hx; try discriminate Hx; reflexivity|]);
    (split; [intros e' Hx; try discriminate Hx; inversion Hx; subst;
             assumption|]);
    split; reflexivity.
Qed.

Lemma ct_summary_run (results : list (string * bool)) (st : unit) :
  exists t,
    ct_summary results st = (Ret tt, st, t) /\
    ct_count is_ct_release t = 0%nat /\ ct_count is_ct_capture t = 0%nat.
Proof.
  induction results as [|[name passed] rest IH].
  - eexists. split; [reflexivity|]. split; reflexivity.
  - destruct IH as (t & Ht & H1 & H2).
    cbn [ct_summary]. unfold_ct. fold ct_summary. rewrite Ht.
    eexists. split; [reflexivity|]. ct_counts. split; lia.
Qed.

(** X30: [camera_test.main] returns 0 exactly when [/dev/video0] exists, both
    capture tests get a capture that opens and gives a frame with a true
    flag (the OpenCV test also needs [frame.shape[2]]), and the answer of
    [subprocess.run] does not end the script; a result it returns is 0 or 1
    by the three tests alone, whatever [v4l2-ctl] answers; it is left only
    by an exception outside [Exception]; a run that returns 0 has built two
    captures and released both; no run releases more captures than it
    builds, and it builds at most two. *)
Theorem camera_test_main_result (env : CtEnv) :
  let r := camera_test_main env tt in
  let passed :=
    ct_device_exists env && opencv_passes (ct_opencv env) &&
    gstreamer_passes (ct_gstreamer env) in
  (fst (fst r) = Ret 0 <-> passed && v4l2_goes_on (ct_v4l2 env) = true) /\
  (forall z, fst (fst r) = Ret z -> z = if passed then 0 else 1) /\
  (forall e, fst (fst r) = Raise e -> is_Exception (exn_cls e) = false) /\
  (fst (fst r) = Ret 0 ->
   ct_count is_ct_capture (snd r) = 2%nat /\
   ct_count is_ct_release (snd r) = 2%nat) /\
  (ct_count is_ct_release (snd r) <= ct_count is_ct_capture (snd r))%nat /\
  (ct_count is_ct_capture (snd r) <= 2)%nat.
Proof.
  cbv zeta.
  remember (camera_test_main env tt) as r eqn:Hr.
  unfold camera_test_main in Hr.
  unfold pbind at 1 2 3 4 5 in Hr.
  unfold ct_print at 1 in Hr. unfold pcall in Hr.
  destruct (test_camera_device_run (ct_device_exists env) tt)
    as (t1 & R1 & D1 & D2).
  rewrite R1 in Hr.
  pose proof (test_opencv_capture_cases (ct_opencv env) tt) as Ho.
  cbv zeta in Ho.
  destruct (test_opencv_capture (ct_opencv env) tt) as [[r2 []] t2].
  cbn [fst snd] in Ho. destruct Ho as (O1 & O2 & O3 & O4 & O5).
  destruct r2 as [b2|e2].
  2:{ cbn [fst snd app] in Hr. subst r. cbn [fst snd].
      ct_counts. rewrite D1, D2.
      split; [split; [discriminate|]|].
      { intros Hp. apply andb_prop in Hp. destruct Hp as (Hp & _).
        apply andb_prop in Hp. destruct Hp as (Hp & _).
        apply andb_prop in Hp. destruct Hp as (_ & Hp).
        destruct (O3 Hp) as (Hx & _). discriminate Hx. }
      split; [discriminate|].
      split; [intros e He; inversion He; subst; apply O2; reflexivity|].
      split; [discriminate|]. split; lia. }
  pose proof (test_gstreamer_pipeline_cases (ct_gstreamer env) tt) as Hg.
  cbv zeta in Hg.
  destruct (test_gstreamer_pipeline (ct_gstreamer env) tt) as [[r3 []] t3].
  cbn [fst snd] in Hg. destruct Hg as (G1 & G2 & G3 & G4 & G5).
  destruct r3 as [b3|e3].
  2:{ cbn [fst snd app] in Hr. subst r. cbn [fst snd].
      ct_counts. rewrite D1, D2.
      split; [split; [discriminate|]|].
      { intros Hp. apply andb_prop in Hp. destruct Hp as (Hp & _).
        apply andb_prop in Hp. destruct Hp as (_ & Hp).
        destruct (G3 Hp) as (Hx & _). discriminate Hx. }
      split; [discriminate|].
      split; [intros e He; inversion He; subst; apply G2; reflexivity|].
      split; [discriminate|]. split; lia. }
  rewrite <- (O1 b2 eq_refl), <- (G1 b3 eq_refl).
  unfold pbind at 1 in Hr.
  destruct (test_v4l2_run (ct_v4l2 env) tt)
    as (rv & tv & RV & V1 & V2 & V3 & V4 & V5).
  rewrite RV in Hr.
  destruct rv as [[]|ev].
  2:{ cbn [fst snd app] in Hr. subst r. cbn [fst snd].
      ct_counts. rewrite D1, D2, V4, V5.
      split; [split; [discriminate|]|].
      { intros Hp. apply andb_prop in Hp. destruct Hp as (_ & Hp).
        specialize (V1 Hp). discriminate V1. }
      split; [discriminate|].
      split; [intros e He; inversion He; subst; apply V3; reflexivity|].
      split; [discriminate|]. split; lia. }
  rewrite (V2 tt eq_refl), andb_true_r.
  unfold pbind at 1 2 3 4 in Hr. unfold ct_print at 1 2 3 in Hr.
  unfold pcall at 1 2 3 in Hr.
  destruct (ct_summary_run
              [("Device Detection", ct_device_exists env);
               ("OpenCV Capture", b2); ("GStreamer Pipeline", b3)] tt)
    as (ts & RS & S1 & S2).
  rewrite RS in Hr.
  cbn [forallb snd andb] in Hr. rewrite andb_true_r in Hr.
  assert (Hb2 : b2 = true ->
                ct_count is_ct_release t2 = 1%nat /\
                ct_count is_ct_capture t2 = 1%nat).
  { intros ->. destruct (O3 (eq_sym (O1 true eq_refl))) as (_ & H1 & H2).
    tauto. }
  assert (Hb3 : b3 = true ->
                ct_count is_ct_release t3 = 1%nat /\
                ct_count is_ct_capture t3 = 1%nat).
  { intros ->. destruct (G3 (eq_sym (G1 true eq_refl))) as (_ & H1 & H2).
    tauto. }
  unfold ct_print, pcall, pbind, pret in Hr.
  destruct (ct_device_exists env), b2, b3; cbn [andb fst snd app] in Hr;
    subst r; cbn [andb fst snd];
    ct_counts; rewrite D1, D2, V4, V5, S1, S2;
    try (destruct (Hb2 eq_refl) as (-> & ->));
    try (destruct (Hb3 eq_refl) as (-> & ->));
    (split; [split; [intros Hx; try discriminate Hx; reflexivity
                    |intros Hx; try discriminate Hx; reflexivity]|]);
    (split; [intros z Hz; inversion Hz; reflexivity|]);
    (split; [discriminate|]);
    (split; [intros Hx; try discriminate Hx; split; reflexivity|]);
    split; lia.
Qed.

Lemma camera_test_main_result_witness :
  fst (fst (camera_test_main ct_env_good tt)) = Ret 0 /\
  ct_count is_ct_release (snd (camera_test_main ct_env_good tt)) = 2%nat.
Proof.
  destruct (camera_test_main_result ct_env_good) as (H0 & _ & _ & H2 & _).
  assert (Hr : fst (fst (camera_test_main ct_env_good tt)) = Ret 0)
    by (apply H0; reflexivity).
  split; [exact Hr|]. exact (proj2 (H2 Hr)).
Defined.
